(** * Sfiya.ai auto-reply pipeline: a shallow embedding of [src/ai/reply.ts]

    The file models the comment pipeline of [src/ai/reply.ts]:
    [analyzeSentiment], [generateReply], [detectSalesLead] and the
    Express handler [generateReplyHandler], and the two handlers that
    update the settings, [updateAutoReplySettingsHandler] and
    [updateBrandVoiceHandler].

    - JavaScript values are a small datatype [jsval]; the operators the
      source uses on them ([||], [===], template literals, property
      access, [Array.prototype.join]) are functions on it. A template
      literal converts its substitutions with [String]; the conversion
      throws on an object with an own [toString] property, and so does
      [join] on an array that holds one.
    - An [async] function is a computation in the monad [M]: it threads the
      [world] (the two ledger tables the handler writes, the log of the
      requests it has issued, the console, the Express response object) and
      either completes normally or throws.
    - What the outside answers is an [env]: the chat completion service may
      resolve or reject; a Supabase query builder resolves to a
      [{data, error}] pair (the client is not put in throw-on-error mode, so
      a failed query is reported in [error], never thrown).
    - Built-ins whose result the source only passes on ([JSON.parse],
      [JSON.stringify], [parseInt], number formatting) are fields of a
      [runtime] record. *)

From Stdlib Require Import String Ascii ZArith List Bool.
From Stdlib Require Import Floats.PrimFloat.
From stdpp Require Import base option gmap strings list fin_maps.

Local Open Scope string_scope.
Local Open Scope Z_scope.
Local Set Warnings "-register-all,-inexact-float".

(* ===================================================================== *)
(** * JavaScript values *)
(* ===================================================================== *)

Module JS.

Inductive jsval : Type :=
| JUndefined
| JNull
| JBool (b : bool)
| JNum (x : float)
| JStr (s : string)
| JArr (xs : list jsval)
| JObj (fields : list (string * jsval)).

(** What a [throw] carries: the two built-in errors the code can raise, or
    any other value (a rejected promise's reason, a query error). *)
Inductive exn : Type :=
| TypeError
| SyntaxError
| Thrown (reason : jsval).

Inductive completion (A : Type) : Type :=
| Normal (a : A)
| Throw (e : exn).
Arguments Normal {A} a.
Arguments Throw {A} e.

(** [ToBoolean]: [undefined], [null], [false], [0], [-0], [NaN] and the
    empty string are falsy, everything else is truthy. *)
Definition truthy (v : jsval) : bool :=
  match v with
  | JUndefined | JNull => false
  | JBool b => b
  | JNum x => negb (PrimFloat.is_zero x || PrimFloat.is_nan x)
  | JStr s => negb (String.eqb s "")
  | JArr _ | JObj _ => true
  end.

(** [a || b] *)
Definition js_or (a b : jsval) : jsval := if truthy a then a else b.

Definition nullish (v : jsval) : bool :=
  match v with
  | JUndefined | JNull => true
  | _ => false
  end.

(** [v === "lit"] *)
Definition strict_eq_str (v : jsval) (lit : string) : bool :=
  match v with
  | JStr s => String.eqb s lit
  | _ => false
  end.

(** The value stored under key [k] in an object's field list, [undefined]
    when there is none. *)
Fixpoint assoc (k : string) (fs : list (string * jsval)) : jsval :=
  match fs with
  | [] => JUndefined
  | (k', v) :: fs' => if String.eqb k k' then v else assoc k fs'
  end.

(** [v.k] for a data key [k] (none of the keys the source reads is on a
    built-in prototype): a [TypeError] on [undefined] and [null],
    [undefined] on a primitive or an array. *)
Definition get (v : jsval) (k : string) : completion jsval :=
  match v with
  | JUndefined | JNull => Throw TypeError
  | JObj fs => Normal (assoc k fs)
  | _ => Normal JUndefined
  end.

(** [v?.k] *)
Definition get_opt (v : jsval) (k : string) : jsval :=
  match v with
  | JObj fs => assoc k fs
  | _ => JUndefined
  end.

(** [s || lit] for [s : string | null | undefined] *)
Definition str_or (s : option string) (lit : string) : string :=
  match s with
  | Some t => if String.eqb t "" then lit else t
  | None => lit
  end.

(** Whether an object has an own property [k]. *)
Definition has_key (k : string) (fs : list (string * jsval)) : bool :=
  existsb (fun kv => String.eqb k (fst kv)) fs.

(** Whether [String(v)] returns. A value of [jsval] is a primitive, or
    a plain array or object (what [JSON.parse] or an object literal
    gives). Converting a plain object calls its [toString]: the one of
    [Object.prototype], which returns, unless the object has an own
    property of that name; that property holds a value that is not a
    function, the conversion falls through to [valueOf], which returns
    the object itself, and ends in a [TypeError]. Converting an array
    converts its elements, [null] and [undefined] apart. *)
Fixpoint convertible (v : jsval) : bool :=
  match v with
  | JArr xs => forallb convertible xs
  | JObj fs => negb (has_key "toString" fs)
  | _ => true
  end.

Definition dq : string := String (ascii_of_nat 34) EmptyString.
Definition nl : string := String (ascii_of_nat 10) EmptyString.

(** The built-ins the source calls and whose results it only passes on. *)
Record runtime : Type := {
  (** [JSON.parse]: [None] when it throws a [SyntaxError] *)
  JSON_parse : string -> option jsval;
  JSON_stringify : jsval -> string;
  parseInt : string -> float;
  (** [Number.prototype.toString] *)
  Number_toString : float -> string;
}.

Section Strings.
Context (rt : runtime).

(** What [String(v)] returns, when it returns. An array joins its
    elements with a comma, [null] and [undefined] elements giving the
    empty string. *)
Fixpoint render (v : jsval) : string :=
  match v with
  | JUndefined => "undefined"
  | JNull => "null"
  | JBool true => "true"
  | JBool false => "false"
  | JNum x => Number_toString rt x
  | JStr s => s
  | JArr xs =>
      (fix elems (l : list jsval) : string :=
         match l with
         | [] => ""
         | x :: l' =>
             (if nullish x then "" else render x) +:+
             match l' with [] => "" | _ :: _ => "," +:+ elems l' end
         end) xs
  | JObj _ => "[object Object]"
  end.

(** [String(v)], the conversion a template literal applies: a
    [TypeError] when [v] cannot be converted. *)
Definition to_string (v : jsval) : completion string :=
  if convertible v then Normal (render v) else Throw TypeError.

Definition join_item (x : jsval) : string :=
  if nullish x then "" else render x.

(** [xs.join(sep)] on an array's elements. *)
Definition array_join (sep : string) (xs : list jsval) : string :=
  String.concat sep (map join_item xs).

(** [v.join(sep)] where [v] is any value: only an array has the method;
    on [undefined] and [null] the property access throws, on anything
    else the call of a non-function does. The method converts every
    element that is not [null] or [undefined], and throws when one
    cannot be converted. *)
Definition call_join (v : jsval) (sep : string) : completion string :=
  match v with
  | JArr xs =>
      if forallb convertible xs then Normal (array_join sep xs) else Throw TypeError
  | _ => Throw TypeError
  end.

End Strings.

End JS.
Export JS.

(* ===================================================================== *)
(** * The outside world and the monad of [async] functions *)
(* ===================================================================== *)

Module Effects.

(** The argument of [openai.chat.completions.create]; a message is its
    role and its content. *)
Record chat_request : Type := {
  model : string;
  messages : list (string * string);
  temperature : float;
  max_tokens : float;
  frequency_penalty : option float;
}.

(** The part of a chat completion the source reads:
    [response.choices[0].message.content], a [string | null]. *)
Record chat_message : Type := { content : option string }.
Record choice : Type := { message : chat_message }.
Record chat_completion : Type := { choices : list choice }.

(** What an awaited Supabase query builder resolves to. *)
Record pg_result : Type := { data : jsval; error : jsval }.

Record pg_error : Type := { code : string; details : string }.

(** The error object of a failed query: an object, hence truthy. *)
Definition error_value (e : pg_error) : jsval :=
  JObj [("code", JStr (code e)); ("message", JStr (details e))].

(** The requests the module sends out. *)
Inductive call : Type :=
| SelectSingle (table column : string) (value : jsval)
| UpdateEq (table : string) (patch : list (string * jsval))
           (column : string) (value : jsval)
| InsertSingle (table : string) (row : list (string * jsval))
| ChatCreate (r : chat_request).

(** What the outside answers during one invocation. The [nat] is the
    number of requests the invocation has issued before this one. *)
Record env : Type := {
  (** [process.env.AI_MODEL], [process.env.MAX_TOKENS_PER_REQUEST] *)
  AI_MODEL : option string;
  MAX_TOKENS_PER_REQUEST : option string;
  (** the chat completion resolves, or the promise rejects *)
  chat_answer : nat -> chat_request -> completion chat_completion;
  (** [.select("*").eq(column, value).single()] on a table the pipeline
      only reads *)
  select_answer : nat -> string -> string -> jsval -> pg_result;
  (** the error, if any, with which the ledger refuses a write *)
  write_fault : nat -> call -> option pg_error;
  (** the [id] the ledger gives an inserted row *)
  new_id : nat -> jsval;
}.

(** The state an invocation runs in. [comments] is the table of that
    name, a row found under the text of its [id]; [auto_replies] holds
    the rows of that table in insertion order. *)
Record world : Type := {
  comments : gmap string (gmap string jsval);
  auto_replies : list jsval;
  calls : list call;
  console : list (string * exn);
  statusCode : Z;
  sent : list (Z * jsval);
}.

Definition push_call (c : call) (w : world) : world :=
  {| comments := comments w; auto_replies := auto_replies w;
     calls := calls w ++ [c]; console := console w;
     statusCode := statusCode w; sent := sent w |}.

Definition set_comments (cs : gmap string (gmap string jsval)) (w : world) : world :=
  {| comments := cs; auto_replies := auto_replies w;
     calls := calls w; console := console w;
     statusCode := statusCode w; sent := sent w |}.

Definition push_reply (r : jsval) (w : world) : world :=
  {| comments := comments w; auto_replies := auto_replies w ++ [r];
     calls := calls w; console := console w;
     statusCode := statusCode w; sent := sent w |}.

Definition push_console (l : string) (e : exn) (w : world) : world :=
  {| comments := comments w; auto_replies := auto_replies w;
     calls := calls w; console := console w ++ [(l, e)];
     statusCode := statusCode w; sent := sent w |}.

Definition set_status (n : Z) (w : world) : world :=
  {| comments := comments w; auto_replies := auto_replies w;
     calls := calls w; console := console w;
     statusCode := n; sent := sent w |}.

Definition push_sent (b : jsval) (w : world) : world :=
  {| comments := comments w; auto_replies := auto_replies w;
     calls := calls w; console := console w;
     statusCode := statusCode w; sent := sent w ++ [(statusCode w, b)] |}.

(** The world a handler starts in: the ledger as it is, nothing issued
    or logged yet, and a fresh response object (status 200, nothing
    sent). *)
Definition start (cs : gmap string (gmap string jsval)) (ars : list jsval) : world :=
  {| comments := cs; auto_replies := ars; calls := []; console := [];
     statusCode := 200; sent := [] |}.

(** An [async] function body: it changes the world and completes
    normally or throws; what it did before a throw stays done. *)
Definition M (A : Type) : Type := world -> completion A * world.

Definition ret {A} (a : A) : M A := fun w => (Normal a, w).

Definition bind {A B} (m : M A) (f : A -> M B) : M B :=
  fun w =>
    match m w with
    | (Normal a, w') => f a w'
    | (Throw e, w') => (Throw e, w')
    end.

Definition throw {A} (e : exn) : M A := fun w => (Throw e, w).

(** A pure step that may throw. *)
Definition lift {A} (c : completion A) : M A := fun w => (c, w).

(** [try { m } catch (error) { h error }] *)
Definition try_catch {A} (m : M A) (h : exn -> M A) : M A :=
  fun w =>
    match m w with
    | (Normal a, w') => (Normal a, w')
    | (Throw e, w') => h e w'
    end.

(** Sequencing inside a pure throwing computation. *)
Definition cbind {A B} (c : completion A) (f : A -> completion B) : completion B :=
  match c with
  | Normal a => f a
  | Throw e => Throw e
  end.

End Effects.
Export Effects.

Notation "'let*' x ':=' m 'in' k" := (bind m (fun x => k))
  (at level 10, x name, m at level 100, k at level 200).
Notation "m ';;' k" := (bind m (fun _ => k))
  (at level 100, k at level 200, right associativity).
Notation "'let?' x ':=' c 'in' k" := (cbind c (fun x => k))
  (at level 10, x name, c at level 100, k at level 200).

(* ===================================================================== *)
(** * [src/ai/reply.ts] *)
(* ===================================================================== *)

Section Reply.
Context (rt : runtime) (E : env).

(** ** The clients *)

(** [await openai.chat.completions.create(r)] *)
Definition chat_completions_create (r : chat_request) : M chat_completion :=
  fun w => (chat_answer E (length (calls w)) r, push_call (ChatCreate r) w).

(** [await supabase.from(table).select("*").eq(column, value).single()] *)
Definition select_single (table column : string) (value : jsval) : M pg_result :=
  fun w =>
    (Normal (select_answer E (length (calls w)) table column value),
     push_call (SelectSingle table column value) w).

(** The fields of [patch] written over a row. *)
Definition apply_patch (patch : list (string * jsval)) (row : gmap string jsval)
  : gmap string jsval :=
  foldl (fun r kv => <[kv.1 := kv.2]> r) row patch.

(** [await supabase.from("comments").update(patch).eq("id", id)]: unless
    the ledger refuses the write, the row with that [id], if there is
    one, gets the fields of [patch]. The table is keyed by the text of
    the [id]; how the client encodes an [id] is not part of the source. *)
Definition comments_update (patch : list (string * jsval)) (id : jsval) : M pg_result :=
  fun w =>
    let c := UpdateEq "comments" patch "id" id in
    match write_fault E (length (calls w)) c with
    | Some e => (Normal {| data := JNull; error := error_value e |}, push_call c w)
    | None =>
        (Normal {| data := JNull; error := JNull |},
         push_call c
           (set_comments (alter (apply_patch patch) (render rt id) (comments w)) w))
    end.

(** [await supabase.from("auto_replies").insert([row]).select().single()]:
    unless the ledger refuses the write, the row is stored with the
    [id] the ledger gives it and comes back as [data]. *)
Definition auto_replies_insert_single (row : list (string * jsval)) : M pg_result :=
  fun w =>
    let c := InsertSingle "auto_replies" row in
    match write_fault E (length (calls w)) c with
    | Some e => (Normal {| data := JNull; error := error_value e |}, push_call c w)
    | None =>
        let stored := JObj (("id", new_id E (length (calls w))) :: row) in
        (Normal {| data := stored; error := JNull |},
         push_call c (push_reply stored w))
    end.

(** [console.error(label, error)] *)
Definition console_error (label : string) (e : exn) : M unit :=
  fun w => (Normal tt, push_console label e w).

(** [res.status(n)] and [res.json(body)] *)
Definition res_status (n : Z) : M unit := fun w => (Normal tt, set_status n w).
Definition res_json (b : jsval) : M unit := fun w => (Normal tt, push_sent b w).

(** [process.env.AI_MODEL || "gpt-4-turbo"] *)
Definition ai_model : string := str_or (AI_MODEL E) "gpt-4-turbo".

Definition quoted (s : string) : string := dq +:+ s +:+ dq.

(** [response.choices[0].message.content] *)
Definition first_content (r : chat_completion) : completion (option string) :=
  match choices r with
  | [] => Throw TypeError
  | c :: _ => Normal (content (message c))
  end.

(** [JSON.parse(s)] *)
Definition json_parse (s : string) : completion jsval :=
  match JSON_parse rt s with
  | Some v => Normal v
  | None => Throw SyntaxError
  end.

(** ** SENTIMENT ANALYSIS *)

Record sentiment_result : Type := { sentiment : jsval; score : jsval }.

Definition sentiment_system_prompt : string :=
  String.concat nl [
    "You are a sentiment analyzer. Analyze the given text and respond with ONLY a JSON object (no markdown, no extra text).";
    "          ";
    "Format: {" +:+ quoted "sentiment" +:+ ": " +:+
      quoted "positive|negative|neutral|question|spam|hate" +:+ ", " +:+
      quoted "score" +:+ ": 0.0-1.0}";
    "";
    "Guidelines:";
    "- " +:+ quoted "positive" +:+ ": Compliments, appreciation, love, excited";
    "- " +:+ quoted "negative" +:+ ": Criticism, angry, disappointed, sad";
    "- " +:+ quoted "question" +:+ ": Asking something, seeking info";
    "- " +:+ quoted "spam" +:+ ": Repetitive, promotional, unrelated";
    "- " +:+ quoted "hate" +:+ ": Abusive, insulting, threatening";
    "- " +:+ quoted "neutral" +:+ ": Normal comment, just passing by"
  ].

Definition analyzeSentiment (text : jsval) : M sentiment_result :=
  try_catch
    ((* the template literal of the user message is evaluated, and may
        throw, before the request is sent *)
     let* shown := lift (to_string rt text) in
     let* response := chat_completions_create
       {| model := ai_model;
          messages := [
            ("system", sentiment_system_prompt);
            ("user", "Analyze this comment: " +:+ quoted shown)
          ];
          temperature := 0.3;
          max_tokens := 100;
          frequency_penalty := None |} in
     let* c := lift (first_content response) in
     let content := str_or c "{}" in
     let* parsed := lift (json_parse content) in
     let* s := lift (get parsed "sentiment") in
     let* sc := lift (get parsed "score") in
     ret {| sentiment := js_or s (JStr "neutral");
            score := js_or sc (JNum 0.5) |})
    (fun error =>
       console_error "Sentiment analysis error:" error ;;
       ret {| sentiment := JStr "neutral"; score := JNum 0.5 |}).

(** ** DETECT SALES LEADS *)

Record lead_result : Type := { is_lead : jsval; lead_temperature : jsval }.

Definition lead_system_prompt : string :=
  String.concat nl [
    "Detect if this is a potential sales lead. Respond with ONLY valid JSON.";
    "Format: {" +:+ quoted "is_lead" +:+ ": true/false, " +:+
      quoted "temperature" +:+ ": " +:+ quoted "hot|warm|cold" +:+ "}";
    "";
    "hot = Asking to buy, ready to transact, urgent";
    "warm = Interested, asking questions, considering";
    "cold = Not interested, just chatting"
  ].

Definition detectSalesLead (text : jsval) : M lead_result :=
  try_catch
    (let* shown := lift (to_string rt text) in
     let* response := chat_completions_create
       {| model := ai_model;
          messages := [
            ("system", lead_system_prompt);
            ("user", "Is this a sales lead? " +:+ quoted shown)
          ];
          temperature := 0.3;
          max_tokens := 50;
          frequency_penalty := None |} in
     let* c := lift (first_content response) in
     let content := str_or c "{}" in
     let* parsed := lift (json_parse content) in
     let* l := lift (get parsed "is_lead") in
     let* t := lift (get parsed "temperature") in
     ret {| is_lead := js_or l (JBool false);
            lead_temperature := js_or t (JStr "cold") |})
    (fun error =>
       console_error "Lead detection error:" error ;;
       ret {| is_lead := JBool false; lead_temperature := JStr "cold" |}).

(** ** GENERATE AI REPLY *)

Record reply_params : Type := {
  params_comment_text : jsval;
  params_user_id : jsval;
  params_tone : jsval;
  params_language : jsval;
  params_sentiment : jsval;
}.

(** [settings?.key ? `${label}${settings.key.join(", ")}` : ""] *)
Definition joined_rule (settings : jsval) (key label : string) : completion string :=
  if truthy (get_opt settings key) then
    let? l := get settings key in
    let? j := call_join rt l ", " in
    Normal (label +:+ j)
  else Normal "".

(** [settings?.key ? `${label}${settings.key}` : ""] *)
Definition line_rule (settings : jsval) (key label : string) : completion string :=
  if truthy (get_opt settings key) then
    let? l := get settings key in
    let? shown := to_string rt l in
    Normal (label +:+ shown)
  else Normal "".

(** The template literal of the system prompt; its substitutions are
    evaluated from left to right, and each conversion may throw. *)
Definition reply_system_prompt (params : reply_params) (brandVoice settings : jsval)
  : completion string :=
  let? language_or := to_string rt (js_or (params_language params) (JStr "English")) in
  let? brand_name := to_string rt (js_or (get_opt brandVoice "brand_name") (JStr "Creator")) in
  let? tone_or := to_string rt (js_or (params_tone params) (JStr "polite")) in
  let? catchphrases := joined_rule settings "catchphrases" "- Must include: " in
  let? emojis := joined_rule settings "signature_emojis" "- Must use these emojis: " in
  let? intro := line_rule settings "intro_line" "- Start with: " in
  let? outro := line_rule settings "outro_line" "- End with: " in
  let? language := to_string rt (params_language params) in
  let? blacklist := joined_rule settings "blacklisted_words" "✗ NEVER use these words: " in
  Normal (String.concat nl [
    "You are an AI assistant generating replies for " +:+ language_or +:+ ".";
    "";
    "BRAND VOICE:";
    brand_name;
    "Values: " +:+
      JSON_stringify rt (js_or (get_opt brandVoice "brand_values") (JArr []));
    "Personality: " +:+
      JSON_stringify rt (js_or (get_opt brandVoice "personality_traits") (JArr []));
    "";
    "TONE TO USE: " +:+ tone_or;
    "Tone Examples:";
    "- Hype: " +:+ quoted "YESS! This is exactly what I needed! 🔥";
    "- Funny: " +:+ quoted "Haha, you just made my day 😂";
    "- Formal: " +:+ quoted "Thank you for your feedback. We appreciate your input.";
    "- Polite: " +:+ quoted "Thanks so much for the kind words! Really appreciate it 🙏";
    "- Angry: " +:+ quoted "Seriously? That's not cool at all.";
    "- Savage: " +:+ quoted "Okay, that's fair. You win this round 😏";
    "- Roasting: " +:+ quoted "Well, well, well... you tried 😅";
    "";
    "SPECIAL INSTRUCTIONS:";
    catchphrases;
    emojis;
    intro;
    outro;
    "";
    "RULES:";
    "✓ Keep reply SHORT (1-3 sentences max)";
    "✓ Sound HUMAN, not robotic";
    "✓ Match the TONE perfectly";
    "✓ Match the LANGUAGE (" +:+ language +:+ ")";
    "✓ Never repeat generic responses";
    "✓ Avoid all policy violations";
    blacklist
  ]).

Definition generateReply (params : reply_params) : M string :=
  try_catch
    ((* Get user's brand voice *)
     let* bv := select_single "brand_voice" "user_id" (params_user_id params) in
     let brandVoice := data bv in
     let* st := select_single "auto_reply_settings" "user_id" (params_user_id params) in
     let settings := data st in
     (* Build prompt with user's brand voice *)
     let* systemPrompt := lift (reply_system_prompt params brandVoice settings) in
     let* tone := lift (to_string rt (params_tone params)) in
     let* language := lift (to_string rt (params_language params)) in
     let* sentiment := lift (to_string rt (params_sentiment params)) in
     let* comment_text := lift (to_string rt (params_comment_text params)) in
     let* response := chat_completions_create
       {| model := ai_model;
          messages := [
            ("system", systemPrompt);
            ("user",
             "Generate a " +:+ tone +:+ " reply in " +:+ language +:+
             " to this " +:+ sentiment +:+ " comment: " +:+ quoted comment_text)
          ];
          temperature := 0.7;
          max_tokens := parseInt rt (str_or (MAX_TOKENS_PER_REQUEST E) "500");
          frequency_penalty := Some 0.5%float |} in
     let* c := lift (first_content response) in
     ret (str_or c "Thanks for the comment! 🙌"))
    (fun error =>
       console_error "Reply generation error:" error ;;
       ret "Thanks for your comment! 🙌").

(** ** API: ANALYZE & GENERATE REPLY *)

(** An Express request, as far as the handler reads it: [req.body]. *)
Record request : Type := { body : jsval }.

Definition generateReplyHandler (req : request) : M unit :=
  try_catch
    (let* comment_id := lift (get (body req) "comment_id") in
     let* user_id := lift (get (body req) "user_id") in
     let* comment_text := lift (get (body req) "comment_text") in
     let* platform := lift (get (body req) "platform") in
     (* Get user's auto-reply settings *)
     let* r := select_single "auto_reply_settings" "user_id" user_id in
     let settings := data r in
     let settingsError := error r in
     if truthy settingsError || negb (truthy settings) then
       res_status 404 ;;
       res_json (JObj [("error", JStr "Settings not found")])
     else
       (* Step 1: Analyze sentiment *)
       let* a := analyzeSentiment comment_text in
       let sentiment := sentiment a in
       let sentiment_score := score a in
       (* Update comment with sentiment *)
       comments_update
         [("sentiment", sentiment); ("sentiment_score", sentiment_score)]
         comment_id ;;
       (* Step 2: Check if should reply *)
       let* spam :=
         (if strict_eq_str sentiment "spam"
          then let* f := lift (get settings "ignore_spam") in ret (truthy f)
          else ret false) in
       if spam then
         comments_update [("auto_reply_status", JStr "ignored")] comment_id ;;
         res_json (JObj [("success", JBool true);
                         ("action", JStr "ignored");
                         ("reason", JStr "Spam detected")])
       else
       let* hate :=
         (if strict_eq_str sentiment "hate"
          then let* f := lift (get settings "ignore_hate_comments") in ret (truthy f)
          else ret false) in
       if hate then
         comments_update [("auto_reply_status", JStr "escalated")] comment_id ;;
         res_json (JObj [("success", JBool true);
                         ("action", JStr "escalated");
                         ("reason", JStr "Hate comment - escalated to user")])
       else
       (* Step 3: Auto-like if positive *)
       let* like :=
         (if strict_eq_str sentiment "positive"
          then let* f := lift (get settings "auto_like_positive") in
               ret (truthy f && strict_eq_str platform "instagram")
          else ret false) in
       (if like
        then comments_update [("is_liked", JBool true)] comment_id ;; ret tt
        else ret tt) ;;
       (* Step 4: Generate reply *)
       let* default_tone := lift (get settings "default_tone") in
       let* default_language := lift (get settings "default_language") in
       let* reply_text := generateReply
         {| params_comment_text := comment_text;
            params_user_id := user_id;
            params_tone := js_or default_tone (JStr "polite");
            params_language := js_or default_language (JStr "english");
            params_sentiment := sentiment |} in
       (* Step 5: Store reply *)
       let* tone_used := lift (get settings "default_tone") in
       let* language_used := lift (get settings "default_language") in
       let* ins := auto_replies_insert_single
         [("user_id", user_id);
          ("comment_id", comment_id);
          ("reply_text", JStr reply_text);
          ("tone_used", tone_used);
          ("language_used", language_used);
          ("reply_status", JStr "pending");
          ("created_by", JStr "ai")] in
       let autoReply := data ins in
       let replyError := error ins in
       (if truthy replyError then throw (Thrown replyError) else ret tt) ;;
       (* Step 6: Detect sales leads *)
       let* lead := detectSalesLead comment_text in
       let temperature := lead_temperature lead in
       (if truthy (is_lead lead)
        then let* sentiment_shown := lift (to_string rt sentiment) in
             let* temperature_shown := lift (to_string rt temperature) in
             comments_update
               [("auto_reply_status", JStr "replied");
                ("sentiment", JStr (sentiment_shown +:+ "_lead_" +:+ temperature_shown))]
               comment_id ;; ret tt
        else ret tt) ;;
       let* id := lift (get autoReply "id") in
       let* tone := lift (get settings "default_tone") in
       let* language := lift (get settings "default_language") in
       res_json (JObj [("success", JBool true);
                       ("action", JStr "replied");
                       ("reply", JObj [("id", id);
                                       ("text", JStr reply_text);
                                       ("tone", tone);
                                       ("language", language);
                                       ("sentiment", sentiment);
                                       ("is_sales_lead", is_lead lead);
                                       ("lead_temperature", temperature)])]))
    (fun error =>
       console_error "Reply generation error:" error ;;
       res_status 500 ;;
       res_json (JObj [("error", JStr "Failed to generate reply")])).

(** One invocation of the handler on a ledger. *)
Definition invoke (cs : gmap string (gmap string jsval)) (ars : list jsval)
                  (req : request) : completion unit * world :=
  generateReplyHandler req (start cs ars).

(** ** The two settings handlers *)

(** What the outside answers to the settings handlers:
    [update_single_answer n c] is what
    [.update(patch).eq(column, value).select().single()] resolves to when
    it is the request [c], issued after [n] others; [now_iso] is
    [new Date().toISOString()]. *)
Context (update_single_answer : nat -> call -> pg_result) (now_iso : string).

(** [await supabase.from(table).update(patch).eq(column, value).select().single()] *)
Definition update_select_single (table : string) (patch : list (string * jsval))
                                (column : string) (value : jsval) : M pg_result :=
  fun w =>
    let c := UpdateEq table patch column value in
    (Normal (update_single_answer (length (calls w)) c), push_call c w).

(** [await supabase.from(table).update(patch).eq(column, value)] on a
    table whose rows the module does not read back. *)
Definition table_update (table : string) (patch : list (string * jsval))
                        (column : string) (value : jsval) : M pg_result :=
  fun w =>
    let c := UpdateEq table patch column value in
    (Normal {| data := JNull;
               error := match write_fault E (length (calls w)) c with
                        | Some e => error_value e
                        | None => JNull
                        end |},
     push_call c w).

(** The Express request as these handlers read it: [req.user], which the
    authentication middleware sets, and [req.body]. *)
Record account_request : Type := { req_user : jsval; req_body : jsval }.

Definition updateAutoReplySettingsHandler (req : account_request) : M unit :=
  try_catch
    (let* user_id := lift (get (req_user req) "user_id") in
     let* default_tone := lift (get (req_body req) "default_tone") in
     let* default_language := lift (get (req_body req) "default_language") in
     let* auto_like_positive := lift (get (req_body req) "auto_like_positive") in
     let* ignore_spam := lift (get (req_body req) "ignore_spam") in
     let* ignore_hate_comments := lift (get (req_body req) "ignore_hate_comments") in
     let* r := update_select_single "auto_reply_settings"
       [("default_tone", default_tone);
        ("default_language", default_language);
        ("auto_like_positive", auto_like_positive);
        ("ignore_spam", ignore_spam);
        ("ignore_hate_comments", ignore_hate_comments);
        ("updated_at", JStr now_iso)]
       "user_id" user_id in
     let data := data r in
     let error := error r in
     (if truthy error then throw (Thrown error) else ret tt) ;;
     res_json (JObj [("success", JBool true); ("settings", data)]))
    (fun error =>
       console_error "Update settings error:" error ;;
       res_status 500 ;;
       res_json (JObj [("error", JStr "Failed to update settings")])).

Definition updateBrandVoiceHandler (req : account_request) : M unit :=
  try_catch
    (let* user_id := lift (get (req_user req) "user_id") in
     let* brand_name := lift (get (req_body req) "brand_name") in
     let* brand_values := lift (get (req_body req) "brand_values") in
     let* personality_traits := lift (get (req_body req) "personality_traits") in
     let* catchphrases := lift (get (req_body req) "catchphrases") in
     let* signature_emojis := lift (get (req_body req) "signature_emojis") in
     let* intro_line := lift (get (req_body req) "intro_line") in
     let* outro_line := lift (get (req_body req) "outro_line") in
     let* r := update_select_single "brand_voice"
       [("brand_name", brand_name);
        ("brand_values", brand_values);
        ("personality_traits", personality_traits)]
       "user_id" user_id in
     let data := data r in
     let error := error r in
     (if truthy error then throw (Thrown error) else ret tt) ;;
     (* Update settings with voice details *)
     table_update "auto_reply_settings"
       [("catchphrases", catchphrases);
        ("signature_emojis", signature_emojis);
        ("intro_line", intro_line);
        ("outro_line", outro_line)]
       "user_id" user_id ;;
     res_json (JObj [("success", JBool true); ("brand_voice", data)]))
    (fun error =>
       console_error "Update brand voice error:" error ;;
       res_status 500 ;;
       res_json (JObj [("error", JStr "Failed to update brand voice")])).

(** One invocation of each settings handler on a ledger. *)
Definition invoke_settings (cs : gmap string (gmap string jsval)) (ars : list jsval)
                           (req : account_request) : completion unit * world :=
  updateAutoReplySettingsHandler req (start cs ars).

Definition invoke_brand_voice (cs : gmap string (gmap string jsval)) (ars : list jsval)
                              (req : account_request) : completion unit * world :=
  updateBrandVoiceHandler req (start cs ars).

Arguments analyzeSentiment : simpl never.
Arguments generateReply : simpl never.
Arguments detectSalesLead : simpl never.
Arguments to_string : simpl never.
Arguments render : simpl never.

(* ===================================================================== *)
(** * Vocabulary of the statements *)
(* ===================================================================== *)

(** The requests that write to the ledger. *)
Definition is_write (c : call) : bool :=
  match c with
  | UpdateEq _ _ _ _ | InsertSingle _ _ => true
  | SelectSingle _ _ _ | ChatCreate _ => false
  end.

(** [w'] is [w] after a leaf service ran: the requests [new] were issued,
    possibly something was logged on the console, and nothing else
    changed. *)
Definition leaf_step (w w' : world) (new : list call) : Prop :=
  comments w' = comments w /\ auto_replies w' = auto_replies w /\
  calls w' = (calls w ++ new)%list /\ statusCode w' = statusCode w /\ sent w' = sent w.

(** The request [analyzeSentiment] sends, when the text can be
    converted. *)
Definition sentiment_request (text : jsval) : chat_request :=
  {| model := ai_model;
     messages := [
       ("system", sentiment_system_prompt);
       ("user", "Analyze this comment: " +:+ quoted (render rt text))
     ];
     temperature := 0.3;
     max_tokens := 100;
     frequency_penalty := None |}.

(** The requests [analyzeSentiment] issues: the model call, unless the
    text cannot be converted; the user message then throws and nothing
    is sent. *)
Definition sentiment_asked (text : jsval) : list call :=
  if convertible text then [ChatCreate (sentiment_request text)] else [].

Definition neutral_default : sentiment_result :=
  {| sentiment := JStr "neutral"; score := JNum 0.5 |}.

(** The classifier's answer read as [analyzeSentiment] reads it: the
    parsed reply, or the reason the [try] block is left. *)
Definition parsed_answer (ans : completion chat_completion) : completion jsval :=
  let? response := ans in
  let? c := first_content response in
  json_parse (str_or c "{}").

Definition sentiment_of_parsed (p : completion jsval) : completion sentiment_result :=
  let? parsed := p in
  let? s := get parsed "sentiment" in
  let? sc := get parsed "score" in
  Normal {| sentiment := js_or s (JStr "neutral"); score := js_or sc (JNum 0.5) |}.

(** The request [detectSalesLead] sends, when the text can be
    converted. *)
Definition lead_request (text : jsval) : chat_request :=
  {| model := ai_model;
     messages := [
       ("system", lead_system_prompt);
       ("user", "Is this a sales lead? " +:+ quoted (render rt text))
     ];
     temperature := 0.3;
     max_tokens := 50;
     frequency_penalty := None |}.

Definition lead_asked (text : jsval) : list call :=
  if convertible text then [ChatCreate (lead_request text)] else [].

Definition cold_default : lead_result :=
  {| is_lead := JBool false; lead_temperature := JStr "cold" |}.

Definition lead_of_parsed (p : completion jsval) : completion lead_result :=
  let? parsed := p in
  let? l := get parsed "is_lead" in
  let? t := get parsed "temperature" in
  Normal {| is_lead := js_or l (JBool false);
            lead_temperature := js_or t (JStr "cold") |}.

(** What the [try] block of each classifier service computes when it is
    entered after [n] requests: the conversion of the text, then the
    reading of the model's answer. *)
Definition sentiment_attempt (n : nat) (text : jsval) : completion sentiment_result :=
  let? _ := to_string rt text in
  sentiment_of_parsed (parsed_answer (chat_answer E n (sentiment_request text))).

Definition lead_attempt (n : nat) (text : jsval) : completion lead_result :=
  let? _ := to_string rt text in
  lead_of_parsed (parsed_answer (chat_answer E n (lead_request text))).

(** What [detectSalesLead] returns when it is called after [n]
    requests. *)
Definition detected (n : nat) (text : jsval) : lead_result :=
  match lead_attempt n text with
  | Normal l => l
  | Throw _ => cold_default
  end.

(** The two messages of [generateReply]'s request: the system prompt,
    when it and the user message can be built. *)
Definition reply_messages (params : reply_params) (brandVoice settings : jsval)
  : completion string :=
  let? systemPrompt := reply_system_prompt params brandVoice settings in
  let? _ := to_string rt (params_tone params) in
  let? _ := to_string rt (params_language params) in
  let? _ := to_string rt (params_sentiment params) in
  let? _ := to_string rt (params_comment_text params) in
  Normal systemPrompt.

(** The request [generateReply] sends once the messages are built. *)
Definition reply_request (params : reply_params) (systemPrompt : string) : chat_request :=
  {| model := ai_model;
     messages := [
       ("system", systemPrompt);
       ("user",
        "Generate a " +:+ render rt (params_tone params) +:+
        " reply in " +:+ render rt (params_language params) +:+
        " to this " +:+ render rt (params_sentiment params) +:+
        " comment: " +:+ quoted (render rt (params_comment_text params)))
     ];
     temperature := 0.7;
     max_tokens := parseInt rt (str_or (MAX_TOKENS_PER_REQUEST E) "500");
     frequency_penalty := Some 0.5%float |}.

(** The two literals [generateReply] falls back to: the first when the
    model's content is empty or [null], the second in the [catch]
    block. *)
Definition fallback_empty : string := "Thanks for the comment! 🙌".
Definition fallback_catch : string := "Thanks for your comment! 🙌".

(** [req.body.k], once [req.body] is known not to be [undefined]. *)
Definition field (req : request) (k : string) : jsval := get_opt (body req) k.

(** The world after a Comment update. *)
Definition updated (patch : list (string * jsval)) (id : jsval) (w : world) : world :=
  snd (comments_update patch id w).

(** The bodies the handler sends. *)
Definition not_found_body : jsval := JObj [("error", JStr "Settings not found")].
Definition failed_body : jsval := JObj [("error", JStr "Failed to generate reply")].
Definition ignored_body : jsval :=
  JObj [("success", JBool true); ("action", JStr "ignored");
        ("reason", JStr "Spam detected")].
Definition escalated_body : jsval :=
  JObj [("success", JBool true); ("action", JStr "escalated");
        ("reason", JStr "Hate comment - escalated to user")].
Definition replied_body (id text tone language sentiment is_sales_lead temperature : jsval)
  : jsval :=
  JObj [("success", JBool true); ("action", JStr "replied");
        ("reply", JObj [("id", id); ("text", text); ("tone", tone);
                        ("language", language); ("sentiment", sentiment);
                        ("is_sales_lead", is_sales_lead);
                        ("lead_temperature", temperature)])].

(** The patches the handler writes to the Comment. *)
Definition classification_patch (a : sentiment_result) : list (string * jsval) :=
  [("sentiment", sentiment a); ("sentiment_score", score a)].
Definition status_patch (s : string) : list (string * jsval) :=
  [("auto_reply_status", JStr s)].
Definition liked_patch : list (string * jsval) := [("is_liked", JBool true)].
Definition lead_patch (sentiment temperature : jsval) : list (string * jsval) :=
  [("auto_reply_status", JStr "replied");
   ("sentiment",
    JStr (render rt sentiment +:+ "_lead_" +:+ render rt temperature))].

(** The row the handler inserts into [auto_replies]. *)
Definition reply_row (settings comment_id user_id : jsval) (reply_text : string)
  : list (string * jsval) :=
  [("user_id", user_id);
   ("comment_id", comment_id);
   ("reply_text", JStr reply_text);
   ("tone_used", get_opt settings "default_tone");
   ("language_used", get_opt settings "default_language");
   ("reply_status", JStr "pending");
   ("created_by", JStr "ai")].

(** The handler's [catch] block. *)
Definition handler_catch (error : exn) : M unit :=
  console_error "Reply generation error:" error ;;
  res_status 500 ;;
  res_json failed_body.

(** Steps 5 and 6 and the final response, as a function of what the
    steps before them computed. *)
Definition store_steps (settings comment_id user_id comment_text sentiment : jsval)
                       (reply_text : string) : M unit :=
  let* tone_used := lift (get settings "default_tone") in
  let* language_used := lift (get settings "default_language") in
  let* ins := auto_replies_insert_single
    [("user_id", user_id);
     ("comment_id", comment_id);
     ("reply_text", JStr reply_text);
     ("tone_used", tone_used);
     ("language_used", language_used);
     ("reply_status", JStr "pending");
     ("created_by", JStr "ai")] in
  let autoReply := data ins in
  let replyError := error ins in
  (if truthy replyError then throw (Thrown replyError) else ret tt) ;;
  let* lead := detectSalesLead comment_text in
  let temperature := lead_temperature lead in
  (if truthy (is_lead lead)
   then let* sentiment_shown := lift (to_string rt sentiment) in
        let* temperature_shown := lift (to_string rt temperature) in
        comments_update
          [("auto_reply_status", JStr "replied");
           ("sentiment", JStr (sentiment_shown +:+ "_lead_" +:+ temperature_shown))]
          comment_id ;; ret tt
   else ret tt) ;;
  let* id := lift (get autoReply "id") in
  let* tone := lift (get settings "default_tone") in
  let* language := lift (get settings "default_language") in
  res_json (JObj [("success", JBool true);
                  ("action", JStr "replied");
                  ("reply", JObj [("id", id);
                                  ("text", JStr reply_text);
                                  ("tone", tone);
                                  ("language", language);
                                  ("sentiment", sentiment);
                                  ("is_sales_lead", is_lead lead);
                                  ("lead_temperature", temperature)])]).

(** Steps 3 and 4, then [store_steps]. *)
Definition reply_steps (settings comment_id user_id comment_text platform sentiment : jsval)
  : M unit :=
  let* like :=
    (if strict_eq_str sentiment "positive"
     then let* f := lift (get settings "auto_like_positive") in
          ret (truthy f && strict_eq_str platform "instagram")
     else ret false) in
  (if like
   then comments_update [("is_liked", JBool true)] comment_id ;; ret tt
   else ret tt) ;;
  let* default_tone := lift (get settings "default_tone") in
  let* default_language := lift (get settings "default_language") in
  let* reply_text := generateReply
    {| params_comment_text := comment_text;
       params_user_id := user_id;
       params_tone := js_or default_tone (JStr "polite");
       params_language := js_or default_language (JStr "english");
       params_sentiment := sentiment |} in
  store_steps settings comment_id user_id comment_text sentiment reply_text.

(** The classification write, step 2's two gates, then [reply_steps]. *)
Definition gate_steps (settings comment_id user_id comment_text platform : jsval)
                      (a : sentiment_result) : M unit :=
  comments_update
    [("sentiment", sentiment a); ("sentiment_score", score a)] comment_id ;;
  let* spam :=
    (if strict_eq_str (sentiment a) "spam"
     then let* f := lift (get settings "ignore_spam") in ret (truthy f)
     else ret false) in
  if spam then
    comments_update [("auto_reply_status", JStr "ignored")] comment_id ;;
    res_json (JObj [("success", JBool true);
                    ("action", JStr "ignored");
                    ("reason", JStr "Spam detected")])
  else
  let* hate :=
    (if strict_eq_str (sentiment a) "hate"
     then let* f := lift (get settings "ignore_hate_comments") in ret (truthy f)
     else ret false) in
  if hate then
    comments_update [("auto_reply_status", JStr "escalated")] comment_id ;;
    res_json (JObj [("success", JBool true);
                    ("action", JStr "escalated");
                    ("reason", JStr "Hate comment - escalated to user")])
  else reply_steps settings comment_id user_id comment_text platform (sentiment a).

(** Step 3's condition. *)
Definition like_fires (settings platform sentiment : jsval) : bool :=
  strict_eq_str sentiment "positive" &&
  (truthy (get_opt settings "auto_like_positive") && strict_eq_str platform "instagram").

(** The argument the handler gives [generateReply]. *)
Definition reply_params_of (settings user_id comment_text sentiment : jsval) : reply_params :=
  {| params_comment_text := comment_text;
     params_user_id := user_id;
     params_tone := js_or (get_opt settings "default_tone") (JStr "polite");
     params_language := js_or (get_opt settings "default_language") (JStr "english");
     params_sentiment := sentiment |}.

(** The two lookups [generateReply] starts with, and the shape of its
    requests: the lookups, then the model call unless the messages
    could not be built. *)
Definition reply_lookups (params : reply_params) : list call :=
  [SelectSingle "brand_voice" "user_id" (params_user_id params);
   SelectSingle "auto_reply_settings" "user_id" (params_user_id params)].

Definition generated_log (params : reply_params) (text : string) (newg : list call)
  : Prop :=
  newg = reply_lookups params /\ text = fallback_catch \/
  exists sp, newg = (reply_lookups params ++ [ChatCreate (reply_request params sp)])%list.

(** The settings lookup, the first request of an invocation, and what
    it answers. *)
Definition settings_call (req : request) : call :=
  SelectSingle "auto_reply_settings" "user_id" (field req "user_id").

Definition settings_answer (req : request) : pg_result :=
  select_answer E 0 "auto_reply_settings" "user_id" (field req "user_id").

(** The handler's test [settingsError || !settings] fails. *)
Definition settings_found (req : request) : bool :=
  negb (truthy (error (settings_answer req)) || negb (truthy (data (settings_answer req)))).

Definition after_settings cs ars (req : request) : world :=
  push_call (settings_call req) (start cs ars).

(** The conditions of the two gates of step 2. *)
Definition spam_gate (settings : jsval) (a : sentiment_result) : bool :=
  strict_eq_str (sentiment a) "spam" && truthy (get_opt settings "ignore_spam").

Definition hate_gate (settings : jsval) (a : sentiment_result) : bool :=
  strict_eq_str (sentiment a) "hate" && truthy (get_opt settings "ignore_hate_comments").

(** The worlds an invocation goes through once the settings are
    found and the classifier has answered [a] in world [w2]. *)
Definition persisted (req : request) (a : sentiment_result) (w2 : world) : world :=
  updated (classification_patch a) (field req "comment_id") w2.

Definition liked (req : request) (a : sentiment_result) (w2 : world) : world :=
  if like_fires (data (settings_answer req)) (field req "platform") (sentiment a)
  then updated liked_patch (field req "comment_id") (persisted req a w2)
  else persisted req a w2.

Definition insert_call (req : request) (reply_text : string) : call :=
  InsertSingle "auto_replies"
    (reply_row (data (settings_answer req)) (field req "comment_id")
       (field req "user_id") reply_text).

Definition stored_row (req : request) (reply_text : string) (wg : world) : jsval :=
  JObj (("id", new_id E (length (calls wg)))
        :: reply_row (data (settings_answer req)) (field req "comment_id")
             (field req "user_id") reply_text).

Definition stored (req : request) (reply_text : string) (wg : world) : world :=
  push_call (insert_call req reply_text) (push_reply (stored_row req reply_text wg) wg).

(** Whether the composite tag of step 6 can be built: both of its parts
    convert to a string. *)
Definition taggable (sentiment temperature : jsval) : bool :=
  convertible sentiment && convertible temperature.

Definition lead_written (req : request) (a : sentiment_result) (l : lead_result)
                        (wl : world) : world :=
  if truthy (is_lead l)
  then updated (lead_patch (sentiment a) (lead_temperature l)) (field req "comment_id") wl
  else wl.

(** The ways one invocation can go, each with the world it ends in. *)
Inductive handler_path cs ars (req : request) : world -> Prop :=
| path_bad_request :
    nullish (body req) = true ->
    handler_path cs ars req
      (push_sent failed_body
         (set_status 500
            (push_console "Reply generation error:" TypeError (start cs ars))))
| path_no_settings :
    nullish (body req) = false ->
    settings_found req = false ->
    handler_path cs ars req
      (push_sent not_found_body (set_status 404 (after_settings cs ars req)))
| path_ignored a w2 :
    nullish (body req) = false ->
    settings_found req = true ->
    analyzeSentiment (field req "comment_text") (after_settings cs ars req)
      = (Normal a, w2) ->
    spam_gate (data (settings_answer req)) a = true ->
    handler_path cs ars req
      (push_sent ignored_body
         (updated (status_patch "ignored") (field req "comment_id") (persisted req a w2)))
| path_escalated a w2 :
    nullish (body req) = false ->
    settings_found req = true ->
    analyzeSentiment (field req "comment_text") (after_settings cs ars req)
      = (Normal a, w2) ->
    spam_gate (data (settings_answer req)) a = false ->
    hate_gate (data (settings_answer req)) a = true ->
    handler_path cs ars req
      (push_sent escalated_body
         (updated (status_patch "escalated") (field req "comment_id")
            (persisted req a w2)))
| path_insert_refused a w2 reply_text wg newg e :
    nullish (body req) = false ->
    settings_found req = true ->
    analyzeSentiment (field req "comment_text") (after_settings cs ars req)
      = (Normal a, w2) ->
    spam_gate (data (settings_answer req)) a = false ->
    hate_gate (data (settings_answer req)) a = false ->
    generateReply
      (reply_params_of (data (settings_answer req)) (field req "user_id")
         (field req "comment_text") (sentiment a))
      (liked req a w2) = (Normal reply_text, wg) ->
    reply_text <> "" ->
    leaf_step (liked req a w2) wg newg ->
    forallb (fun c => negb (is_write c)) newg = true ->
    generated_log
      (reply_params_of (data (settings_answer req)) (field req "user_id")
         (field req "comment_text") (sentiment a)) reply_text newg ->
    write_fault E (length (calls wg)) (insert_call req reply_text) = Some e ->
    handler_path cs ars req
      (push_sent failed_body
         (set_status 500
            (push_console "Reply generation error:" (Thrown (error_value e))
               (push_call (insert_call req reply_text) wg))))
| path_replied a w2 reply_text wg newg l wl :
    nullish (body req) = false ->
    settings_found req = true ->
    analyzeSentiment (field req "comment_text") (after_settings cs ars req)
      = (Normal a, w2) ->
    spam_gate (data (settings_answer req)) a = false ->
    hate_gate (data (settings_answer req)) a = false ->
    generateReply
      (reply_params_of (data (settings_answer req)) (field req "user_id")
         (field req "comment_text") (sentiment a))
      (liked req a w2) = (Normal reply_text, wg) ->
    reply_text <> "" ->
    leaf_step (liked req a w2) wg newg ->
    forallb (fun c => negb (is_write c)) newg = true ->
    generated_log
      (reply_params_of (data (settings_answer req)) (field req "user_id")
         (field req "comment_text") (sentiment a)) reply_text newg ->
    write_fault E (length (calls wg)) (insert_call req reply_text) = None ->
    l = detected (length (calls (stored req reply_text wg))) (field req "comment_text") ->
    detectSalesLead (field req "comment_text") (stored req reply_text wg)
      = (Normal l, wl) ->
    leaf_step (stored req reply_text wg) wl (lead_asked (field req "comment_text")) ->
    truthy (is_lead l) && negb (taggable (sentiment a) (lead_temperature l)) = false ->
    handler_path cs ars req
      (push_sent
         (replied_body (new_id E (length (calls wg))) (JStr reply_text)
            (get_opt (data (settings_answer req)) "default_tone")
            (get_opt (data (settings_answer req)) "default_language")
            (sentiment a) (is_lead l) (lead_temperature l))
         (lead_written req a l wl))
| path_untaggable a w2 reply_text wg newg l wl :
    nullish (body req) = false ->
    settings_found req = true ->
    analyzeSentiment (field req "comment_text") (after_settings cs ars req)
      = (Normal a, w2) ->
    spam_gate (data (settings_answer req)) a = false ->
    hate_gate (data (settings_answer req)) a = false ->
    generateReply
      (reply_params_of (data (settings_answer req)) (field req "user_id")
         (field req "comment_text") (sentiment a))
      (liked req a w2) = (Normal reply_text, wg) ->
    reply_text <> "" ->
    leaf_step (liked req a w2) wg newg ->
    forallb (fun c => negb (is_write c)) newg = true ->
    generated_log
      (reply_params_of (data (settings_answer req)) (field req "user_id")
         (field req "comment_text") (sentiment a)) reply_text newg ->
    write_fault E (length (calls wg)) (insert_call req reply_text) = None ->
    l = detected (length (calls (stored req reply_text wg))) (field req "comment_text") ->
    detectSalesLead (field req "comment_text") (stored req reply_text wg)
      = (Normal l, wl) ->
    leaf_step (stored req reply_text wg) wl (lead_asked (field req "comment_text")) ->
    truthy (is_lead l) && negb (taggable (sentiment a) (lead_temperature l)) = true ->
    handler_path cs ars req
      (push_sent failed_body
         (set_status 500 (push_console "Reply generation error:" TypeError wl))).

(** What the classifier stage returns to the handler. *)
Definition classification cs ars (req : request) : completion sentiment_result :=
  fst (analyzeSentiment (field req "comment_text") (after_settings cs ars req)).

(** The text under which the Comment of a request is stored. *)
Definition comment_key (req : request) : string := render rt (field req "comment_id").

(** The three requests an invocation that finds the settings starts
    with, when the classifier is called. *)
Definition classified_log (req : request) (a : sentiment_result) : list call :=
  [settings_call req;
   ChatCreate (sentiment_request (field req "comment_text"));
   UpdateEq "comments" (classification_patch a) "id" (field req "comment_id")].

(** Whether a request writes one of the two gate statuses to a Comment. *)
Definition is_gate_write (c : call) : bool :=
  match c with
  | UpdateEq _ patch _ _ =>
      strict_eq_str (assoc "auto_reply_status" patch) "ignored" ||
      strict_eq_str (assoc "auto_reply_status" patch) "escalated"
  | _ => false
  end.

(** The request of step 3, when its condition holds, and the request
    that tags a lead in step 6. *)
Definition like_log (req : request) (a : sentiment_result) : list call :=
  if like_fires (data (settings_answer req)) (field req "platform") (sentiment a)
  then [UpdateEq "comments" liked_patch "id" (field req "comment_id")]
  else [].

Definition lead_log (req : request) (a : sentiment_result) (l : lead_result) : list call :=
  if truthy (is_lead l)
  then [UpdateEq "comments" (lead_patch (sentiment a) (lead_temperature l)) "id"
          (field req "comment_id")]
  else [].

(** The [comments] table after the [n]-th request of an invocation, a
    Comment update, was answered. *)
Definition write_to (n : nat) (patch : list (string * jsval)) (id : jsval)
                    (cs : gmap string (gmap string jsval)) : gmap string (gmap string jsval) :=
  match write_fault E n (UpdateEq "comments" patch "id" id) with
  | Some _ => cs
  | None => alter (apply_patch patch) (render rt id) cs
  end.

(** The requests an invocation that finds the settings starts with:
    the lookup, the classifier call if the text could be converted, the
    write of the classification; and the number of requests before that
    write. *)
Definition opening_log (req : request) (a : sentiment_result) : list call :=
  ((settings_call req :: sentiment_asked (field req "comment_text")) ++
   [UpdateEq "comments" (classification_patch a) "id" (field req "comment_id")])%list.

Definition class_pos (req : request) : nat :=
  S (length (sentiment_asked (field req "comment_text"))).

(** The [comments] table after the classification write, and after
    step 3. *)
Definition classified_table cs (req : request) (a : sentiment_result)
  : gmap string (gmap string jsval) :=
  write_to (class_pos req) (classification_patch a) (field req "comment_id") cs.

Definition liked_table cs (req : request) (a : sentiment_result)
  : gmap string (gmap string jsval) :=
  if like_fires (data (settings_answer req)) (field req "platform") (sentiment a)
  then write_to (S (class_pos req)) liked_patch (field req "comment_id")
         (classified_table cs req a)
  else classified_table cs req a.

(** The argument [generateReplyHandler] gives [generateReply] when the
    classifier answered [a]. *)
Definition handler_reply_params (req : request) (a : sentiment_result) : reply_params :=
  reply_params_of (data (settings_answer req)) (field req "user_id")
    (field req "comment_text") (sentiment a).

(** The requests up to the insert, when [generateReply] issued [newg]. *)
Definition before_insert (req : request) (a : sentiment_result) (newg : list call)
  : list call :=
  (opening_log req a ++ like_log req a ++ newg)%list.

(** The row an accepted insert stores, as the [n]-th request. *)
Definition inserted_row (req : request) (reply_text : string) (n : nat) : jsval :=
  JObj (("id", new_id E n)
        :: reply_row (data (settings_answer req)) (field req "comment_id")
             (field req "user_id") reply_text).

(** What an invocation leaves behind, path by path: the requests it
    issued, the response it sent, the two tables. In the last three
    paths [newg] are the requests of [generateReply]; in the last two
    [l] is what [detectSalesLead] returned, called right after the
    insert. *)
Inductive outcome cs ars (req : request) (w' : world) : Prop :=
| out_bad_request :
    nullish (body req) = true ->
    calls w' = [] ->
    sent w' = [(500, failed_body)] ->
    auto_replies w' = ars ->
    comments w' = cs ->
    outcome cs ars req w'
| out_no_settings :
    nullish (body req) = false ->
    settings_found req = false ->
    calls w' = [settings_call req] ->
    sent w' = [(404, not_found_body)] ->
    auto_replies w' = ars ->
    comments w' = cs ->
    outcome cs ars req w'
| out_ignored a :
    nullish (body req) = false ->
    settings_found req = true ->
    classification cs ars req = Normal a ->
    spam_gate (data (settings_answer req)) a = true ->
    calls w' = (classified_log req a ++
                [UpdateEq "comments" (status_patch "ignored") "id" (field req "comment_id")])%list ->
    sent w' = [(200, ignored_body)] ->
    auto_replies w' = ars ->
    comments w' = write_to 3 (status_patch "ignored") (field req "comment_id")
                    (write_to 2 (classification_patch a) (field req "comment_id") cs) ->
    outcome cs ars req w'
| out_escalated a :
    nullish (body req) = false ->
    settings_found req = true ->
    classification cs ars req = Normal a ->
    spam_gate (data (settings_answer req)) a = false ->
    hate_gate (data (settings_answer req)) a = true ->
    calls w' = (classified_log req a ++
                [UpdateEq "comments" (status_patch "escalated") "id" (field req "comment_id")])%list ->
    sent w' = [(200, escalated_body)] ->
    auto_replies w' = ars ->
    comments w' = write_to 3 (status_patch "escalated") (field req "comment_id")
                    (write_to 2 (classification_patch a) (field req "comment_id") cs) ->
    outcome cs ars req w'
| out_insert_refused a reply_text newg e :
    nullish (body req) = false ->
    settings_found req = true ->
    classification cs ars req = Normal a ->
    spam_gate (data (settings_answer req)) a = false ->
    hate_gate (data (settings_answer req)) a = false ->
    reply_text <> "" ->
    forallb (fun c => negb (is_write c)) newg = true ->
    generated_log (handler_reply_params req a) reply_text newg ->
    calls w' = (before_insert req a newg ++ [insert_call req reply_text])%list ->
    write_fault E (length (before_insert req a newg)) (insert_call req reply_text)
      = Some e ->
    sent w' = [(500, failed_body)] ->
    auto_replies w' = ars ->
    comments w' = liked_table cs req a ->
    outcome cs ars req w'
| out_replied a reply_text newg l :
    nullish (body req) = false ->
    settings_found req = true ->
    classification cs ars req = Normal a ->
    spam_gate (data (settings_answer req)) a = false ->
    hate_gate (data (settings_answer req)) a = false ->
    reply_text <> "" ->
    forallb (fun c => negb (is_write c)) newg = true ->
    generated_log (handler_reply_params req a) reply_text newg ->
    write_fault E (length (before_insert req a newg)) (insert_call req reply_text)
      = None ->
    l = detected (S (length (before_insert req a newg))) (field req "comment_text") ->
    (truthy (is_lead l) = true -> taggable (sentiment a) (lead_temperature l) = true) ->
    calls w' = (before_insert req a newg ++ [insert_call req reply_text] ++
                lead_asked (field req "comment_text") ++ lead_log req a l)%list ->
    sent w' =
      [(200,
        replied_body
          (new_id E (length (before_insert req a newg)))
          (JStr reply_text)
          (get_opt (data (settings_answer req)) "default_tone")
          (get_opt (data (settings_answer req)) "default_language")
          (sentiment a) (is_lead l) (lead_temperature l))] ->
    auto_replies w' =
      (ars ++ [inserted_row req reply_text (length (before_insert req a newg))])%list ->
    comments w' =
      (if truthy (is_lead l)
       then write_to (length (before_insert req a newg ++ [insert_call req reply_text] ++
                              lead_asked (field req "comment_text")))
              (lead_patch (sentiment a) (lead_temperature l))
              (field req "comment_id") (liked_table cs req a)
       else liked_table cs req a) ->
    outcome cs ars req w'
| out_untaggable a reply_text newg l :
    nullish (body req) = false ->
    settings_found req = true ->
    classification cs ars req = Normal a ->
    spam_gate (data (settings_answer req)) a = false ->
    hate_gate (data (settings_answer req)) a = false ->
    reply_text <> "" ->
    forallb (fun c => negb (is_write c)) newg = true ->
    generated_log (handler_reply_params req a) reply_text newg ->
    write_fault E (length (before_insert req a newg)) (insert_call req reply_text)
      = None ->
    l = detected (S (length (before_insert req a newg))) (field req "comment_text") ->
    truthy (is_lead l) = true ->
    taggable (sentiment a) (lead_temperature l) = false ->
    calls w' = (before_insert req a newg ++ [insert_call req reply_text] ++
                lead_asked (field req "comment_text"))%list ->
    sent w' = [(500, failed_body)] ->
    auto_replies w' =
      (ars ++ [inserted_row req reply_text (length (before_insert req a newg))])%list ->
    comments w' = liked_table cs req a ->
    outcome cs ars req w'.

(** The invocation answered with something other than status 200. *)
Definition error_response (w : world) : bool :=
  match sent w with
  | [(st, _)] => negb (st =? 200)
  | _ => false
  end.

(** Among the requests of [w], one is an insert that the ledger
    refused. *)
Definition insert_refused_in (w : world) : Prop :=
  exists n row e,
    calls w !! n = Some (InsertSingle "auto_replies" row) /\
    write_fault E n (InsertSingle "auto_replies" row) = Some e.

(** Among the requests of [w], one is an insert that the ledger
    accepted. *)
Definition insert_accepted_in (w : world) : Prop :=
  exists n row,
    calls w !! n = Some (InsertSingle "auto_replies" row) /\
    write_fault E n (InsertSingle "auto_replies" row) = None.

(** The insert was accepted, and the detector, called right after it,
    returned a truthy [is_lead] while the classified sentiment or the
    detector's temperature cannot be converted to a string: the composite
    tag of step 6 cannot be built. *)
Definition untaggable_lead cs ars (req : request) (w : world) : Prop :=
  exists a n row,
    classification cs ars req = Normal a /\
    calls w !! n = Some (InsertSingle "auto_replies" row) /\
    write_fault E n (InsertSingle "auto_replies" row) = None /\
    truthy (is_lead (detected (S n) (field req "comment_text"))) = true /\
    taggable (sentiment a)
      (lead_temperature (detected (S n) (field req "comment_text"))) = false.

(** Among the requests of [w], one is a Comment update that the ledger
    refused. *)
Definition update_refused_in (w : world) : Prop :=
  exists n patch id e,
    calls w !! n = Some (UpdateEq "comments" patch "id" id) /\
    write_fault E n (UpdateEq "comments" patch "id" id) = Some e.

(** The last sentence of C3 read on one invocation: only a failed
    settings lookup makes it fail. *)
Definition only_settings_fail_hard cs ars (req : request) : Prop :=
  error_response (snd (invoke cs ars req)) = true -> settings_found req = false.

(** The ways the classification call can fail: the promise rejects (a
    transport error, a timeout); the completion has no choice; its
    content is not JSON; or it is the JSON [null]. *)
Inductive classifier_failure : completion chat_completion -> Prop :=
| fails_rejected e : classifier_failure (Throw e)
| fails_no_choice resp :
    choices resp = [] -> classifier_failure (Normal resp)
| fails_malformed resp c :
    first_content resp = Normal c ->
    JSON_parse rt (str_or c "{}") = None ->
    classifier_failure (Normal resp)
| fails_null resp c v :
    first_content resp = Normal c ->
    JSON_parse rt (str_or c "{}") = Some v ->
    nullish v = true ->
    classifier_failure (Normal resp).

(** The response names one of the three terminal states of the
    pipeline. *)
Definition terminal_response (w : world) : Prop :=
  exists b, sent w = [(200, b)] /\
            (get_opt b "action" = JStr "ignored" \/
             get_opt b "action" = JStr "escalated" \/
             get_opt b "action" = JStr "replied").

(** The last clause of C4 as the spec words it, read on one invocation:
    when the classification call fails, the invocation still ends in a
    terminal state. *)
Definition failure_still_terminal cs ars (req : request) : Prop :=
  classifier_failure (chat_answer E 1 (sentiment_request (field req "comment_text"))) ->
  terminal_response (snd (invoke cs ars req)).

(** The response says the comment was replied to. *)
Definition replied_response (w : world) : Prop :=
  exists b, sent w = [(200, b)] /\
            get_opt b "success" = JBool true /\ get_opt b "action" = JStr "replied".

Definition is_insert (c : call) : bool :=
  match c with
  | InsertSingle _ _ => true
  | _ => false
  end.

(** C6 as the spec words it, read on one invocation: a refused Comment
    update or a refused AutoReply insert makes it answer with an error. *)
Definition persist_failure_aborts cs ars (req : request) : Prop :=
  update_refused_in (snd (invoke cs ars req)) \/ insert_refused_in (snd (invoke cs ars req)) ->
  error_response (snd (invoke cs ars req)) = true.


(** The response reports success. *)
Definition success_response (w : world) : Prop :=
  exists b, sent w = [(200, b)] /\ get_opt b "success" = JBool true.

(** The four fields the handler reads from the payload. *)
Definition required_fields : list string :=
  ["comment_id"; "user_id"; "comment_text"; "platform"].

Definition missing_field (req : request) : Prop :=
  exists k, In k required_fields /\ field req k = JUndefined.

Definition client_error (w : world) : Prop :=
  exists st b, sent w = [(st, b)] /\ 400 <= st < 500.

(** C9 read on one invocation: a payload with a missing field is
    answered with a client error and no request is issued. *)
Definition rejects_before_any_call cs ars (req : request) : Prop :=
  missing_field req ->
  calls (snd (invoke cs ars req)) = [] /\ client_error (snd (invoke cs ars req)).

(* ===================================================================== *)
(** * Fixtures for the scenarios *)
(* ===================================================================== *)

(** The texts the classifier and the lead detector answer with in the
    scenarios. *)
Definition spam_json : string :=
  "{" +:+ quoted "sentiment" +:+ ": " +:+ quoted "spam" +:+ ", " +:+
  quoted "score" +:+ ": 0.9}".

Definition hate_json : string :=
  "{" +:+ quoted "sentiment" +:+ ": " +:+ quoted "hate" +:+ ", " +:+
  quoted "score" +:+ ": 0.9}".

Definition positive_json : string :=
  "{" +:+ quoted "sentiment" +:+ ": " +:+ quoted "positive" +:+ ", " +:+
  quoted "score" +:+ ": 0.9}".

Definition zero_json : string :=
  "{" +:+ quoted "sentiment" +:+ ": " +:+ quoted "" +:+ ", " +:+
  quoted "score" +:+ ": 0}".

Definition hot_lead_json : string :=
  "{" +:+ quoted "is_lead" +:+ ": true, " +:+ quoted "temperature" +:+ ": " +:+
  quoted "hot" +:+ "}".

(** A detector answer whose temperature is not a string but an object
    with a key [toString]. *)
Definition odd_lead_json : string :=
  "{" +:+ quoted "is_lead" +:+ ": true, " +:+ quoted "temperature" +:+ ": {" +:+
  quoted "toString" +:+ ": 1}}".

(** A runtime for the scenarios: [JSON.parse] on the six texts above
    and on "{}", anything else taken as malformed; the other built-ins on
    the arguments the scenarios reach. *)
Definition demo_parse (s : string) : option jsval :=
  if String.eqb s spam_json
  then Some (JObj [("sentiment", JStr "spam"); ("score", JNum 0.9)])
  else if String.eqb s hate_json
  then Some (JObj [("sentiment", JStr "hate"); ("score", JNum 0.9)])
  else if String.eqb s positive_json
  then Some (JObj [("sentiment", JStr "positive"); ("score", JNum 0.9)])
  else if String.eqb s zero_json
  then Some (JObj [("sentiment", JStr ""); ("score", JNum 0)])
  else if String.eqb s hot_lead_json
  then Some (JObj [("is_lead", JBool true); ("temperature", JStr "hot")])
  else if String.eqb s odd_lead_json
  then Some (JObj [("is_lead", JBool true);
                   ("temperature", JObj [("toString", JNum 1)])])
  else if String.eqb s "{}" then Some (JObj [])
  else None.

Definition demo_runtime : runtime :=
  {| JSON_parse := demo_parse;
     JSON_stringify := fun v => match v with JArr [] => "[]" | _ => "null" end;
     parseInt := fun s => if String.eqb s "500" then 500%float else PrimFloat.nan;
     Number_toString := fun _ => "NaN" |}.

(** A completion with one choice, and a rejected request. *)
Definition says (text : string) : completion chat_completion :=
  Normal {| choices := [ {| message := {| content := Some text |} |} ] |}.

Definition says_nothing : completion chat_completion :=
  Normal {| choices := [ {| message := {| content := None |} |} ] |}.

Definition unreachable : completion chat_completion :=
  Throw (Thrown (JObj [("message", JStr "Connection error.")])).

(** An environment: what the classifier, the generator and the lead
    detector answer (told apart by [max_tokens]: 100, 500, 50), what the
    lookup of [auto_reply_settings] returns, and which writes the ledger
    refuses. There is no [brand_voice] row. *)
Definition demo_env (classifier reply lead : completion chat_completion)
                    (settings : pg_result) (fault : nat -> call -> option pg_error) : env :=
  {| AI_MODEL := None;
     MAX_TOKENS_PER_REQUEST := None;
     chat_answer := fun _ r =>
       if PrimFloat.eqb (max_tokens r) 100 then classifier
       else if PrimFloat.eqb (max_tokens r) 50 then lead
       else reply;
     select_answer := fun _ table _ _ =>
       if String.eqb table "auto_reply_settings" then settings
       else {| data := JNull;
               error := JObj [("code", JStr "PGRST116")] |};
     write_fault := fault;
     new_id := fun _ => JStr "r1" |}.

(** A settings row like the one created at signup, with both gate
    flags set, and the result of a lookup that finds no row. *)
Definition settings_row : pg_result :=
  {| data := JObj [("user_id", JStr "u1");
                   ("default_tone", JStr "polite");
                   ("default_language", JStr "english");
                   ("auto_like_positive", JBool true);
                   ("ignore_spam", JBool true);
                   ("ignore_hate_comments", JBool true)];
     error := JNull |}.

Definition no_row : pg_result :=
  {| data := JNull; error := JObj [("code", JStr "PGRST116")] |}.

Definition accepts_all : nat -> call -> option pg_error := fun _ _ => None.

Definition timeout_error : pg_error :=
  {| code := "57014"; details := "canceling statement due to statement timeout" |}.

Definition refuses_inserts : nat -> call -> option pg_error :=
  fun _ c => match c with InsertSingle _ _ => Some timeout_error | _ => None end.

Definition refuses_updates : nat -> call -> option pg_error :=
  fun _ c => match c with UpdateEq _ _ _ _ => Some timeout_error | _ => None end.

(** A request with all four fields, one without [comment_text], and a
    [comments] table holding the comment. *)
Definition full_request : request :=
  {| body := JObj [("comment_id", JStr "c1"); ("user_id", JStr "u1");
                   ("comment_text", JStr "I love this!!");
                   ("platform", JStr "instagram")] |}.

Definition request_without_text : request :=
  {| body := JObj [("comment_id", JStr "c1"); ("user_id", JStr "u1");
                   ("platform", JStr "instagram")] |}.

(** A [comment_text] that is not a string but an object with a key
    [toString], which no template literal can convert. *)
Definition odd_text : jsval := JObj [("toString", JNum 1)].

Definition one_comment : gmap string (gmap string jsval) :=
  {[ "c1" := {[ "auto_reply_status" := JStr "pending" ]} ]}.

Definition demo_params : reply_params :=
  {| params_comment_text := JStr "I love this!!";
     params_user_id := JStr "u1";
     params_tone := JStr "polite";
     params_language := JStr "english";
     params_sentiment := JStr "positive" |}.

(** The environments of the scenarios. In all of them the settings are
    found unless said otherwise, and the ledger accepts every write
    unless said otherwise. *)
Definition spam_env : env :=
  demo_env (says spam_json) unreachable unreachable settings_row accepts_all.

Definition hate_env : env :=
  demo_env (says hate_json) unreachable unreachable settings_row accepts_all.

Definition lead_env : env :=
  demo_env (says positive_json) (says "Thank you!") (says hot_lead_json)
    settings_row accepts_all.

Definition zero_score_env : env :=
  demo_env (says zero_json) unreachable unreachable settings_row accepts_all.


(** Every model call is rejected. *)
Definition offline_env : env :=
  demo_env unreachable unreachable unreachable settings_row accepts_all.

(** The generator answers with a [null] content. *)
Definition silent_env : env :=
  demo_env unreachable says_nothing unreachable settings_row accepts_all.

(** No settings row. *)
Definition no_settings_env : env :=
  demo_env unreachable unreachable unreachable no_row accepts_all.

(** The ledger refuses the insert, or every Comment update. *)
Definition insert_refused_env : env :=
  demo_env unreachable unreachable unreachable settings_row refuses_inserts.

Definition update_refused_env : env :=
  demo_env unreachable unreachable unreachable settings_row refuses_updates.

(** The three settings that [generateReply] joins with [.join(", ")]. *)
Definition joined_settings : list string :=
  ["catchphrases"; "signature_emojis"; "blacklisted_words"].

Definition is_array (v : jsval) : bool :=
  match v with
  | JArr _ => true
  | _ => false
  end.

(** One of the joined settings holds a truthy value that is not an
    array (a string, a number, an object). *)
Definition ill_typed_list (settings : jsval) : Prop :=
  exists k, In k joined_settings /\
            truthy (get_opt settings k) = true /\ is_array (get_opt settings k) = false.

(** Whether the substitution for a joined setting, and for a line of
    the settings, can be evaluated: the setting is falsy and skipped, or
    it is an array whose elements convert, resp. it converts. *)
Definition joined_ok (settings : jsval) (key : string) : bool :=
  negb (truthy (get_opt settings key)) ||
  (is_array (get_opt settings key) && convertible (get_opt settings key)).

Definition line_ok (settings : jsval) (key : string) : bool :=
  negb (truthy (get_opt settings key)) || convertible (get_opt settings key).

(** Whether the two messages of [generateReply] can be built: every
    substitution of the two template literals, in the order in which
    they are evaluated. *)
Definition buildable (params : reply_params) (brandVoice settings : jsval) : bool :=
  convertible (js_or (params_language params) (JStr "English")) &&
  convertible (js_or (get_opt brandVoice "brand_name") (JStr "Creator")) &&
  convertible (js_or (params_tone params) (JStr "polite")) &&
  joined_ok settings "catchphrases" &&
  joined_ok settings "signature_emojis" &&
  line_ok settings "intro_line" &&
  line_ok settings "outro_line" &&
  convertible (params_language params) &&
  joined_ok settings "blacklisted_words" &&
  convertible (params_tone params) &&
  convertible (params_language params) &&
  convertible (params_sentiment params) &&
  convertible (params_comment_text params).

(** The values the two template literals convert to strings: four of
    the parameters, the brand name, and five settings. *)
Definition converted_values (params : reply_params) (brandVoice settings : jsval)
  : list jsval :=
  [params_language params; get_opt brandVoice "brand_name"; params_tone params;
   params_sentiment params; params_comment_text params;
   get_opt settings "catchphrases"; get_opt settings "signature_emojis";
   get_opt settings "intro_line"; get_opt settings "outro_line";
   get_opt settings "blacklisted_words"].

(** The rows the two lookups of [generateReply] return when it is
    called in world [w]. *)
Definition reply_brand_voice (params : reply_params) (w : world) : jsval :=
  data (select_answer E (length (calls w)) "brand_voice" "user_id" (params_user_id params)).

Definition reply_settings (params : reply_params) (w : world) : jsval :=
  data (select_answer E
          (length (calls (push_call
                            (SelectSingle "brand_voice" "user_id" (params_user_id params)) w)))
          "auto_reply_settings" "user_id" (params_user_id params)).

(** Whether a request marks a Comment as liked. *)
Definition is_like_write (c : call) : bool :=
  match c with
  | UpdateEq _ patch _ _ => truthy (assoc "is_liked" patch)
  | _ => false
  end.

(** The values the requests of a log write to [auto_reply_status], in
    order. *)
Definition status_written (c : call) : list jsval :=
  match c with
  | UpdateEq _ patch _ _ =>
      match assoc "auto_reply_status" patch with
      | JUndefined => []
      | v => [v]
      end
  | _ => []
  end.

Definition status_writes (log : list call) : list jsval := flat_map status_written log.

(** Step 3 is reached and its condition holds. *)
Definition like_expected (req : request) (a : sentiment_result) : bool :=
  negb (nullish (body req)) && settings_found req &&
  negb (spam_gate (data (settings_answer req)) a) &&
  negb (hate_gate (data (settings_answer req)) a) &&
  like_fires (data (settings_answer req)) (field req "platform") (sentiment a).

(** The columns of a Comment the handler writes. *)
Definition written_columns : list string :=
  ["sentiment"; "sentiment_score"; "auto_reply_status"; "is_liked"].

(** Between the tables [m] and [m'] nothing changed but, at most, the
    [written_columns] of the row stored under [k0]: every other row is
    the same, no row appeared or disappeared, and the row under [k0]
    kept its other columns. *)
Definition touches_only (k0 : string) (m m' : gmap string (gmap string jsval)) : Prop :=
  (forall k, k <> k0 -> m' !! k = m !! k) /\
  (m !! k0 = None -> m' !! k0 = None) /\
  (forall row, m !! k0 = Some row ->
     exists row', m' !! k0 = Some row' /\
       forall f, ~ In f written_columns -> row' !! f = row !! f).

(** ** The settings handlers *)

(** The columns each handler reads from [req.body]. *)
Definition settings_fields : list string :=
  ["default_tone"; "default_language"; "auto_like_positive"; "ignore_spam";
   "ignore_hate_comments"].

Definition brand_voice_fields : list string :=
  ["brand_name"; "brand_values"; "personality_traits"].

Definition voice_detail_fields : list string :=
  ["catchphrases"; "signature_emojis"; "intro_line"; "outro_line"].

(** [{k1, k2, ...}] built from the properties of [b]. *)
Definition pick (b : jsval) (keys : list string) : list (string * jsval) :=
  map (fun k => (k, get_opt b k)) keys.

(** The requests of the two handlers. *)
Definition settings_update_call (req : account_request) : call :=
  UpdateEq "auto_reply_settings"
    (pick (req_body req) settings_fields ++ [("updated_at", JStr now_iso)])%list
    "user_id" (get_opt (req_user req) "user_id").

Definition brand_voice_call (req : account_request) : call :=
  UpdateEq "brand_voice" (pick (req_body req) brand_voice_fields)
    "user_id" (get_opt (req_user req) "user_id").

Definition voice_details_call (req : account_request) : call :=
  UpdateEq "auto_reply_settings" (pick (req_body req) voice_detail_fields)
    "user_id" (get_opt (req_user req) "user_id").

(** [req.user] or [req.body] is [undefined] or [null]. *)
Definition unreadable (req : account_request) : bool :=
  nullish (req_user req) || nullish (req_body req).

Definition settings_failed_body : jsval := JObj [("error", JStr "Failed to update settings")].
Definition brand_voice_failed_body : jsval :=
  JObj [("error", JStr "Failed to update brand voice")].

(** Two requests that differ at most in parts the handler named by
    [keys] does not read: the same [req.user.user_id], and bodies with
    the same values under [keys]. *)
Definition same_reads (keys : list string) (req req' : account_request) : Prop :=
  nullish (req_user req) = nullish (req_user req') /\
  get_opt (req_user req) "user_id" = get_opt (req_user req') "user_id" /\
  nullish (req_body req) = nullish (req_body req') /\
  Forall (fun k => get_opt (req_body req) k = get_opt (req_body req') k) keys.

(** The columns a request writes, with the table. *)
Definition columns_written (c : call) : list (string * string) :=
  match c with
  | UpdateEq table patch _ _ => map (fun kv => (table, fst kv)) patch
  | InsertSingle table row => map (fun kv => (table, fst kv)) row
  | _ => []
  end.

(** The columns the requests of a log write, each with its table. *)
Definition writes (log : list call) : list (string * string) :=
  flat_map columns_written log.

(** Requests to the settings handlers: a body with two settings, and the
    same request with other keys beside them; a body with a brand name
    and a catchphrase given as a string, and the same with other keys. *)
Definition settings_update : account_request :=
  {| req_user := JObj [("user_id", JStr "u1")];
     req_body := JObj [("default_tone", JStr "funny"); ("ignore_spam", JBool false)] |}.

Definition settings_update_with_extras : account_request :=
  {| req_user := JObj [("user_id", JStr "u1"); ("email", JStr "u1@example.org")];
     req_body := JObj [("user_id", JStr "u2");
                       ("ignore_spam", JBool false);
                       ("blacklisted_words", JArr [JStr "refund"]);
                       ("default_tone", JStr "funny")] |}.

Definition voice_update : account_request :=
  {| req_user := JObj [("user_id", JStr "u1")];
     req_body := JObj [("brand_name", JStr "Sfiya"); ("catchphrases", JStr "Stay tuned!")] |}.

Definition voice_update_with_extras : account_request :=
  {| req_user := JObj [("user_id", JStr "u1"); ("email", JStr "u1@example.org")];
     req_body := JObj [("user_id", JStr "u2");
                       ("catchphrases", JStr "Stay tuned!");
                       ("default_tone", JStr "savage");
                       ("brand_name", JStr "Sfiya")] |}.

(** A ledger that answers every update-and-select with the row [row]. *)
Definition returns_row (row : jsval) : nat -> call -> pg_result :=
  fun _ _ => {| data := row; error := JNull |}.

Definition some_instant : string := "2026-01-01T00:00:00.000Z".

(** The settings row of a user whose catchphrases were saved as one
    string, and an environment in which the generator would answer. *)
Definition string_catchphrases_row : pg_result :=
  {| data := JObj [("user_id", JStr "u1");
                   ("default_tone", JStr "polite");
                   ("default_language", JStr "english");
                   ("catchphrases", JStr "Stay tuned!")];
     error := JNull |}.

Definition string_catchphrases_env : env :=
  demo_env (says positive_json) (says "Thank you!") unreachable
    string_catchphrases_row accepts_all.

(** The calls to the model among the requests. *)
Definition is_chat (c : call) : bool :=
  match c with
  | ChatCreate _ => true
  | _ => false
  end.


(* ===================================================================== *)
(** * Lemmas: values, leaf services, the paths of the handler *)
(* ===================================================================== *)

Lemma get_not_nullish (v : jsval) (k : string) :
  nullish v = false -> get v k = Normal (get_opt v k).
Proof. destruct v; simpl; intros H; try discriminate; reflexivity. Qed.

Lemma truthy_not_nullish (v : jsval) : truthy v = true -> nullish v = false.
Proof. destruct v; simpl; intros H; try discriminate; reflexivity. Qed.

Lemma get_truthy (v : jsval) (k : string) :
  truthy v = true -> get v k = Normal (get_opt v k).
Proof. intros H. apply get_not_nullish, truthy_not_nullish, H. Qed.

Lemma js_or_truthy (a b : jsval) : truthy b = true -> truthy (js_or a b) = true.
Proof. intros H. unfold js_or. destruct (truthy a) eqn:Ha; assumption. Qed.

Lemma str_or_nonempty (s : option string) (lit : string) :
  lit <> "" -> str_or s lit <> "".
Proof.
  intros Hlit. unfold str_or. destruct s as [t|]; [|exact Hlit].
  destruct (String.eqb t "") eqn:Ht; [exact Hlit|].
  intros ->. discriminate.
Qed.

Lemma to_string_convertible (v : jsval) :
  convertible v = true -> to_string rt v = Normal (render rt v).
Proof. intros H. unfold to_string. rewrite H. reflexivity. Qed.

Lemma to_string_unconvertible (v : jsval) :
  convertible v = false -> to_string rt v = Throw TypeError.
Proof. intros H. unfold to_string. rewrite H. reflexivity. Qed.

Lemma to_string_normal (v : jsval) (s : string) :
  to_string rt v = Normal s <-> convertible v = true /\ s = render rt v.
Proof.
  unfold to_string. destruct (convertible v); split.
  - intros [= <-]. split; reflexivity.
  - intros [_ ->]. reflexivity.
  - discriminate.
  - intros [H _]. discriminate H.
Qed.

Lemma convertible_js_or (a : jsval) (d : string) :
  convertible (js_or a (JStr d)) = convertible a.
Proof.
  unfold js_or. destruct (truthy a) eqn:Ht; [reflexivity|].
  destruct a; try discriminate Ht; reflexivity.
Qed.

(** [analyzeSentiment] unfolded: the text is converted; if that throws,
    nothing is sent; otherwise there is one chat request and the result
    is read off the answer. Any throw inside the [try] block gives the
    default and a console line. *)
Lemma analyzeSentiment_run (text : jsval) (w : world) :
  analyzeSentiment text w =
  let w1 := if convertible text
            then push_call (ChatCreate (sentiment_request text)) w else w in
  match sentiment_attempt (length (calls w)) text with
  | Normal a => (Normal a, w1)
  | Throw e => (Normal neutral_default, push_console "Sentiment analysis error:" e w1)
  end.
Proof.
  unfold analyzeSentiment, sentiment_attempt, to_string.
  destruct (convertible text); [|reflexivity].
  unfold try_catch, bind, chat_completions_create, lift, ret,
    sentiment_of_parsed, parsed_answer, console_error, cbind.
  fold (sentiment_request text).
  destruct (chat_answer E (length (calls w)) (sentiment_request text)) as [resp|e];
    [|reflexivity].
  destruct (first_content resp) as [c|e]; [|reflexivity].
  destruct (json_parse (str_or c "{}")) as [parsed|e]; [|reflexivity].
  destruct (get parsed "sentiment") as [s|e]; [|reflexivity].
  destruct (get parsed "score") as [sc|e]; reflexivity.
Qed.

Lemma detectSalesLead_run (text : jsval) (w : world) :
  detectSalesLead text w =
  let w1 := if convertible text
            then push_call (ChatCreate (lead_request text)) w else w in
  match lead_attempt (length (calls w)) text with
  | Normal a => (Normal a, w1)
  | Throw e => (Normal cold_default, push_console "Lead detection error:" e w1)
  end.
Proof.
  unfold detectSalesLead, lead_attempt, to_string.
  destruct (convertible text); [|reflexivity].
  unfold try_catch, bind, chat_completions_create, lift, ret,
    lead_of_parsed, parsed_answer, console_error, cbind.
  fold (lead_request text).
  destruct (chat_answer E (length (calls w)) (lead_request text)) as [resp|e];
    [|reflexivity].
  destruct (first_content resp) as [c|e]; [|reflexivity].
  destruct (json_parse (str_or c "{}")) as [parsed|e]; [|reflexivity].
  destruct (get parsed "is_lead") as [l|e]; [|reflexivity].
  destruct (get parsed "temperature") as [t|e]; reflexivity.
Qed.

Lemma detectSalesLead_detected (text : jsval) (w : world) :
  fst (detectSalesLead text w) = Normal (detected (length (calls w)) text).
Proof.
  rewrite detectSalesLead_run. cbv zeta. unfold detected.
  destruct (lead_attempt _ _); reflexivity.
Qed.

(** [generateReply] unfolded: two lookups; then the two messages are
    built, and if that throws nothing more is sent; otherwise there is
    one chat request. *)
Lemma generateReply_run (params : reply_params) (w : world) :
  generateReply params w =
  let uid := params_user_id params in
  let w1 := push_call (SelectSingle "brand_voice" "user_id" uid) w in
  let w2 := push_call (SelectSingle "auto_reply_settings" "user_id" uid) w1 in
  let brandVoice := data (select_answer E (length (calls w)) "brand_voice" "user_id" uid) in
  let settings :=
    data (select_answer E (length (calls w1)) "auto_reply_settings" "user_id" uid) in
  match reply_messages params brandVoice settings with
  | Throw e => (Normal fallback_catch, push_console "Reply generation error:" e w2)
  | Normal sp =>
      let w3 := push_call (ChatCreate (reply_request params sp)) w2 in
      match (let? resp := chat_answer E (length (calls w2)) (reply_request params sp) in
             first_content resp) with
      | Normal c => (Normal (str_or c fallback_empty), w3)
      | Throw e => (Normal fallback_catch, push_console "Reply generation error:" e w3)
      end
  end.
Proof.
  unfold generateReply, reply_messages, try_catch, bind, select_single,
    chat_completions_create, lift, ret, console_error.
  cbv zeta.
  destruct (reply_system_prompt params _ _) as [sp|e]; [|reflexivity].
  cbn [cbind]. unfold to_string.
  destruct (convertible (params_tone params)); [|reflexivity].
  destruct (convertible (params_language params)); [|reflexivity].
  destruct (convertible (params_sentiment params)); [|reflexivity].
  destruct (convertible (params_comment_text params)); [|reflexivity].
  cbn [cbind]. fold (reply_request params sp).
  destruct (chat_answer E _ (reply_request params sp)) as [resp|e]; [|reflexivity].
  cbn [cbind].
  destruct (first_content resp) as [c|e]; reflexivity.
Qed.

Lemma analyzeSentiment_spec (text : jsval) (w : world) :
  exists a w',
    analyzeSentiment text w = (Normal a, w') /\
    leaf_step w w' (sentiment_asked text).
Proof.
  rewrite analyzeSentiment_run. cbv zeta. unfold sentiment_asked.
  destruct (sentiment_attempt _ _) as [a|e]; eexists; eexists;
    (split; [reflexivity|]); destruct (convertible text); repeat split;
    cbn [calls push_call push_console]; rewrite ?app_nil_r; reflexivity.
Qed.

Lemma detectSalesLead_spec (text : jsval) (w : world) :
  exists w',
    detectSalesLead text w = (Normal (detected (length (calls w)) text), w') /\
    leaf_step w w' (lead_asked text).
Proof.
  rewrite detectSalesLead_run. cbv zeta. unfold lead_asked, detected.
  destruct (lead_attempt _ _) as [a|e]; eexists;
    (split; [reflexivity|]); destruct (convertible text); repeat split;
    cbn [calls push_call push_console]; rewrite ?app_nil_r; reflexivity.
Qed.

Lemma generateReply_spec (params : reply_params) (w : world) :
  exists text w' new,
    generateReply params w = (Normal text, w') /\
    text <> "" /\
    leaf_step w w' new /\
    forallb (fun c => negb (is_write c)) new = true /\
    generated_log params text new.
Proof.
  rewrite generateReply_run. cbv zeta. unfold generated_log, reply_lookups.
  destruct (reply_messages params _ _) as [sp|e].
  - destruct (cbind _ _) as [c|e].
    + eexists; eexists; eexists. split; [reflexivity|].
      split; [apply str_or_nonempty; discriminate|].
      split; [repeat split; simpl; rewrite <- !app_assoc; reflexivity|].
      split; [reflexivity|]. right. exists sp. reflexivity.
    + eexists; eexists; eexists. split; [reflexivity|].
      split; [discriminate|].
      split; [repeat split; simpl; rewrite <- !app_assoc; reflexivity|].
      split; [reflexivity|]. right. exists sp. reflexivity.
  - eexists; eexists; eexists. split; [reflexivity|].
    split; [discriminate|].
    split; [repeat split; simpl; rewrite <- !app_assoc; reflexivity|].
    split; [reflexivity|]. left. split; reflexivity.
Qed.

Lemma comments_update_run patch id w :
  exists r, comments_update patch id w = (Normal r, updated patch id w).
Proof.
  unfold updated, comments_update.
  destruct (write_fault E _ _); eexists; reflexivity.
Qed.

Lemma updated_calls patch id w :
  calls (updated patch id w) = (calls w ++ [UpdateEq "comments" patch "id" id])%list.
Proof. unfold updated, comments_update. destruct (write_fault E _ _); reflexivity. Qed.

Lemma updated_auto_replies patch id w :
  auto_replies (updated patch id w) = auto_replies w.
Proof. unfold updated, comments_update. destruct (write_fault E _ _); reflexivity. Qed.

Lemma updated_sent patch id w : sent (updated patch id w) = sent w.
Proof. unfold updated, comments_update. destruct (write_fault E _ _); reflexivity. Qed.

Lemma updated_statusCode patch id w : statusCode (updated patch id w) = statusCode w.
Proof. unfold updated, comments_update. destruct (write_fault E _ _); reflexivity. Qed.

Lemma updated_comments patch id w :
  comments (updated patch id w) =
  match write_fault E (length (calls w)) (UpdateEq "comments" patch "id" id) with
  | Some _ => comments w
  | None => alter (apply_patch patch) (render rt id) (comments w)
  end.
Proof. unfold updated, comments_update. destruct (write_fault E _ _); reflexivity. Qed.

(** The handler is these pieces put together. *)
Lemma generateReplyHandler_unfold (req : request) :
  generateReplyHandler req =
  try_catch
    (let* comment_id := lift (get (body req) "comment_id") in
     let* user_id := lift (get (body req) "user_id") in
     let* comment_text := lift (get (body req) "comment_text") in
     let* platform := lift (get (body req) "platform") in
     let* r := select_single "auto_reply_settings" "user_id" user_id in
     if truthy (error r) || negb (truthy (data r)) then
       res_status 404 ;; res_json not_found_body
     else
       let* a := analyzeSentiment comment_text in
       gate_steps (data r) comment_id user_id comment_text platform a)
    handler_catch.
Proof. reflexivity. Qed.

Lemma bind_normal {A B} (m : M A) (f : A -> M B) w a w' :
  m w = (Normal a, w') -> bind m f w = f a w'.
Proof. intros H. unfold bind. rewrite H. reflexivity. Qed.

Lemma try_catch_normal {A} (m : M A) h w a w' :
  m w = (Normal a, w') -> try_catch m h w = (Normal a, w').
Proof. intros H. unfold try_catch. rewrite H. reflexivity. Qed.

Lemma bind_lift_normal {A B} (a : A) (f : A -> M B) w :
  bind (lift (Normal a)) f w = f a w.
Proof. reflexivity. Qed.

Lemma bind_ret {A B} (a : A) (f : A -> M B) w : bind (ret a) f w = f a w.
Proof. reflexivity. Qed.

Lemma insert_refused row w e :
  write_fault E (length (calls w)) (InsertSingle "auto_replies" row) = Some e ->
  auto_replies_insert_single row w
  = (Normal {| data := JNull; error := error_value e |},
     push_call (InsertSingle "auto_replies" row) w).
Proof. intros H. unfold auto_replies_insert_single. cbv zeta. rewrite H. reflexivity. Qed.

Lemma insert_stored row w :
  write_fault E (length (calls w)) (InsertSingle "auto_replies" row) = None ->
  auto_replies_insert_single row w
  = (Normal {| data := JObj (("id", new_id E (length (calls w))) :: row);
               error := JNull |},
     push_call (InsertSingle "auto_replies" row)
       (push_reply (JObj (("id", new_id E (length (calls w))) :: row)) w)).
Proof. intros H. unfold auto_replies_insert_single. cbv zeta. rewrite H. reflexivity. Qed.

Lemma reply_steps_run settings cid uid text platform sentiment w :
  truthy settings = true ->
  exists reply_text wg newg wl,
    let w1 := if like_fires settings platform sentiment
              then updated liked_patch cid w else w in
    generateReply (reply_params_of settings uid text sentiment) w1
      = (Normal reply_text, wg) /\
    reply_text <> "" /\
    leaf_step w1 wg newg /\
    forallb (fun c => negb (is_write c)) newg = true /\
    generated_log (reply_params_of settings uid text sentiment) reply_text newg /\
    let row := reply_row settings cid uid reply_text in
    let c := InsertSingle "auto_replies" row in
    match write_fault E (length (calls wg)) c with
    | Some e =>
        reply_steps settings cid uid text platform sentiment w
          = (Throw (Thrown (error_value e)), push_call c wg)
    | None =>
        let id := new_id E (length (calls wg)) in
        let wi := push_call c (push_reply (JObj (("id", id) :: row)) wg) in
        let l := detected (length (calls wi)) text in
        detectSalesLead text wi = (Normal l, wl) /\
        leaf_step wi wl (lead_asked text) /\
        reply_steps settings cid uid text platform sentiment w
          = if truthy (is_lead l) && negb (taggable sentiment (lead_temperature l))
            then (Throw TypeError, wl)
            else (Normal tt,
                  push_sent
                    (replied_body id (JStr reply_text)
                       (get_opt settings "default_tone")
                       (get_opt settings "default_language")
                       sentiment (is_lead l) (lead_temperature l))
                    (if truthy (is_lead l)
                     then updated (lead_patch sentiment (lead_temperature l)) cid wl
                     else wl))
    end.
Proof.
  intros Hs.
  set (w1 := if like_fires settings platform sentiment
             then updated liked_patch cid w else w).
  destruct (generateReply_spec (reply_params_of settings uid text sentiment) w1)
    as (reply_text & wg & newg & Hg & Hne & Hstep & Hread & Hshape).
  assert (Hprefix :
    reply_steps settings cid uid text platform sentiment w
    = store_steps settings cid uid text sentiment reply_text wg).
  { unfold reply_steps.
    rewrite (get_truthy settings "default_tone" Hs),
      (get_truthy settings "default_language" Hs),
      (get_truthy settings "auto_like_positive" Hs).
    unfold w1, like_fires, reply_params_of in Hg.
    unfold bind, lift, ret. cbv beta iota.
    destruct (strict_eq_str sentiment "positive"); cbv beta iota; cbn [andb] in Hg.
    - destruct (truthy (get_opt settings "auto_like_positive") &&
                strict_eq_str platform "instagram"); cbv beta iota.
      + destruct (comments_update_run liked_patch cid w) as [r Hr].
        unfold liked_patch in Hr at 1. rewrite Hr. cbv beta iota.
        rewrite Hg. reflexivity.
      + rewrite Hg. reflexivity.
    - rewrite Hg. reflexivity. }
  rewrite Hprefix. clear Hprefix.
  exists reply_text, wg, newg.
  cbv zeta.
  assert (Hstore : forall ins wi,
    auto_replies_insert_single (reply_row settings cid uid reply_text) wg
      = (Normal ins, wi) ->
    store_steps settings cid uid text sentiment reply_text wg
    = ((if truthy (error ins) then throw (Thrown (error ins)) else ret tt) ;;
       let* lead := detectSalesLead text in
       (if truthy (is_lead lead)
        then let* sentiment_shown := lift (to_string rt sentiment) in
             let* temperature_shown := lift (to_string rt (lead_temperature lead)) in
             comments_update
               [("auto_reply_status", JStr "replied");
                ("sentiment", JStr (sentiment_shown +:+ "_lead_" +:+ temperature_shown))]
               cid ;;
             ret tt
        else ret tt) ;;
       let* id := lift (get (data ins) "id") in
       res_json (replied_body id (JStr reply_text)
                   (get_opt settings "default_tone")
                   (get_opt settings "default_language")
                   sentiment (is_lead lead) (lead_temperature lead))) wi).
  { intros ins wi Hins. unfold store_steps.
    rewrite (get_truthy settings "default_tone" Hs),
      (get_truthy settings "default_language" Hs).
    rewrite !bind_lift_normal.
    unfold reply_row in Hins.
    rewrite (bind_normal _ _ _ _ _ Hins). reflexivity. }
  destruct (write_fault E (length (calls wg))
              (InsertSingle "auto_replies" (reply_row settings cid uid reply_text)))
    as [e|] eqn:Hfault.
  - exists wg.
    split; [exact Hg|]. split; [exact Hne|]. split; [exact Hstep|].
    split; [exact Hread|]. split; [exact Hshape|].
    rewrite (Hstore _ _ (insert_refused _ _ _ Hfault)).
    reflexivity.
  - destruct (detectSalesLead_spec text
                (push_call (InsertSingle "auto_replies" (reply_row settings cid uid reply_text))
                   (push_reply
                      (JObj (("id", new_id E (length (calls wg)))
                             :: reply_row settings cid uid reply_text)) wg)))
      as (wl & Hl & Hlstep).
    exists wl.
    split; [exact Hg|]. split; [exact Hne|]. split; [exact Hstep|].
    split; [exact Hread|]. split; [exact Hshape|].
    split; [exact Hl|]. split; [exact Hlstep|].
    rewrite (Hstore _ _ (insert_stored _ _ Hfault)).
    cbn [error data truthy]. rewrite bind_ret.
    rewrite (bind_normal _ _ _ _ _ Hl).
    set (l := detected _ text).
    unfold taggable, to_string.
    destruct (truthy (is_lead l)); [|reflexivity].
    destruct (convertible sentiment); [|reflexivity].
    destruct (convertible (lead_temperature l)); [|reflexivity].
    cbn [andb negb].
    destruct (comments_update_run (lead_patch sentiment (lead_temperature l)) cid wl)
      as [r Hr].
    unfold lead_patch in Hr at 1.
    unfold bind, lift, ret. cbv beta iota. rewrite Hr. reflexivity.
Qed.

Lemma invoke_bad_request cs ars req :
  nullish (body req) = true ->
  invoke cs ars req
  = (Normal tt,
     push_sent failed_body
       (set_status 500
          (push_console "Reply generation error:" TypeError (start cs ars)))).
Proof.
  intros Hb. unfold invoke. rewrite generateReplyHandler_unfold.
  destruct (body req); try discriminate; reflexivity.
Qed.

Lemma invoke_no_settings cs ars req :
  nullish (body req) = false ->
  settings_found req = false ->
  invoke cs ars req
  = (Normal tt, push_sent not_found_body (set_status 404 (after_settings cs ars req))).
Proof.
  intros Hb Hs. unfold invoke. rewrite generateReplyHandler_unfold.
  rewrite !(get_not_nullish _ _ Hb).
  unfold try_catch. rewrite !bind_lift_normal.
  unfold bind at 1. unfold select_single at 1. cbv beta iota.
  unfold settings_found, settings_answer, field in Hs.
  apply negb_false_iff in Hs. cbn [start calls length]. rewrite Hs.
  reflexivity.
Qed.

Lemma invoke_found cs ars req a w2 :
  nullish (body req) = false ->
  settings_found req = true ->
  analyzeSentiment (field req "comment_text") (after_settings cs ars req)
    = (Normal a, w2) ->
  invoke cs ars req
  = try_catch
      (gate_steps (data (settings_answer req)) (field req "comment_id")
         (field req "user_id") (field req "comment_text") (field req "platform") a)
      handler_catch w2.
Proof.
  intros Hb Hs Ha. unfold invoke. rewrite generateReplyHandler_unfold.
  rewrite !(get_not_nullish _ _ Hb).
  unfold try_catch at 1. rewrite !bind_lift_normal.
  unfold bind at 1. unfold select_single at 1. cbv beta iota.
  unfold settings_found, settings_answer, field in Hs.
  apply negb_true_iff in Hs. cbn [start calls length]. rewrite Hs.
  unfold bind at 1.
  unfold after_settings, settings_call, field in Ha.
  rewrite Ha. reflexivity.
Qed.

Lemma gate_condition settings (c : bool) (k : string) w :
  truthy settings = true ->
  (if c then let* f := lift (get settings k) in ret (truthy f) else ret false) w
  = (Normal (c && truthy (get_opt settings k)), w).
Proof.
  intros Hs. rewrite (get_truthy _ _ Hs). destruct c; reflexivity.
Qed.

Lemma gate_steps_spam settings cid uid text platform a w :
  truthy settings = true ->
  spam_gate settings a = true ->
  gate_steps settings cid uid text platform a w
  = (Normal tt,
     push_sent ignored_body
       (updated (status_patch "ignored") cid (updated (classification_patch a) cid w))).
Proof.
  intros Hs Hg. unfold gate_steps.
  destruct (comments_update_run (classification_patch a) cid w) as [r Hr].
  unfold classification_patch in Hr at 1.
  rewrite (bind_normal _ _ _ _ _ Hr).
  rewrite (bind_normal _ _ _ _ _ (gate_condition _ _ _ _ Hs)).
  fold (spam_gate settings a). rewrite Hg.
  destruct (comments_update_run (status_patch "ignored") cid
              (updated (classification_patch a) cid w)) as [r' Hr'].
  unfold status_patch in Hr' at 1.
  rewrite (bind_normal _ _ _ _ _ Hr'). reflexivity.
Qed.

Lemma gate_steps_hate settings cid uid text platform a w :
  truthy settings = true ->
  spam_gate settings a = false ->
  hate_gate settings a = true ->
  gate_steps settings cid uid text platform a w
  = (Normal tt,
     push_sent escalated_body
       (updated (status_patch "escalated") cid (updated (classification_patch a) cid w))).
Proof.
  intros Hs Hspam Hg. unfold gate_steps.
  destruct (comments_update_run (classification_patch a) cid w) as [r Hr].
  unfold classification_patch in Hr at 1.
  rewrite (bind_normal _ _ _ _ _ Hr).
  rewrite (bind_normal _ _ _ _ _ (gate_condition _ _ _ _ Hs)).
  fold (spam_gate settings a). rewrite Hspam.
  rewrite (bind_normal _ _ _ _ _ (gate_condition _ _ _ _ Hs)).
  fold (hate_gate settings a). rewrite Hg.
  destruct (comments_update_run (status_patch "escalated") cid
              (updated (classification_patch a) cid w)) as [r' Hr'].
  unfold status_patch in Hr' at 1.
  rewrite (bind_normal _ _ _ _ _ Hr'). reflexivity.
Qed.

Lemma gate_steps_pass settings cid uid text platform a w :
  truthy settings = true ->
  spam_gate settings a = false ->
  hate_gate settings a = false ->
  gate_steps settings cid uid text platform a w
  = reply_steps settings cid uid text platform (sentiment a)
      (updated (classification_patch a) cid w).
Proof.
  intros Hs Hspam Hhate. unfold gate_steps.
  destruct (comments_update_run (classification_patch a) cid w) as [r Hr].
  unfold classification_patch in Hr at 1.
  rewrite (bind_normal _ _ _ _ _ Hr).
  rewrite (bind_normal _ _ _ _ _ (gate_condition _ _ _ _ Hs)).
  fold (spam_gate settings a). rewrite Hspam.
  rewrite (bind_normal _ _ _ _ _ (gate_condition _ _ _ _ Hs)).
  fold (hate_gate settings a). rewrite Hhate. reflexivity.
Qed.

Lemma settings_found_truthy req :
  settings_found req = true -> truthy (data (settings_answer req)) = true.
Proof.
  unfold settings_found. intros H. apply negb_true_iff, orb_false_iff in H.
  destruct H as [_ H]. apply negb_false_iff in H. exact H.
Qed.

Lemma handler_catch_run e w :
  handler_catch e w
  = (Normal tt,
     push_sent failed_body
       (set_status 500 (push_console "Reply generation error:" e w))).
Proof. reflexivity. Qed.

(** Every invocation returns, along one of these paths. *)
Theorem invoke_path cs ars req :
  exists w', invoke cs ars req = (Normal tt, w') /\ handler_path cs ars req w'.
Proof.
  destruct (nullish (body req)) eqn:Hb.
  { eexists. split; [apply invoke_bad_request, Hb|]. constructor. exact Hb. }
  destruct (settings_found req) eqn:Hs.
  2:{ eexists. split; [apply invoke_no_settings; assumption|]. constructor; assumption. }
  pose proof (settings_found_truthy _ Hs) as Ht.
  destruct (analyzeSentiment_spec (field req "comment_text")
              (after_settings cs ars req)) as (a & w2 & Ha & _).
  rewrite (invoke_found _ _ _ _ _ Hb Hs Ha).
  destruct (spam_gate (data (settings_answer req)) a) eqn:Hspam.
  { eexists. split.
    - apply try_catch_normal. apply gate_steps_spam; assumption.
    - eapply path_ignored; eassumption. }
  destruct (hate_gate (data (settings_answer req)) a) eqn:Hhate.
  { eexists. split.
    - apply try_catch_normal. apply gate_steps_hate; assumption.
    - eapply path_escalated; eassumption. }
  unfold try_catch. rewrite (gate_steps_pass _ _ _ _ _ _ _ Ht Hspam Hhate).
  destruct (reply_steps_run (data (settings_answer req)) (field req "comment_id")
              (field req "user_id") (field req "comment_text") (field req "platform")
              (sentiment a) (updated (classification_patch a) (field req "comment_id") w2)
              Ht)
    as (reply_text & wg & newg & wl & Hg & Hne & Hstep & Hread & Hshape & Hrest).
  cbv zeta in Hrest.
  fold (persisted req a w2) in Hg, Hstep, Hrest |- *.
  fold (liked req a w2) in Hg, Hstep.
  fold (insert_call req reply_text) in Hrest.
  destruct (write_fault E (length (calls wg)) (insert_call req reply_text))
    as [e|] eqn:Hfault.
  - rewrite Hrest. rewrite handler_catch_run.
    eexists. split; [reflexivity|].
    eapply path_insert_refused; eassumption.
  - destruct Hrest as (Hl & Hlstep & Hrun).
    rewrite Hrun.
    fold (stored_row req reply_text wg) in Hl, Hlstep |- *.
    fold (stored req reply_text wg) in Hl, Hlstep |- *.
    destruct (truthy (is_lead _) && negb (taggable _ _)) eqn:Htag.
    + rewrite handler_catch_run.
      eexists. split; [reflexivity|].
      eapply path_untaggable; try eassumption. reflexivity.
    + eexists. split; [reflexivity|].
      eapply path_replied; try eassumption. reflexivity.
Qed.

Lemma analyzeSentiment_step text w a w' :
  analyzeSentiment text w = (Normal a, w') ->
  leaf_step w w' (sentiment_asked text).
Proof.
  intros H. destruct (analyzeSentiment_spec text w) as (a0 & w0 & H0 & Hstep).
  rewrite H in H0. injection H0 as -> ->. exact Hstep.
Qed.

Lemma classification_run cs ars req a :
  classification cs ars req = Normal a ->
  exists w2,
    analyzeSentiment (field req "comment_text") (after_settings cs ars req)
      = (Normal a, w2).
Proof.
  unfold classification. intros H.
  destruct (analyzeSentiment _ _) as [c w2]. simpl in H. subst c.
  exists w2. reflexivity.
Qed.

Lemma classification_total cs ars req : exists a, classification cs ars req = Normal a.
Proof.
  unfold classification.
  destruct (analyzeSentiment_spec (field req "comment_text")
              (after_settings cs ars req)) as (a & w2 & Ha & _).
  exists a. rewrite Ha. reflexivity.
Qed.

Lemma opening_log_length req a : length (opening_log req a) = S (class_pos req).
Proof.
  unfold opening_log, class_pos. rewrite length_app. cbn [length]. lia.
Qed.

Lemma persisted_calls cs ars req a w2 :
  analyzeSentiment (field req "comment_text") (after_settings cs ars req)
    = (Normal a, w2) ->
  calls (persisted req a w2) = opening_log req a.
Proof.
  intros Ha. apply analyzeSentiment_step in Ha.
  destruct Ha as (_ & _ & Hc & _ & _).
  unfold persisted. rewrite updated_calls, Hc. reflexivity.
Qed.

Lemma persisted_frame cs ars req a w2 :
  analyzeSentiment (field req "comment_text") (after_settings cs ars req)
    = (Normal a, w2) ->
  auto_replies (persisted req a w2) = ars /\
  sent (persisted req a w2) = [] /\
  statusCode (persisted req a w2) = 200 /\
  comments (persisted req a w2) = classified_table cs req a.
Proof.
  intros Ha. apply analyzeSentiment_step in Ha.
  destruct Ha as (Hcs & Har & Hc & Hst & Hsent).
  unfold persisted, classified_table, write_to, class_pos.
  rewrite updated_auto_replies, updated_sent, updated_statusCode, updated_comments.
  rewrite Har, Hsent, Hst, Hcs, Hc. repeat split.
Qed.

(** A classification other than the default was read off an answer of
    the model: the text could be converted. *)
Lemma classified_convertible cs ars req a :
  classification cs ars req = Normal a ->
  sentiment a <> JStr "neutral" ->
  convertible (field req "comment_text") = true.
Proof.
  unfold classification. rewrite analyzeSentiment_run. cbv zeta.
  unfold sentiment_attempt, to_string.
  destruct (convertible (field req "comment_text")); [reflexivity|].
  cbn [cbind fst]. intros [= <-] H. exfalso. apply H. reflexivity.
Qed.

Lemma gate_not_neutral settings a :
  spam_gate settings a = true \/ hate_gate settings a = true ->
  sentiment a <> JStr "neutral".
Proof.
  unfold spam_gate, hate_gate. intros [H|H] Hn; rewrite Hn in H; discriminate H.
Qed.

Lemma opening_classified req a :
  convertible (field req "comment_text") = true ->
  opening_log req a = classified_log req a /\ class_pos req = 2%nat.
Proof.
  intros H. unfold opening_log, class_pos, sentiment_asked. rewrite H.
  split; reflexivity.
Qed.

Lemma apply_patch_status s (row : gmap string jsval) :
  apply_patch (status_patch s) row !! "auto_reply_status" = Some (JStr s).
Proof. unfold apply_patch, status_patch. simpl. apply lookup_insert_eq. Qed.

Lemma apply_patch_classification a (row : gmap string jsval) :
  apply_patch (classification_patch a) row !! "sentiment" = Some (sentiment a) /\
  apply_patch (classification_patch a) row !! "sentiment_score" = Some (score a).
Proof.
  unfold apply_patch, classification_patch. simpl. split.
  - rewrite lookup_insert_ne by discriminate. apply lookup_insert_eq.
  - apply lookup_insert_eq.
Qed.

Lemma alter_lookup_some (f : gmap string jsval -> gmap string jsval)
      (k : string) (m : gmap string (gmap string jsval)) (row : gmap string jsval) :
  m !! k = Some row -> alter f k m !! k = Some (f row).
Proof. intros H. rewrite lookup_alter_eq, H. reflexivity. Qed.

Lemma updated_keeps_row patch id w k :
  is_Some (comments w !! k) -> is_Some (comments (updated patch id w) !! k).
Proof.
  intros [row Hrow]. rewrite updated_comments.
  destruct (write_fault E _ _); [eauto|].
  rewrite lookup_alter. case_decide; [subst; rewrite Hrow|rewrite Hrow]; eauto.
Qed.

Lemma liked_frame cs ars req a w2 :
  analyzeSentiment (field req "comment_text") (after_settings cs ars req)
    = (Normal a, w2) ->
  calls (liked req a w2) = (opening_log req a ++ like_log req a)%list /\
  auto_replies (liked req a w2) = ars /\
  sent (liked req a w2) = [] /\
  statusCode (liked req a w2) = 200 /\
  comments (liked req a w2) = liked_table cs req a.
Proof.
  intros Ha.
  destruct (persisted_frame _ _ _ _ _ Ha) as (Har & Hsent & Hst & Hcs).
  pose proof (persisted_calls _ _ _ _ _ Ha) as Hcalls.
  unfold liked, like_log, liked_table.
  destruct (like_fires _ _ _).
  - rewrite updated_calls, updated_auto_replies, updated_sent, updated_statusCode,
      updated_comments.
    rewrite Hcalls, Har, Hsent, Hst, Hcs, opening_log_length. repeat split.
  - rewrite Hcalls, Har, Hsent, Hst, Hcs, app_nil_r. repeat split.
Qed.

Lemma no_gate_write_among_reads (new : list call) :
  forallb (fun c => negb (is_write c)) new = true ->
  List.filter is_gate_write new = [].
Proof.
  induction new as [|c new IH]; [reflexivity|].
  cbn [forallb]. intros H. apply andb_true_iff in H. destruct H as [Hc Hnew].
  destruct c; try discriminate; cbn [List.filter is_gate_write]; apply IH, Hnew.
Qed.

Lemma no_gate_write_classified req a : List.filter is_gate_write (classified_log req a) = [].
Proof. reflexivity. Qed.

Lemma no_gate_write_opening req a : List.filter is_gate_write (opening_log req a) = [].
Proof.
  unfold opening_log, sentiment_asked.
  destruct (convertible _); reflexivity.
Qed.

Lemma no_gate_write_asked text : List.filter is_gate_write (lead_asked text) = [].
Proof. unfold lead_asked. destruct (convertible _); reflexivity. Qed.

Lemma no_gate_write_like req a : List.filter is_gate_write (like_log req a) = [].
Proof. unfold like_log. destruct (like_fires _ _ _); reflexivity. Qed.

Lemma no_gate_write_lead req a l : List.filter is_gate_write (lead_log req a l) = [].
Proof. unfold lead_log. destruct (truthy _); reflexivity. Qed.

Lemma classification_of_run cs ars req a w2 :
  analyzeSentiment (field req "comment_text") (after_settings cs ars req) = (Normal a, w2) ->
  classification cs ars req = Normal a.
Proof. intros H. unfold classification. rewrite H. reflexivity. Qed.

(** Every invocation returns, and leaves one of the seven outcomes. *)
Theorem invoke_outcome cs ars req :
  exists w', invoke cs ars req = (Normal tt, w') /\ outcome cs ars req w'.
Proof.
  destruct (invoke_path cs ars req) as (w' & Hrun & Hpath).
  exists w'. split; [exact Hrun|]. clear Hrun.
  destruct Hpath as [Hb | Hb Hs | a w2 Hb Hs Ha Hspam | a w2 Hb Hs Ha Hspam Hhate
                    | a w2 reply_text wg newg e Hb Hs Ha Hspam Hhate Hg Hne Hstep Hread
                        Hshape Hfault
                    | a w2 reply_text wg newg l wl Hb Hs Ha Hspam Hhate Hg Hne Hstep Hread
                        Hshape Hfault Hdet Hl Hlstep Htag
                    | a w2 reply_text wg newg l wl Hb Hs Ha Hspam Hhate Hg Hne Hstep Hread
                        Hshape Hfault Hdet Hl Hlstep Htag].
  - apply out_bad_request; [exact Hb | reflexivity ..].
  - apply out_no_settings; [exact Hb | exact Hs | reflexivity ..].
  - destruct (persisted_frame _ _ _ _ _ Ha) as (Har & Hsent & Hst & Hcs).
    pose proof (persisted_calls _ _ _ _ _ Ha) as Hcalls.
    pose proof (classification_of_run _ _ _ _ _ Ha) as Hcl.
    destruct (opening_classified req a) as (Hopen & Hpos).
    { eapply classified_convertible; [exact Hcl|]. eapply gate_not_neutral. eauto. }
    rewrite Hopen in Hcalls. unfold classified_table in Hcs. rewrite Hpos in Hcs.
    apply (out_ignored _ _ _ _ a); try assumption.
    + cbn [calls push_sent]. rewrite updated_calls, Hcalls. reflexivity.
    + cbn [sent push_sent]. rewrite updated_sent, updated_statusCode, Hsent, Hst. reflexivity.
    + cbn [auto_replies push_sent]. rewrite updated_auto_replies. exact Har.
    + cbn [comments push_sent]. rewrite updated_comments, Hcalls, Hcs. reflexivity.
  - destruct (persisted_frame _ _ _ _ _ Ha) as (Har & Hsent & Hst & Hcs).
    pose proof (persisted_calls _ _ _ _ _ Ha) as Hcalls.
    pose proof (classification_of_run _ _ _ _ _ Ha) as Hcl.
    destruct (opening_classified req a) as (Hopen & Hpos).
    { eapply classified_convertible; [exact Hcl|]. eapply gate_not_neutral. eauto. }
    rewrite Hopen in Hcalls. unfold classified_table in Hcs. rewrite Hpos in Hcs.
    apply (out_escalated _ _ _ _ a); try assumption.
    + cbn [calls push_sent]. rewrite updated_calls, Hcalls. reflexivity.
    + cbn [sent push_sent]. rewrite updated_sent, updated_statusCode, Hsent, Hst. reflexivity.
    + cbn [auto_replies push_sent]. rewrite updated_auto_replies. exact Har.
    + cbn [comments push_sent]. rewrite updated_comments, Hcalls, Hcs. reflexivity.
  - destruct (liked_frame _ _ _ _ _ Ha) as (Hcalls & Har & Hsent & Hst & Hcs).
    destruct Hstep as (Hgc & Hga & Hgcalls & Hgst & Hgsent).
    assert (Hlog : calls wg = before_insert req a newg).
    { rewrite Hgcalls, Hcalls. unfold before_insert. rewrite <- app_assoc. reflexivity. }
    apply (out_insert_refused _ _ _ _ a reply_text newg e); try assumption.
    + eapply classification_of_run, Ha.
    + cbn [calls push_sent set_status push_console push_call]. rewrite Hlog. reflexivity.
    + rewrite <- Hlog. exact Hfault.
    + cbn [sent statusCode push_sent set_status push_console push_call].
      rewrite Hgsent, Hsent. reflexivity.
    + cbn [auto_replies push_sent set_status push_console push_call].
      rewrite Hga. exact Har.
    + cbn [comments push_sent set_status push_console push_call].
      rewrite Hgc. exact Hcs.
  - destruct (liked_frame _ _ _ _ _ Ha) as (Hcalls & Har & Hsent & Hst & Hcs).
    destruct Hstep as (Hgc & Hga & Hgcalls & Hgst & Hgsent).
    destruct Hlstep as (Hlc & Hla & Hlcalls & Hlst & Hlsent).
    assert (Hlog : calls wg = before_insert req a newg).
    { rewrite Hgcalls, Hcalls. unfold before_insert. rewrite <- app_assoc. reflexivity. }
    assert (Hwl : calls wl = (before_insert req a newg ++ [insert_call req reply_text] ++
                              lead_asked (field req "comment_text"))%list).
    { rewrite Hlcalls. unfold stored. cbn [calls push_call push_reply].
      rewrite Hlog, <- app_assoc. reflexivity. }
    assert (Hcwl : comments wl = liked_table cs req a).
    { rewrite Hlc. unfold stored. cbn [comments push_call push_reply].
      rewrite Hgc. exact Hcs. }
    apply (out_replied _ _ _ _ a reply_text newg l); try assumption.
    + eapply classification_of_run, Ha.
    + rewrite <- Hlog. exact Hfault.
    + rewrite Hdet. unfold stored. cbn [calls push_call push_reply].
      rewrite length_app, Hlog. cbn [length]. f_equal. lia.
    + intros Hlead. rewrite Hlead in Htag. cbn [andb] in Htag.
      apply negb_false_iff in Htag. exact Htag.
    + unfold lead_written, lead_log. cbn [calls push_sent].
      destruct (truthy (is_lead l)).
      * rewrite updated_calls, Hwl, <- !app_assoc. reflexivity.
      * rewrite Hwl, app_nil_r. reflexivity.
    + rewrite <- Hlog.
      assert (Hcode : statusCode (lead_written req a l wl) = 200).
      { unfold lead_written. destruct (truthy (is_lead l));
          rewrite ?updated_statusCode, Hlst; unfold stored;
          cbn [statusCode push_call push_reply]; rewrite Hgst; exact Hst. }
      assert (Hs0 : sent (lead_written req a l wl) = []).
      { unfold lead_written. destruct (truthy (is_lead l));
          rewrite ?updated_sent, Hlsent; unfold stored;
          cbn [sent push_call push_reply]; rewrite Hgsent; exact Hsent. }
      cbn [sent push_sent]. rewrite Hcode, Hs0. reflexivity.
    + rewrite <- Hlog.
      assert (Ha0 : auto_replies (lead_written req a l wl) = auto_replies wl).
      { unfold lead_written. destruct (truthy (is_lead l));
          rewrite ?updated_auto_replies; reflexivity. }
      cbn [auto_replies push_sent]. rewrite Ha0, Hla. unfold stored, stored_row, inserted_row.
      cbn [auto_replies push_call push_reply]. rewrite Hga, Har. reflexivity.
    + unfold lead_written. cbn [comments push_sent].
      destruct (truthy (is_lead l)); [|exact Hcwl].
      rewrite updated_comments, Hcwl, Hwl. reflexivity.
  - destruct (liked_frame _ _ _ _ _ Ha) as (Hcalls & Har & Hsent & Hst & Hcs).
    destruct Hstep as (Hgc & Hga & Hgcalls & Hgst & Hgsent).
    destruct Hlstep as (Hlc & Hla & Hlcalls & Hlst & Hlsent).
    assert (Hlog : calls wg = before_insert req a newg).
    { rewrite Hgcalls, Hcalls. unfold before_insert. rewrite <- app_assoc. reflexivity. }
    apply andb_true_iff in Htag. destruct Htag as [Hlead Htag].
    apply negb_true_iff in Htag.
    apply (out_untaggable _ _ _ _ a reply_text newg l); try assumption.
    + eapply classification_of_run, Ha.
    + rewrite <- Hlog. exact Hfault.
    + rewrite Hdet. unfold stored. cbn [calls push_call push_reply].
      rewrite length_app, Hlog. cbn [length]. f_equal. lia.
    + cbn [calls push_sent set_status push_console]. rewrite Hlcalls. unfold stored.
      cbn [calls push_call push_reply]. rewrite Hlog, <- app_assoc. reflexivity.
    + cbn [sent statusCode push_sent set_status push_console]. rewrite Hlsent.
      unfold stored. cbn [sent push_call push_reply]. rewrite Hgsent, Hsent. reflexivity.
    + cbn [auto_replies push_sent set_status push_console]. rewrite Hla, <- Hlog.
      unfold stored, stored_row, inserted_row.
      cbn [auto_replies push_call push_reply]. rewrite Hga, Har. reflexivity.
    + cbn [comments push_sent set_status push_console]. rewrite Hlc. unfold stored.
      cbn [comments push_call push_reply]. rewrite Hgc. exact Hcs.
Qed.

Lemma write_to_keeps n patch id cs k :
  is_Some (cs !! k) -> is_Some (write_to n patch id cs !! k).
Proof.
  intros [row Hrow]. unfold write_to. destruct (write_fault E _ _); [eauto|].
  rewrite lookup_alter. case_decide; [subst; rewrite Hrow|rewrite Hrow]; eauto.
Qed.

Lemma write_to_accepted n patch id cs row :
  write_fault E n (UpdateEq "comments" patch "id" id) = None ->
  cs !! render rt id = Some row ->
  write_to n patch id cs !! render rt id = Some (apply_patch patch row).
Proof.
  intros Hok Hrow. unfold write_to. rewrite Hok. apply alter_lookup_some, Hrow.
Qed.


Lemma gate_writes_of_outcome cs ars req w' :
  outcome cs ars req w' -> (length (List.filter is_gate_write (calls w')) <= 1)%nat.
Proof.
  intros [Hb Hc | Hb Hs Hc | a Hb Hs Ha Hspam Hc | a Hb Hs Ha Hspam Hhate Hc
         | a reply_text newg e Hb Hs Ha Hspam Hhate Hne Hread Hshape Hc
         | a reply_text newg l Hb Hs Ha Hspam Hhate Hne Hread Hshape Hfault Hl Htag Hc
         | a reply_text newg l Hb Hs Ha Hspam Hhate Hne Hread Hshape Hfault Hl Hlead Htag Hc].
  - rewrite Hc. cbn. lia.
  - rewrite Hc. cbn. lia.
  - rewrite Hc, List.filter_app, no_gate_write_classified. cbn. lia.
  - rewrite Hc, List.filter_app, no_gate_write_classified. cbn. lia.
  - rewrite Hc. unfold before_insert.
    rewrite !List.filter_app, no_gate_write_opening, no_gate_write_like,
      (no_gate_write_among_reads _ Hread). cbn. lia.
  - rewrite Hc. unfold before_insert.
    rewrite !List.filter_app, no_gate_write_opening, no_gate_write_like,
      (no_gate_write_among_reads _ Hread), no_gate_write_asked, no_gate_write_lead.
    cbn. lia.
  - rewrite Hc. unfold before_insert.
    rewrite !List.filter_app, no_gate_write_opening, no_gate_write_like,
      (no_gate_write_among_reads _ Hread), no_gate_write_asked.
    cbn. lia.
Qed.

Lemma settings_found_false req :
  settings_found req = false <->
  truthy (error (settings_answer req)) = true \/ truthy (data (settings_answer req)) = false.
Proof.
  unfold settings_found. rewrite negb_false_iff, orb_true_iff, negb_true_iff. tauto.
Qed.

Lemma refused_insert_is_in req w' a reply_text newg e :
  calls w' = (before_insert req a newg ++ [insert_call req reply_text])%list ->
  write_fault E (length (before_insert req a newg)) (insert_call req reply_text) = Some e ->
  insert_refused_in w'.
Proof.
  intros Hc Hfault.
  exists (length (before_insert req a newg)),
    (reply_row (data (settings_answer req)) (field req "comment_id")
       (field req "user_id") reply_text), e.
  split; [|exact Hfault].
  rewrite Hc. apply list_lookup_middle. reflexivity.
Qed.

Lemma get_nullish (v : jsval) (k : string) : nullish v = true -> get v k = Throw TypeError.
Proof. destruct v; simpl; intros H; try discriminate; reflexivity. Qed.

Lemma first_content_no_choice resp : choices resp = [] -> first_content resp = Throw TypeError.
Proof. intros H. unfold first_content. rewrite H. reflexivity. Qed.

(** The failures are exactly the cases in which the [try] block of
    [analyzeSentiment] is left by a throw. *)
Lemma classifier_failure_throws ans :
  classifier_failure ans <-> exists e, sentiment_of_parsed (parsed_answer ans) = Throw e.
Proof.
  split.
  - intros [e | resp H | resp c Hc Hp | resp c v Hc Hp Hv];
      unfold sentiment_of_parsed, parsed_answer, json_parse; cbn [cbind].
    + eauto.
    + rewrite (first_content_no_choice _ H). cbn [cbind]. eauto.
    + rewrite Hc. cbn [cbind]. rewrite Hp. cbn [cbind]. eauto.
    + rewrite Hc. cbn [cbind]. rewrite Hp. cbn [cbind].
      rewrite (get_nullish _ _ Hv). cbn [cbind]. eauto.
  - intros [e H]. destruct ans as [resp|e0]; [|constructor].
    unfold sentiment_of_parsed, parsed_answer, json_parse in H. cbn [cbind] in H.
    destruct (first_content resp) as [c|e1] eqn:Hc.
    + cbn [cbind] in H.
      destruct (JSON_parse rt (str_or c "{}")) as [v|] eqn:Hp.
      * cbn [cbind] in H. destruct (nullish v) eqn:Hv.
        -- eapply fails_null; eassumption.
        -- rewrite !(get_not_nullish _ _ Hv) in H. discriminate.
      * eapply fails_malformed; eassumption.
    + unfold first_content in Hc. destruct (choices resp) eqn:Hch; [|discriminate].
      apply fails_no_choice, Hch.
Qed.

Lemma analyzeSentiment_failed text w :
  classifier_failure (chat_answer E (length (calls w)) (sentiment_request text)) ->
  fst (analyzeSentiment text w) = Normal neutral_default.
Proof.
  intros H. apply classifier_failure_throws in H. destruct H as [e He].
  rewrite analyzeSentiment_run. cbv zeta. unfold sentiment_attempt.
  destruct (to_string rt text); cbn [cbind]; [rewrite He|]; reflexivity.
Qed.

Lemma analyzeSentiment_unconvertible text w :
  convertible text = false ->
  analyzeSentiment text w
  = (Normal neutral_default, push_console "Sentiment analysis error:" TypeError w).
Proof.
  intros H. rewrite analyzeSentiment_run. cbv zeta. unfold sentiment_attempt.
  rewrite (to_string_unconvertible _ H), H. reflexivity.
Qed.

Lemma replied_body_replied id text tone language s l t w :
  sent w = [(200, replied_body id text tone language s l t)] -> replied_response w.
Proof. intros H. eexists. split; [exact H|]. split; reflexivity. Qed.

Lemma apply_patch_status_other s k (row : gmap string jsval) :
  k <> "auto_reply_status" -> apply_patch (status_patch s) row !! k = row !! k.
Proof.
  intros Hk. unfold apply_patch, status_patch. simpl.
  apply lookup_insert_ne. congruence.
Qed.

Lemma gate_keeps_classification n s a id cs row :
  cs !! render rt id = Some (apply_patch (classification_patch a) row) ->
  exists row',
    write_to n (status_patch s) id cs !! render rt id = Some row' /\
    row' !! "sentiment" = Some (sentiment a) /\
    row' !! "sentiment_score" = Some (score a).
Proof.
  intros Hrow. unfold write_to. destruct (write_fault E _ _).
  - eexists. split; [exact Hrow|]. apply apply_patch_classification.
  - rewrite (alter_lookup_some _ _ _ _ Hrow). eexists. split; [reflexivity|].
    rewrite !apply_patch_status_other by discriminate.
    apply apply_patch_classification.
Qed.

Lemma reads_are_not_inserts (new : list call) :
  forallb (fun c => negb (is_write c)) new = true ->
  Forall (fun c => is_insert c = false) new.
Proof.
  induction new as [|c new IH]; [constructor|].
  cbn [forallb]. intros H. apply andb_true_iff in H. destruct H as [Hc Hnew].
  constructor; [|apply IH, Hnew]. destruct c; try reflexivity; discriminate Hc.
Qed.

Lemma insert_position (pre post : list call) (c x : call) (n : nat) :
  Forall (fun c => is_insert c = false) pre ->
  Forall (fun c => is_insert c = false) post ->
  (pre ++ c :: post)%list !! n = Some x ->
  is_insert x = true ->
  n = length pre /\ x = c.
Proof.
  intros Hpre Hpost Hn Hx.
  apply lookup_app_Some in Hn. destruct Hn as [Hn | [Hle Hn]].
  - rewrite Forall_lookup in Hpre. rewrite (Hpre _ _ Hn) in Hx. discriminate.
  - destruct (n - length pre)%nat as [|m] eqn:Hm.
    + cbn in Hn. injection Hn as <-. split; [lia | reflexivity].
    + cbn in Hn. rewrite Forall_lookup in Hpost. rewrite (Hpost _ _ Hn) in Hx.
      discriminate.
Qed.

Lemma opening_log_no_insert req a :
  Forall (fun c => is_insert c = false) (opening_log req a).
Proof.
  unfold opening_log, sentiment_asked. destruct (convertible _); repeat constructor.
Qed.

Lemma like_log_no_insert req a : Forall (fun c => is_insert c = false) (like_log req a).
Proof. unfold like_log. destruct (like_fires _ _ _); repeat constructor. Qed.

Lemma lead_log_no_insert req a l : Forall (fun c => is_insert c = false) (lead_log req a l).
Proof. unfold lead_log. destruct (truthy _); repeat constructor. Qed.

Lemma lead_asked_no_insert text : Forall (fun c => is_insert c = false) (lead_asked text).
Proof. unfold lead_asked. destruct (convertible _); repeat constructor. Qed.

Lemma before_insert_no_insert req a newg :
  forallb (fun c => negb (is_write c)) newg = true ->
  Forall (fun c => is_insert c = false) (before_insert req a newg).
Proof.
  intros Hread. unfold before_insert.
  apply Forall_app. split; [apply opening_log_no_insert|].
  apply Forall_app. split; [apply like_log_no_insert|].
  apply reads_are_not_inserts, Hread.
Qed.

Lemma no_insert_no_refusal w :
  Forall (fun c => is_insert c = false) (calls w) -> ~ insert_refused_in w.
Proof.
  intros Hall (n & row & e & Hn & _).
  rewrite Forall_lookup in Hall. specialize (Hall _ _ Hn). discriminate.
Qed.

(** In the outcomes that store a row, the insert is the request at
    position [length (before_insert req a newg)], and no other request
    is an insert. *)
Lemma the_insert req a newg reply_text post n x :
  forallb (fun c => negb (is_write c)) newg = true ->
  Forall (fun c => is_insert c = false) post ->
  (before_insert req a newg ++ [insert_call req reply_text] ++ post)%list !! n = Some x ->
  is_insert x = true ->
  n = length (before_insert req a newg) /\ x = insert_call req reply_text.
Proof.
  intros Hread Hpost Hn Hx.
  eapply insert_position; [apply before_insert_no_insert, Hread | exact Hpost | | exact Hx].
  exact Hn.
Qed.

Lemma untaggable_is_in cs ars req w' a reply_text newg post :
  classification cs ars req = Normal a ->
  calls w' = (before_insert req a newg ++ [insert_call req reply_text] ++ post)%list ->
  write_fault E (length (before_insert req a newg)) (insert_call req reply_text) = None ->
  truthy (is_lead (detected (S (length (before_insert req a newg)))
                     (field req "comment_text"))) = true ->
  taggable (sentiment a)
    (lead_temperature (detected (S (length (before_insert req a newg)))
                         (field req "comment_text"))) = false ->
  untaggable_lead cs ars req w'.
Proof.
  intros Ha Hc Hfault Hlead Htag.
  exists a, (length (before_insert req a newg)),
    (reply_row (data (settings_answer req)) (field req "comment_id")
       (field req "user_id") reply_text).
  split; [exact Ha|]. split; [|repeat split; assumption].
  rewrite Hc. apply list_lookup_middle. reflexivity.
Qed.

(** The three ways an invocation that found the settings can end: the
    insert is refused; or it is not and the lead tag cannot be built; or
    neither, and the invocation reports success. *)
Lemma insert_refused_outcome cs ars req w' :
  outcome cs ars req w' ->
  (insert_refused_in w' /\ sent w' = [(500, failed_body)] /\ auto_replies w' = ars) \/
  (~ insert_refused_in w' /\ untaggable_lead cs ars req w' /\
   sent w' = [(500, failed_body)]) \/
  (~ insert_refused_in w' /\ ~ untaggable_lead cs ars req w' /\
   (nullish (body req) = false -> settings_found req = true -> success_response w')).
Proof.
  assert (Hnone : forall w, Forall (fun c => is_insert c = false) (calls w) ->
                            ~ untaggable_lead cs ars req w).
  { intros w Hall (a & n & row & _ & Hn & _).
    rewrite Forall_lookup in Hall. specialize (Hall _ _ Hn). discriminate. }
  intros [Hb Hc | Hb Hs Hc | a Hb Hs Ha Hspam Hc Hse | a Hb Hs Ha Hspam Hhate Hc Hse
         | a reply_text newg e Hb Hs Ha Hspam Hhate Hne Hread Hshape Hc Hfault Hse Har
         | a reply_text newg l Hb Hs Ha Hspam Hhate Hne Hread Hshape Hfault Hl Htag Hc Hse
         | a reply_text newg l Hb Hs Ha Hspam Hhate Hne Hread Hshape Hfault Hl Hlead Htag
             Hc Hse].
  - right. right.
    assert (Hall : Forall (fun c => is_insert c = false) (calls w'))
      by (rewrite Hc; constructor).
    split; [apply no_insert_no_refusal, Hall|]. split; [apply Hnone, Hall | congruence].
  - right. right.
    assert (Hall : Forall (fun c => is_insert c = false) (calls w'))
      by (rewrite Hc; repeat constructor).
    split; [apply no_insert_no_refusal, Hall|]. split; [apply Hnone, Hall | congruence].
  - right. right.
    assert (Hall : Forall (fun c => is_insert c = false) (calls w'))
      by (rewrite Hc; repeat constructor).
    split; [apply no_insert_no_refusal, Hall|]. split; [apply Hnone, Hall|].
    intros _ _. eexists. split; [exact Hse | reflexivity].
  - right. right.
    assert (Hall : Forall (fun c => is_insert c = false) (calls w'))
      by (rewrite Hc; repeat constructor).
    split; [apply no_insert_no_refusal, Hall|]. split; [apply Hnone, Hall|].
    intros _ _. eexists. split; [exact Hse | reflexivity].
  - left. split; [eapply refused_insert_is_in; eassumption|]. split; assumption.
  - right. right. split; [|split].
    + intros (n & row & e & Hn & He). rewrite Hc in Hn.
      apply the_insert in Hn; [|exact Hread| |reflexivity].
      * destruct Hn as [-> Hrow]. unfold insert_call in Hrow, Hfault.
        injection Hrow as ->. rewrite Hfault in He. discriminate.
      * apply Forall_app. split; [apply lead_asked_no_insert | apply lead_log_no_insert].
    + intros (a' & n & row & Ha' & Hn & _ & Hlead & Hno). rewrite Hc in Hn.
      apply the_insert in Hn; [|exact Hread| |reflexivity].
      * destruct Hn as [-> _]. rewrite <- Hl in Hlead, Hno.
        rewrite Ha in Ha'. injection Ha' as <-.
        rewrite (Htag Hlead) in Hno. discriminate.
      * apply Forall_app. split; [apply lead_asked_no_insert | apply lead_log_no_insert].
    + intros _ _. eexists. split; [exact Hse | reflexivity].
  - right. left. split; [|split; [|exact Hse]].
    + intros (n & row & e & Hn & He). rewrite Hc in Hn.
      apply the_insert in Hn; [|exact Hread| |reflexivity].
      * destruct Hn as [-> Hrow]. unfold insert_call in Hrow, Hfault.
        injection Hrow as ->. rewrite Hfault in He. discriminate.
      * apply lead_asked_no_insert.
    + subst l. eapply untaggable_is_in; eassumption.
Qed.


Lemma outcome_first_call cs ars req w' :
  outcome cs ars req w' ->
  nullish (body req) = false ->
  exists rest,
    calls w' = settings_call req :: rest /\
    (settings_found req = false -> rest = [] /\ sent w' = [(404, not_found_body)]).
Proof.
  intros [Hb' Hc | Hb' Hs' Hc Hse | a _ Hs _ _ Hc | a _ Hs _ _ _ Hc
         | a reply_text newg e _ Hs _ _ _ _ _ _ Hc
         | a reply_text newg l _ Hs _ _ _ _ _ _ _ _ _ Hc
         | a reply_text newg l _ Hs _ _ _ _ _ _ _ _ _ _ Hc] Hb.
  - congruence.
  - exists []. split; [exact Hc|]. intros _. split; [reflexivity | exact Hse].
  - eexists. split; [rewrite Hc; reflexivity | congruence].
  - eexists. split; [rewrite Hc; reflexivity | congruence].
  - eexists. split; [rewrite Hc; reflexivity | congruence].
  - eexists. split; [rewrite Hc; reflexivity | congruence].
  - eexists. split; [rewrite Hc; reflexivity | congruence].
Qed.

Lemma apply_patch_other patch (row : gmap string jsval) f :
  ~ In f (map fst patch) -> apply_patch patch row !! f = row !! f.
Proof.
  unfold apply_patch. revert row.
  induction patch as [|[k v] patch IH]; intros row Hf; [reflexivity|].
  cbn [foldl fst snd]. rewrite IH.
  - apply lookup_insert_ne. intros ->. apply Hf. left. reflexivity.
  - intros Hin. apply Hf. right. exact Hin.
Qed.

Lemma write_to_keeps_column n patch id cs k col v :
  ~ In col (map fst patch) ->
  (exists row, cs !! k = Some row /\ row !! col = Some v) ->
  exists row, write_to n patch id cs !! k = Some row /\ row !! col = Some v.
Proof.
  intros Hcol (row & Hrow & Hv). unfold write_to.
  destruct (write_fault E _ _); [eauto|].
  rewrite lookup_alter. case_decide; [subst|]; rewrite Hrow; [|eauto].
  eexists. split; [reflexivity|]. rewrite apply_patch_other; assumption.
Qed.

(** The row of the payload's Comment after the classification write
    was accepted, and after step 3. *)
Lemma classified_table_row cs req a row :
  write_fault E (class_pos req)
    (UpdateEq "comments" (classification_patch a) "id" (field req "comment_id")) = None ->
  cs !! comment_key req = Some row ->
  (exists row', classified_table cs req a !! comment_key req = Some row' /\
                row' !! "sentiment" = Some (sentiment a)) /\
  (exists row', classified_table cs req a !! comment_key req = Some row' /\
                row' !! "sentiment_score" = Some (score a)).
Proof.
  intros Hok Hrow. unfold classified_table, comment_key in *.
  rewrite (write_to_accepted _ _ _ _ _ Hok Hrow).
  split; eexists; (split; [reflexivity|]); apply apply_patch_classification.
Qed.

Lemma liked_table_row cs req a row :
  write_fault E (class_pos req)
    (UpdateEq "comments" (classification_patch a) "id" (field req "comment_id")) = None ->
  cs !! comment_key req = Some row ->
  (exists row', liked_table cs req a !! comment_key req = Some row' /\
                row' !! "sentiment" = Some (sentiment a)) /\
  (exists row', liked_table cs req a !! comment_key req = Some row' /\
                row' !! "sentiment_score" = Some (score a)).
Proof.
  intros Hok Hrow.
  destruct (classified_table_row _ _ _ _ Hok Hrow) as (Hs & Hsc).
  unfold liked_table. destruct (like_fires _ _ _); [|split; assumption].
  split; apply write_to_keeps_column; try assumption;
    cbn; intros [H|[]]; discriminate H.
Qed.


Lemma sentiment_of_parsed_truthy p a :
  sentiment_of_parsed p = Normal a ->
  truthy (sentiment a) = true /\ truthy (score a) = true.
Proof.
  unfold sentiment_of_parsed. destruct p as [parsed|e]; [|discriminate].
  cbn [cbind]. destruct (get parsed "sentiment") as [s|e]; [|discriminate].
  cbn [cbind]. destruct (get parsed "score") as [sc|e]; [|discriminate].
  cbn [cbind]. intros H. injection H as <-. cbn [sentiment score].
  split; apply js_or_truthy; reflexivity.
Qed.

(* ===================================================================== *)
(** * The claims *)
(* ===================================================================== *)

(** C1: whenever the classifier returns the sentiment "spam" and the
    user's settings have [ignore_spam] set, the invocation writes
    [auto_reply_status = "ignored"] to the Comment, sends
    [{success: true, action: "ignored", reason: "Spam detected"}] and ends
    there: the status write is its last request, no AutoReply row is
    inserted, and, when the ledger accepts the write, the stored Comment
    carries the status. *)
Theorem spam_gate_ignores cs ars req a :
  nullish (body req) = false ->
  settings_found req = true ->
  classification cs ars req = Normal a ->
  sentiment a = JStr "spam" ->
  truthy (get_opt (data (settings_answer req)) "ignore_spam") = true ->
  exists w',
    invoke cs ars req = (Normal tt, w') /\
    sent w' = [(200, ignored_body)] /\
    auto_replies w' = ars /\
    calls w' = (classified_log req a ++
                [UpdateEq "comments" (status_patch "ignored") "id" (field req "comment_id")])%list /\
    (write_fault E 3
       (UpdateEq "comments" (status_patch "ignored") "id" (field req "comment_id")) = None ->
     forall row, cs !! comment_key req = Some row ->
       exists row', comments w' !! comment_key req = Some row' /\
                    row' !! "auto_reply_status" = Some (JStr "ignored")).
Proof.
  intros Hb Hs Hc Hsent Hflag.
  assert (Hgate : spam_gate (data (settings_answer req)) a = true).
  { unfold spam_gate. rewrite Hsent, Hflag. reflexivity. }
  destruct (invoke_outcome cs ars req) as (w' & Hrun & Hout).
  exists w'. split; [exact Hrun|].
  destruct Hout as [Hb' | Hb' Hs' | a' _ _ Ha' _ Hcalls Hse Har Hcs | a' _ _ Ha' Hspam'
                   | a' ? ? ? _ _ Ha' Hspam' | a' ? ? ? _ _ Ha' Hspam'
                   | a' ? ? ? _ _ Ha' Hspam'];
    try congruence.
  rewrite Hc in Ha'. injection Ha' as <-.
  split; [exact Hse|]. split; [exact Har|]. split; [exact Hcalls|].
  intros Hok row Hrow. rewrite Hcs. unfold comment_key in *.
  destruct (write_to_keeps 2 (classification_patch a) (field req "comment_id") cs
              (render rt (field req "comment_id"))) as [row2 Hrow2]; [eauto|].
  rewrite (write_to_accepted _ _ _ _ _ Hok Hrow2).
  eexists. split; [reflexivity|]. apply apply_patch_status.
Qed.

(** C2: whenever the classifier returns the sentiment "hate" and the
    user's settings have [ignore_hate_comments] set, the invocation
    writes [auto_reply_status = "escalated"] to the Comment, sends
    [{success: true, action: "escalated", reason: "Hate comment -
    escalated to user"}] and ends there, without inserting an AutoReply
    row; the spam gate, evaluated first, has not fired; and no invocation
    at all issues more than one gate write. *)
Theorem hate_gate_escalates cs ars req :
  exists w',
    invoke cs ars req = (Normal tt, w') /\
    (length (List.filter is_gate_write (calls w')) <= 1)%nat /\
    forall a,
      nullish (body req) = false ->
      settings_found req = true ->
      classification cs ars req = Normal a ->
      sentiment a = JStr "hate" ->
      truthy (get_opt (data (settings_answer req)) "ignore_hate_comments") = true ->
      spam_gate (data (settings_answer req)) a = false /\
      sent w' = [(200, escalated_body)] /\
      auto_replies w' = ars /\
      calls w' = (classified_log req a ++
                  [UpdateEq "comments" (status_patch "escalated") "id"
                     (field req "comment_id")])%list /\
      (write_fault E 3
         (UpdateEq "comments" (status_patch "escalated") "id" (field req "comment_id"))
         = None ->
       forall row, cs !! comment_key req = Some row ->
         exists row', comments w' !! comment_key req = Some row' /\
                      row' !! "auto_reply_status" = Some (JStr "escalated")).
Proof.
  destruct (invoke_outcome cs ars req) as (w' & Hrun & Hout).
  exists w'. split; [exact Hrun|]. split; [eapply gate_writes_of_outcome, Hout|].
  intros a Hb Hs Ha Hsent Hflag.
  assert (Hspam : spam_gate (data (settings_answer req)) a = false).
  { unfold spam_gate. rewrite Hsent. reflexivity. }
  assert (Hhate : hate_gate (data (settings_answer req)) a = true).
  { unfold hate_gate. rewrite Hsent, Hflag. reflexivity. }
  split; [exact Hspam|].
  destruct Hout as [Hb' | Hb' Hs' | a' _ _ Ha' Hspam' | a' _ _ Ha' _ _ Hc Hse Har Hcs
                   | a' ? ? ? _ _ Ha' _ Hhate' | a' ? ? ? _ _ Ha' _ Hhate'
                   | a' ? ? ? _ _ Ha' _ Hhate'];
    try congruence.
  rewrite Ha in Ha'. injection Ha' as <-.
  split; [exact Hse|]. split; [exact Har|]. split; [exact Hc|].
  intros Hok row Hrow. rewrite Hcs. unfold comment_key in *.
  destruct (write_to_keeps 2 (classification_patch a) (field req "comment_id") cs
              (render rt (field req "comment_id"))) as [row2 Hrow2]; [eauto|].
  rewrite (write_to_accepted _ _ _ _ _ Hok Hrow2).
  eexists. split; [reflexivity|]. apply apply_patch_status.
Qed.

(** C3, amended: when the settings lookup returns an error or no row, the
    invocation sends status 404 with [{error: "Settings not found"}]; the
    lookup is the only request it has issued and neither table has
    changed. The lookup is not the only stage without a fallback: a
    refused AutoReply insert ends the invocation with status 500 as
    well. An invocation with a request body answers with an error only
    if the lookup fails, the insert is refused, or the tag of step 6
    cannot be built. *)
Theorem settings_absent_not_found cs ars req :
  exists w',
    invoke cs ars req = (Normal tt, w') /\
    (nullish (body req) = false ->
     truthy (error (settings_answer req)) = true \/
     truthy (data (settings_answer req)) = false ->
     sent w' = [(404, not_found_body)] /\
     calls w' = [settings_call req] /\
     comments w' = cs /\
     auto_replies w' = ars) /\
    (insert_refused_in w' -> sent w' = [(500, failed_body)] /\ auto_replies w' = ars) /\
    (nullish (body req) = false ->
     error_response w' = true ->
     settings_found req = false \/ insert_refused_in w' \/ untaggable_lead cs ars req w').
Proof.
  destruct (invoke_outcome cs ars req) as (w' & Hrun & Hout).
  exists w'. split; [exact Hrun|]. split; [|split].
  - intros Hb Habs. apply settings_found_false in Habs.
    destruct Hout; try congruence. repeat split; assumption.
  - intros Hin.
    destruct (insert_refused_outcome _ _ _ _ Hout)
      as [(_ & Hse & Har) | [(Hnot & _) | (Hnot & _)]];
      [split; assumption | contradiction | contradiction].
  - intros Hb Herr.
    destruct (settings_found req) eqn:Hs; [|left; reflexivity]. right.
    destruct (insert_refused_outcome _ _ _ _ Hout)
      as [(Hin & _) | [(_ & Hun & _) | (_ & _ & Hok)]].
    + left. exact Hin.
    + right. exact Hun.
    + destruct (Hok Hb Hs) as (b & Hse & _).
      unfold error_response in Herr. rewrite Hse in Herr. discriminate Herr.
Qed.

(** C4, amended: [analyzeSentiment] always returns; when the
    classification call fails (rejected promise, no choice, content that
    is not JSON or is [null]) it returns exactly
    [{sentiment: "neutral", score: 0.5}], and so it does when the text
    cannot be converted (nothing is sent then) and when the content
    parses to a value that has neither field. An invocation in which the
    call fails is not stopped by that: it passes both gates with the
    default and goes on to the generation. It ends with the answer
    "replied" unless a later stage fails, in which case it answers 500:
    the ledger refuses the AutoReply insert, or the tag of step 6 cannot
    be built. *)
Theorem classification_failure_absorbed :
  (forall text w, exists a w', analyzeSentiment text w = (Normal a, w')) /\
  (forall text w,
     classifier_failure (chat_answer E (length (calls w)) (sentiment_request text)) ->
     fst (analyzeSentiment text w) = Normal neutral_default) /\
  (forall text w,
     convertible text = false ->
     analyzeSentiment text w
     = (Normal neutral_default, push_console "Sentiment analysis error:" TypeError w)) /\
  (forall text w resp c v,
     chat_answer E (length (calls w)) (sentiment_request text) = Normal resp ->
     first_content resp = Normal c ->
     JSON_parse rt (str_or c "{}") = Some v ->
     truthy (get_opt v "sentiment") = false ->
     truthy (get_opt v "score") = false ->
     fst (analyzeSentiment text w) = Normal neutral_default) /\
  (forall cs ars req,
     nullish (body req) = false ->
     settings_found req = true ->
     classifier_failure (chat_answer E 1 (sentiment_request (field req "comment_text"))) ->
     exists w',
       invoke cs ars req = (Normal tt, w') /\
       classification cs ars req = Normal neutral_default /\
       spam_gate (data (settings_answer req)) neutral_default = false /\
       hate_gate (data (settings_answer req)) neutral_default = false /\
       (replied_response w' \/
        sent w' = [(500, failed_body)] /\
        (insert_refused_in w' \/ untaggable_lead cs ars req w'))).
Proof.
  split; [|split; [|split; [|split]]].
  - intros text w. destruct (analyzeSentiment_spec text w) as (a & w' & H & _). eauto.
  - exact analyzeSentiment_failed.
  - exact analyzeSentiment_unconvertible.
  - intros text w resp c v Hans Hc Hp Hs Hsc.
    destruct (nullish v) eqn:Hv.
    { apply analyzeSentiment_failed. rewrite Hans. eapply fails_null; eassumption. }
    destruct (convertible text) eqn:Hconv.
    2:{ rewrite (analyzeSentiment_unconvertible _ _ Hconv). reflexivity. }
    rewrite analyzeSentiment_run. cbv zeta.
    unfold sentiment_attempt, sentiment_of_parsed, parsed_answer, json_parse.
    rewrite (to_string_convertible _ Hconv). cbn [cbind].
    rewrite Hans. cbn [cbind]. rewrite Hc. cbn [cbind]. rewrite Hp. cbn [cbind].
    rewrite !(get_not_nullish _ _ Hv). cbn [cbind].
    unfold js_or. rewrite Hs, Hsc. reflexivity.
  - intros cs ars req Hb Hs Hfail.
    assert (Hc : classification cs ars req = Normal neutral_default).
    { unfold classification. apply analyzeSentiment_failed. exact Hfail. }
    destruct (invoke_outcome cs ars req) as (w' & Hrun & Hout).
    exists w'. split; [exact Hrun|]. split; [exact Hc|].
    split; [reflexivity|]. split; [reflexivity|].
    destruct Hout as [Hb' | Hb' Hs' | a _ _ Ha Hspam | a _ _ Ha _ Hhate
                     | a reply_text newg e _ _ Ha _ _ _ Hread _ Hcalls Hfault Hse
                     | a reply_text newg l _ _ Ha _ _ _ Hread _ Hfault Hl _ Hcalls Hse
                     | a reply_text newg l _ _ Ha _ _ _ Hread _ Hfault Hl Hlead Htag
                         Hcalls Hse];
      try congruence.
    + rewrite Hc in Ha. injection Ha as <-. discriminate Hspam.
    + rewrite Hc in Ha. injection Ha as <-. discriminate Hhate.
    + right. split; [exact Hse|]. left. eapply refused_insert_is_in; eassumption.
    + left. eapply replied_body_replied, Hse.
    + right. split; [exact Hse|]. right. subst l.
      eapply untaggable_is_in; eassumption.
Qed.

(** C5: in every invocation that passes the settings check, the write of
    the classified [sentiment] and [sentiment_score] to the Comment comes
    right after the settings lookup and the classifier's request (which
    is missing when the text could not be converted) and before any
    request of a later step, whatever branch is taken: it is the third
    request when the classifier was called. When the ledger accepted
    that write, the Comment carries the score at the end of the
    invocation, whatever its outcome, and a Comment that ends up ignored
    or escalated carries the sentiment as well. *)
Theorem classification_persisted_first cs ars req a :
  nullish (body req) = false ->
  settings_found req = true ->
  classification cs ars req = Normal a ->
  exists w' rest,
    invoke cs ars req = (Normal tt, w') /\
    calls w' =
      (settings_call req :: sentiment_asked (field req "comment_text") ++
       UpdateEq "comments" (classification_patch a) "id" (field req "comment_id")
       :: rest)%list /\
    (convertible (field req "comment_text") = true ->
     calls w' = (classified_log req a ++ rest)%list) /\
    (write_fault E (class_pos req)
       (UpdateEq "comments" (classification_patch a) "id" (field req "comment_id")) = None ->
     forall row, cs !! comment_key req = Some row ->
       (exists row',
          comments w' !! comment_key req = Some row' /\
          row' !! "sentiment_score" = Some (score a)) /\
       (sent w' = [(200, ignored_body)] \/ sent w' = [(200, escalated_body)] ->
        exists row',
          comments w' !! comment_key req = Some row' /\
          row' !! "sentiment" = Some (sentiment a) /\
          row' !! "sentiment_score" = Some (score a))).
Proof.
  intros Hb Hs Ha.
  assert (Hopen : forall rest,
            (opening_log req a ++ rest)%list =
            (settings_call req :: sentiment_asked (field req "comment_text") ++
             UpdateEq "comments" (classification_patch a) "id" (field req "comment_id")
             :: rest)%list).
  { intros rest. unfold opening_log. cbn [app]. rewrite <- app_assoc. reflexivity. }
  assert (Hthird : forall rest,
            convertible (field req "comment_text") = true ->
            (opening_log req a ++ rest)%list = (classified_log req a ++ rest)%list).
  { intros rest Hconv. destruct (opening_classified req a Hconv) as [-> _]. reflexivity. }
  assert (Hgate : forall w' s,
            spam_gate (data (settings_answer req)) a = true \/
            hate_gate (data (settings_answer req)) a = true ->
            comments w' = write_to 3 (status_patch s) (field req "comment_id")
                            (write_to 2 (classification_patch a) (field req "comment_id") cs) ->
            write_fault E (class_pos req)
              (UpdateEq "comments" (classification_patch a) "id" (field req "comment_id"))
              = None ->
            forall row, cs !! comment_key req = Some row ->
              exists row',
                comments w' !! comment_key req = Some row' /\
                row' !! "sentiment" = Some (sentiment a) /\
                row' !! "sentiment_score" = Some (score a)).
  { intros w' s Hg Hcs Hok row Hrow.
    destruct (opening_classified req a) as (_ & Hpos).
    { eapply classified_convertible; [exact Ha|]. eapply gate_not_neutral, Hg. }
    rewrite Hpos in Hok. rewrite Hcs. unfold comment_key in *.
    eapply gate_keeps_classification. apply write_to_accepted; eassumption. }
  destruct (invoke_outcome cs ars req) as (w' & Hrun & Hout).
  exists w'.
  destruct Hout as [Hb' | Hb' Hs' | a' _ _ Ha' Hspam Hc Hse Har Hcs
                   | a' _ _ Ha' _ Hhate Hc Hse Har Hcs
                   | a' reply_text newg e _ _ Ha' _ _ _ _ _ Hc Hfault Hse _ Hcs
                   | a' reply_text newg l _ _ Ha' _ _ _ _ _ _ _ _ Hc Hse _ Hcs
                   | a' reply_text newg l _ _ Ha' _ _ _ _ _ _ _ _ _ Hc Hse _ Hcs];
    try congruence; rewrite Ha in Ha'; injection Ha' as <-.
  - assert (Hconv : convertible (field req "comment_text") = true).
    { eapply classified_convertible; [exact Ha|]. eapply gate_not_neutral. eauto. }
    eexists. split; [exact Hrun|].
    split; [rewrite Hc, <- (Hthird _ Hconv); apply Hopen|].
    split; [intros _; exact Hc|].
    intros Hok row Hrow.
    destruct (Hgate w' "ignored" (or_introl Hspam) Hcs Hok row Hrow)
      as (row' & Hrow' & Hsv & Hscv).
    split; [eauto|]. intros _. eauto.
  - assert (Hconv : convertible (field req "comment_text") = true).
    { eapply classified_convertible; [exact Ha|]. eapply gate_not_neutral. eauto. }
    eexists. split; [exact Hrun|].
    split; [rewrite Hc, <- (Hthird _ Hconv); apply Hopen|].
    split; [intros _; exact Hc|].
    intros Hok row Hrow.
    destruct (Hgate w' "escalated" (or_intror Hhate) Hcs Hok row Hrow)
      as (row' & Hrow' & Hsv & Hscv).
    split; [eauto|]. intros _. eauto.
  - unfold before_insert in Hc. rewrite <- !app_assoc in Hc.
    eexists. split; [exact Hrun|]. split; [rewrite Hc; apply Hopen|].
    split; [intros Hconv; rewrite Hc; apply Hthird, Hconv|].
    intros Hok row Hrow. rewrite Hcs.
    split; [apply (liked_table_row _ _ _ _ Hok Hrow)|].
    intros [Hi|Hi]; rewrite Hse in Hi; discriminate Hi.
  - unfold before_insert in Hc. rewrite <- !app_assoc in Hc.
    eexists. split; [exact Hrun|]. split; [rewrite Hc; apply Hopen|].
    split; [intros Hconv; rewrite Hc; apply Hthird, Hconv|].
    intros Hok row Hrow. rewrite Hcs.
    split; [|intros [Hi|Hi]; rewrite Hse in Hi; discriminate Hi].
    destruct (liked_table_row _ _ _ _ Hok Hrow) as (_ & Hsc).
    destruct (truthy (is_lead l)); [|exact Hsc].
    apply write_to_keeps_column; [|exact Hsc].
    cbn. intros [H|[H|[]]]; discriminate H.
  - unfold before_insert in Hc. rewrite <- !app_assoc in Hc.
    eexists. split; [exact Hrun|]. split; [rewrite Hc; apply Hopen|].
    split; [intros Hconv; rewrite Hc; apply Hthird, Hconv|].
    intros Hok row Hrow. rewrite Hcs.
    split; [apply (liked_table_row _ _ _ _ Hok Hrow)|].
    intros [Hi|Hi]; rewrite Hse in Hi; discriminate Hi.
Qed.

(** C6, amended: if the ledger refuses the AutoReply insert the
    invocation answers 500 with [{error: "Failed to generate reply"}] and
    stores no AutoReply. The result of a Comment update is never looked
    at: an invocation that found the settings and whose insert was not
    refused reports success whatever the ledger answered to the Comment
    updates, provided the tag of step 6 can be built. *)
Theorem insert_failure_aborts cs ars req :
  nullish (body req) = false ->
  settings_found req = true ->
  exists w',
    invoke cs ars req = (Normal tt, w') /\
    (insert_refused_in w' ->
     sent w' = [(500, failed_body)] /\ error_response w' = true /\ auto_replies w' = ars) /\
    (~ insert_refused_in w' -> ~ untaggable_lead cs ars req w' -> success_response w').
Proof.
  intros Hb Hs.
  destruct (invoke_outcome cs ars req) as (w' & Hrun & Hout).
  exists w'. split; [exact Hrun|].
  destruct (insert_refused_outcome _ _ _ _ Hout)
    as [(Hin & Hse & Har) | [(Hnot & Hun & _) | (Hnot & Hnun & Hok)]].
  - split; [|contradiction].
    intros _. split; [exact Hse|]. split; [|exact Har].
    unfold error_response. rewrite Hse. reflexivity.
  - split; [contradiction|]. intros _ Hnun. contradiction.
  - split; [contradiction|]. intros _ _. apply Hok; assumption.
Qed.


(** C9, amended: the handler does not validate the payload. Whatever
    fields the body has, the first thing an invocation does is the
    settings lookup under [req.body.user_id] ([undefined] when the field
    is missing); it answers 404 when that lookup finds no settings, and
    otherwise goes on with the fields as they are and answers 200 or
    500, never with a client error: 500 only when the insert is refused
    or the tag of step 6 cannot be built. *)
Theorem payload_not_validated cs ars req :
  nullish (body req) = false ->
  exists w' rest,
    invoke cs ars req = (Normal tt, w') /\
    calls w' = settings_call req :: rest /\
    (settings_found req = false -> rest = [] /\ sent w' = [(404, not_found_body)]) /\
    (settings_found req = true ->
     success_response w' \/
     sent w' = [(500, failed_body)] /\
     (insert_refused_in w' \/ untaggable_lead cs ars req w')).
Proof.
  intros Hb.
  destruct (invoke_outcome cs ars req) as (w' & Hrun & Hout).
  destruct (outcome_first_call _ _ _ _ Hout Hb) as (rest & Hc & Habs).
  exists w', rest. split; [exact Hrun|]. split; [exact Hc|]. split; [exact Habs|].
  intros Hs.
  destruct (insert_refused_outcome _ _ _ _ Hout)
    as [(Hin & Hse & _) | [(_ & Hun & Hse) | (_ & _ & Hok)]].
  - right. split; [exact Hse | left; exact Hin].
  - right. split; [exact Hse | right; exact Hun].
  - left. apply Hok; assumption.
Qed.

(** C10: when the classifier is asked and its reply parses to an
    object, each of the two fields is replaced by its default when it is
    falsy: a [score] of [0] comes out as [0.5] and an empty [sentiment]
    as "neutral". When the text cannot be converted the classifier is
    not asked and the result is the default. So the result of
    [analyzeSentiment] never has a falsy field, and its score is never
    [0]. *)
Theorem falsy_fields_defaulted text w :
  (forall resp c fields,
     convertible text = true ->
     chat_answer E (length (calls w)) (sentiment_request text) = Normal resp ->
     first_content resp = Normal c ->
     JSON_parse rt (str_or c "{}") = Some (JObj fields) ->
     exists a,
       fst (analyzeSentiment text w) = Normal a /\
       sentiment a = js_or (assoc "sentiment" fields) (JStr "neutral") /\
       score a = js_or (assoc "score" fields) (JNum 0.5) /\
       (assoc "score" fields = JNum 0 -> score a = JNum 0.5) /\
       (assoc "sentiment" fields = JStr "" -> sentiment a = JStr "neutral")) /\
  (convertible text = false ->
   fst (analyzeSentiment text w) = Normal neutral_default) /\
  (forall a w',
     analyzeSentiment text w = (Normal a, w') ->
     truthy (sentiment a) = true /\ truthy (score a) = true /\ score a <> JNum 0).
Proof.
  split; [|split].
  - intros resp c fields Hconv Hans Hc Hp.
    rewrite analyzeSentiment_run. cbv zeta.
    unfold sentiment_attempt, sentiment_of_parsed, parsed_answer, json_parse.
    rewrite (to_string_convertible _ Hconv). cbn [cbind].
    rewrite Hans. cbn [cbind]. rewrite Hc. cbn [cbind]. rewrite Hp. cbn [cbind get].
    eexists. split; [reflexivity|]. cbn [sentiment score].
    split; [reflexivity|]. split; [reflexivity|].
    split; intros ->; reflexivity.
  - intros Hconv. rewrite (analyzeSentiment_unconvertible _ _ Hconv). reflexivity.
  - intros a w' Hrun. rewrite analyzeSentiment_run in Hrun. cbv zeta in Hrun.
    destruct (sentiment_attempt _ _) as [a0|e] eqn:Hp.
    + injection Hrun as <- _. unfold sentiment_attempt in Hp.
      destruct (to_string rt text); [|discriminate Hp]. cbn [cbind] in Hp.
      apply sentiment_of_parsed_truthy in Hp.
      destruct Hp as [Hs Hsc]. split; [exact Hs|]. split; [exact Hsc|].
      intros H0. rewrite H0 in Hsc. discriminate Hsc.
    + injection Hrun as <- _. split; [reflexivity|]. split; [reflexivity|].
      intros H0. discriminate H0.
Qed.

(* ===================================================================== *)
(** * Further properties of [src/ai/reply.ts] *)
(* ===================================================================== *)

Lemma lead_of_parsed_throws ans :
  classifier_failure ans <-> exists e, lead_of_parsed (parsed_answer ans) = Throw e.
Proof.
  split.
  - intros [e | resp H | resp c Hc Hp | resp c v Hc Hp Hv];
      unfold lead_of_parsed, parsed_answer, json_parse; cbn [cbind].
    + eauto.
    + rewrite (first_content_no_choice _ H). cbn [cbind]. eauto.
    + rewrite Hc. cbn [cbind]. rewrite Hp. cbn [cbind]. eauto.
    + rewrite Hc. cbn [cbind]. rewrite Hp. cbn [cbind].
      rewrite (get_nullish _ _ Hv). cbn [cbind]. eauto.
  - intros [e H]. destruct ans as [resp|e0]; [|constructor].
    unfold lead_of_parsed, parsed_answer, json_parse in H. cbn [cbind] in H.
    destruct (first_content resp) as [c|e1] eqn:Hc.
    + cbn [cbind] in H.
      destruct (JSON_parse rt (str_or c "{}")) as [v|] eqn:Hp.
      * cbn [cbind] in H. destruct (nullish v) eqn:Hv.
        -- eapply fails_null; eassumption.
        -- rewrite !(get_not_nullish _ _ Hv) in H. discriminate.
      * eapply fails_malformed; eassumption.
    + unfold first_content in Hc. destruct (choices resp) eqn:Hch; [|discriminate].
      apply fails_no_choice, Hch.
Qed.

Lemma js_or_false_default (a : jsval) :
  truthy (js_or a (JBool false)) = false -> js_or a (JBool false) = JBool false.
Proof. unfold js_or. destruct (truthy a) eqn:Ha; [congruence | reflexivity]. Qed.

(** X1: [detectSalesLead] never throws. Its temperature is never falsy
    (a missing or empty one becomes "cold"); an [is_lead] that is not
    truthy is exactly [false]. It issues one request, the model call,
    or none when the text cannot be converted. When the text cannot be
    converted or the call fails (rejected promise, no choice, content
    that is not JSON or is [null]) the result is
    [{is_lead: false, temperature: "cold"}] and the error is logged on
    the console; otherwise nothing is logged. *)
Theorem detectSalesLead_absorbs_failures text w :
  exists l w',
    detectSalesLead text w = (Normal l, w') /\
    truthy (lead_temperature l) = true /\
    (truthy (is_lead l) = false -> is_lead l = JBool false) /\
    calls w' = (calls w ++ lead_asked text)%list /\
    (convertible text = false \/
     classifier_failure (chat_answer E (length (calls w)) (lead_request text)) ->
     l = cold_default /\
     exists e, console w' = (console w ++ [("Lead detection error:", e)])%list) /\
    (convertible text = true ->
     ~ classifier_failure (chat_answer E (length (calls w)) (lead_request text)) ->
     console w' = console w).
Proof.
  rewrite detectSalesLead_run. cbv zeta. unfold lead_attempt, to_string, lead_asked.
  destruct (convertible text) eqn:Hconv; cbn [cbind].
  2:{ exists cold_default. eexists. split; [reflexivity|].
      split; [reflexivity|]. split; [reflexivity|].
      split; [cbn [calls push_console]; rewrite app_nil_r; reflexivity|].
      split; [|discriminate].
      intros _. split; [reflexivity|]. eexists. reflexivity. }
  destruct (lead_of_parsed _) as [l|e] eqn:Hp.
  - exists l. eexists. split; [reflexivity|].
    assert (Hshape : truthy (lead_temperature l) = true /\
                     (truthy (is_lead l) = false -> is_lead l = JBool false)).
    { unfold lead_of_parsed in Hp.
      destruct (parsed_answer _) as [parsed|e]; [|discriminate].
      cbn [cbind] in Hp. destruct (get parsed "is_lead") as [il|e]; [|discriminate].
      cbn [cbind] in Hp. destruct (get parsed "temperature") as [t|e]; [|discriminate].
      cbn [cbind] in Hp. injection Hp as <-. cbn [is_lead lead_temperature].
      split; [apply js_or_truthy; reflexivity | apply js_or_false_default]. }
    destruct Hshape as [Ht Hl]. split; [exact Ht|]. split; [exact Hl|].
    split; [reflexivity|]. split.
    + intros [Hno|Hfail]; [discriminate Hno|].
      apply lead_of_parsed_throws in Hfail. destruct Hfail as [e He].
      rewrite He in Hp. discriminate.
    + intros _ _. reflexivity.
  - exists cold_default. eexists. split; [reflexivity|].
    split; [reflexivity|]. split; [reflexivity|]. split; [reflexivity|]. split.
    + intros _. split; [reflexivity|]. exists e. reflexivity.
    + intros _ Hnot. exfalso. apply Hnot. apply lead_of_parsed_throws. eauto.
Qed.

Lemma joined_rule_ok settings key label :
  exists s, joined_rule settings key label
            = if joined_ok settings key then Normal s else Throw TypeError.
Proof.
  unfold joined_rule, joined_ok.
  destruct (truthy (get_opt settings key)) eqn:Ht; [|eauto].
  destruct settings; try discriminate Ht. cbn [get get_opt cbind] in *.
  destruct (assoc key fields) as [| | | | |xs|fs];
    cbn [call_join is_array andb orb negb cbind]; eauto.
  change (convertible (JArr xs)) with (forallb convertible xs).
  destruct (forallb convertible xs); cbn [cbind]; eauto.
Qed.

Lemma line_rule_ok settings key label :
  exists s, line_rule settings key label
            = if line_ok settings key then Normal s else Throw TypeError.
Proof.
  unfold line_rule, line_ok, to_string.
  destruct (truthy (get_opt settings key)) eqn:Ht; [|eauto].
  destruct settings; try discriminate Ht. cbn [get get_opt cbind negb orb] in *.
  destruct (convertible (assoc key fields)); cbn [cbind]; eauto.
Qed.

(** The messages are built exactly when every substitution can be
    evaluated; whatever fails, the error is a [TypeError]. *)
Lemma reply_messages_buildable params brandVoice settings :
  exists sp,
    reply_messages params brandVoice settings
    = if buildable params brandVoice settings then Normal sp else Throw TypeError.
Proof.
  unfold reply_messages, reply_system_prompt, buildable, to_string.
  destruct (joined_rule_ok settings "catchphrases" "- Must include: ") as [c ->].
  destruct (joined_rule_ok settings "signature_emojis" "- Must use these emojis: ")
    as [m ->].
  destruct (line_rule_ok settings "intro_line" "- Start with: ") as [i ->].
  destruct (line_rule_ok settings "outro_line" "- End with: ") as [o ->].
  destruct (joined_rule_ok settings "blacklisted_words" "✗ NEVER use these words: ")
    as [b ->].
  destruct (convertible (js_or (params_language params) (JStr "English")));
    [|exists EmptyString; reflexivity].
  destruct (convertible (js_or (get_opt brandVoice "brand_name") (JStr "Creator")));
    [|exists EmptyString; reflexivity].
  destruct (convertible (js_or (params_tone params) (JStr "polite")));
    [|exists EmptyString; reflexivity].
  destruct (joined_ok settings "catchphrases"); [|exists EmptyString; reflexivity].
  destruct (joined_ok settings "signature_emojis"); [|exists EmptyString; reflexivity].
  destruct (line_ok settings "intro_line"); [|exists EmptyString; reflexivity].
  destruct (line_ok settings "outro_line"); [|exists EmptyString; reflexivity].
  destruct (convertible (params_language params)); [|exists EmptyString; reflexivity].
  destruct (joined_ok settings "blacklisted_words"); [|exists EmptyString; reflexivity].
  destruct (convertible (params_tone params)); [|exists EmptyString; reflexivity].
  destruct (convertible (params_sentiment params)); [|exists EmptyString; reflexivity].
  destruct (convertible (params_comment_text params));
    [eexists; reflexivity | exists EmptyString; reflexivity].
Qed.

Lemma joined_ok_false settings key :
  joined_ok settings key = false <->
  truthy (get_opt settings key) = true /\
  (is_array (get_opt settings key) = false \/ convertible (get_opt settings key) = false).
Proof.
  unfold joined_ok.
  destruct (truthy _), (is_array _), (convertible _); cbn; intuition congruence.
Qed.

Lemma line_ok_false settings key :
  line_ok settings key = false -> convertible (get_opt settings key) = false.
Proof. unfold line_ok. destruct (truthy _), (convertible _); cbn; congruence. Qed.

Lemma unconvertible_truthy v : convertible v = false -> truthy v = true.
Proof. destruct v; cbn; try discriminate; reflexivity. Qed.

(** What makes the messages unbuildable: an ill-typed list, or a value
    that cannot be converted. *)
Lemma buildable_false params brandVoice settings :
  buildable params brandVoice settings = false <->
  ill_typed_list settings \/
  exists v, In v (converted_values params brandVoice settings) /\ convertible v = false.
Proof.
  assert (Hj : forall key, In key joined_settings ->
            In (get_opt settings key) (converted_values params brandVoice settings)).
  { intros key [<-|[<-|[<-|[]]]]; cbn; tauto. }
  split.
  - unfold buildable. rewrite !andb_false_iff, !convertible_js_or.
    assert (Hjoined : forall key, In key joined_settings ->
              joined_ok settings key = false ->
              ill_typed_list settings \/
              exists v, In v (converted_values params brandVoice settings) /\
                        convertible v = false).
    { intros key Hk H. apply joined_ok_false in H. destruct H as [Ht [Harr|Hconv]].
      - left. exists key. auto.
      - right. exists (get_opt settings key). auto. }
    assert (Hval : forall v, In v (converted_values params brandVoice settings) ->
              convertible v = false ->
              ill_typed_list settings \/
              exists v, In v (converted_values params brandVoice settings) /\
                        convertible v = false).
    { intros v Hin H. right. exists v. auto. }
    intros H.
    repeat match goal with H : _ \/ _ |- _ => destruct H as [H|H] end;
      try (apply line_ok_false in H);
      try (eapply Hval; [|exact H]; cbn; tauto);
      (eapply Hjoined; [|exact H]); cbn; tauto.
  - intros [(key & Hk & Ht & Harr) | (v & Hin & Hv)].
    + assert (Hno : joined_ok settings key = false)
        by (apply joined_ok_false; auto).
      unfold buildable.
      destruct Hk as [<-|[<-|[<-|[]]]]; rewrite Hno;
        rewrite ?andb_false_r; reflexivity.
    + pose proof (unconvertible_truthy _ Hv) as Ht.
      unfold buildable. rewrite !convertible_js_or.
      cbn in Hin.
      destruct Hin as [<-|[<-|[<-|[<-|[<-|[<-|[<-|[<-|[<-|[<-|[]]]]]]]]]]];
        try (rewrite Hv; rewrite ?andb_false_r; reflexivity).
      * assert (Hno : joined_ok settings "catchphrases" = false)
          by (apply joined_ok_false; auto).
        rewrite Hno, ?andb_false_r. reflexivity.
      * assert (Hno : joined_ok settings "signature_emojis" = false)
          by (apply joined_ok_false; auto).
        rewrite Hno, ?andb_false_r. reflexivity.
      * unfold line_ok at 1. rewrite Ht, Hv. cbn [negb orb].
        rewrite ?andb_false_r. reflexivity.
      * unfold line_ok at 2. rewrite Ht, Hv. cbn [negb orb].
        rewrite ?andb_false_r. reflexivity.
      * assert (Hno : joined_ok settings "blacklisted_words" = false)
          by (apply joined_ok_false; auto).
        rewrite Hno, ?andb_false_r. reflexivity.
Qed.

(** X2: [generateReply] always returns a non-empty text, after its two
    lookups. It calls the model exactly when its two messages can be
    built: each of [catchphrases], [signature_emojis] and
    [blacklisted_words] is falsy or an array, and every value the
    template literals convert (the language, tone, sentiment and text of
    the call, the brand name, the two lines and the list elements) can
    be converted. Otherwise, for instance when [catchphrases] is a
    string, the model is never called and the reply is the [catch]
    fallback. *)
Theorem ill_typed_settings_skip_the_model params w :
  exists text w',
    generateReply params w = (Normal text, w') /\
    text <> "" /\
    (ill_typed_list (reply_settings params w) \/
     (exists v, In v (converted_values params (reply_brand_voice params w)
                        (reply_settings params w)) /\
                convertible v = false) ->
     text = fallback_catch /\ calls w' = (calls w ++ reply_lookups params)%list) /\
    (~ ill_typed_list (reply_settings params w) ->
     Forall (fun v => convertible v = true)
       (converted_values params (reply_brand_voice params w) (reply_settings params w)) ->
     exists sp,
       reply_messages params (reply_brand_voice params w) (reply_settings params w)
         = Normal sp /\
       calls w' = (calls w ++ reply_lookups params ++
                   [ChatCreate (reply_request params sp)])%list).
Proof.
  destruct (generateReply_spec params w) as (text & w' & new & Hrun & Hne & _).
  exists text, w'. split; [exact Hrun|]. split; [exact Hne|].
  rewrite generateReply_run in Hrun. cbv zeta in Hrun.
  fold (reply_brand_voice params w) in Hrun. fold (reply_settings params w) in Hrun.
  destruct (reply_messages_buildable params (reply_brand_voice params w)
              (reply_settings params w)) as [sp Hsp].
  pose proof (buildable_false params (reply_brand_voice params w)
                (reply_settings params w)) as Hfalse.
  rewrite Hsp in Hrun.
  destruct (buildable params _ _).
  - split.
    + intros Hbad. apply Hfalse in Hbad. discriminate Hbad.
    + intros _ _. exists sp. split; [exact Hsp|].
      destruct (cbind _ _) as [c|e]; injection Hrun as _ <-;
        unfold reply_lookups; cbn [calls push_call push_console];
        rewrite <- !app_assoc; reflexivity.
  - split.
    + intros _. injection Hrun as <- <-. split; [reflexivity|].
      unfold reply_lookups. cbn [calls push_call push_console].
      rewrite <- !app_assoc. reflexivity.
    + intros Hok Hall. exfalso.
      destruct (proj1 Hfalse eq_refl) as [Hill | (v & Hin & Hv)]; [contradiction|].
      rewrite List.Forall_forall in Hall. rewrite (Hall v Hin) in Hv. discriminate Hv.
Qed.

(** X3: the three leaf services only read. [analyzeSentiment] and
    [detectSalesLead] issue exactly one request, the model call, when
    the text can be converted to a string, and none otherwise;
    [generateReply] issues no write; none of them changes a table, the
    status code or what has been sent. *)
Theorem leaf_services_only_read :
  (forall text w,
     leaf_step w (snd (analyzeSentiment text w))
       (if convertible text then [ChatCreate (sentiment_request text)] else [])) /\
  (forall text w,
     leaf_step w (snd (detectSalesLead text w))
       (if convertible text then [ChatCreate (lead_request text)] else [])) /\
  (forall params w,
     exists new,
       leaf_step w (snd (generateReply params w)) new /\
       forallb (fun c => negb (is_write c)) new = true).
Proof.
  split; [|split].
  - intros text w. destruct (analyzeSentiment_spec text w) as (a & w' & H & Hstep).
    rewrite H. exact Hstep.
  - intros text w. destruct (detectSalesLead_spec text w) as (w' & H & Hstep).
    rewrite H. exact Hstep.
  - intros params w.
    destruct (generateReply_spec params w) as (t & w' & new & H & _ & Hstep & Hread & _).
    exists new. rewrite H. split; assumption.
Qed.

(** X4: every invocation of the handler returns without throwing and
    answers exactly once: with status 200 and a body whose [success] is
    [true], with 404 and [{error: "Settings not found"}], or with 500
    and [{error: "Failed to generate reply"}], which never carries the
    error that was caught. *)
Theorem handler_answers_once cs ars req :
  exists w' st b,
    invoke cs ars req = (Normal tt, w') /\
    sent w' = [(st, b)] /\
    (st = 200 /\ get_opt b "success" = JBool true /\ get_opt b "error" = JUndefined \/
     st = 404 /\ b = not_found_body \/
     st = 500 /\ b = failed_body).
Proof.
  destruct (invoke_outcome cs ars req) as (w' & Hrun & Hout).
  exists w'.
  destruct Hout as [_ _ Hse _ _ | _ _ _ Hse _ _ | a _ _ _ _ _ Hse _ _
                   | a _ _ _ _ _ _ Hse _ _
                   | a reply_text newg e _ _ _ _ _ _ _ _ _ _ Hse _ _
                   | a reply_text newg l _ _ _ _ _ _ _ _ _ _ _ _ Hse _ _
                   | a reply_text newg l _ _ _ _ _ _ _ _ _ _ _ _ _ Hse _ _];
    eexists; eexists; (split; [exact Hrun|]); (split; [exact Hse|]);
    first [ left; repeat split; reflexivity
          | right; left; split; reflexivity
          | right; right; split; reflexivity ].
Qed.

Lemma not_replied_of_sent w st b :
  sent w = [(st, b)] -> get_opt b "action" <> JStr "replied" -> ~ replied_response w.
Proof.
  intros Hs Hb (b' & Hs' & _ & Hact). rewrite Hs in Hs'. injection Hs' as _ <-.
  contradiction.
Qed.

(** When the lead tag cannot be built, the row of the reply is already
    stored and the answer is the failure response. *)
Lemma untaggable_stores cs ars req w' :
  outcome cs ars req w' ->
  untaggable_lead cs ars req w' ->
  exists reply_text n,
    reply_text <> "" /\
    sent w' = [(500, failed_body)] /\
    auto_replies w' = (ars ++ [inserted_row req reply_text n])%list.
Proof.
  intros Hout Hun.
  destruct (insert_refused_outcome _ _ _ _ Hout)
    as [(Href & _) | [_ | (_ & Hnot & _)]]; [| |contradiction].
  - exfalso.
    destruct Hout as [Hb Hc | Hb Hs Hc | a Hb Hs Ha Hspam Hc | a Hb Hs Ha Hspam Hhate Hc
         | a reply_text newg e Hb Hs Ha Hspam Hhate Hne Hread Hshape Hc Hfault
         | a reply_text newg l Hb Hs Ha Hspam Hhate Hne Hread Hshape Hfault Hl Htag Hc
         | a reply_text newg l Hb Hs Ha Hspam Hhate Hne Hread Hshape Hfault Hl Hlead Htag
             Hc].
    1-4: revert Href; apply no_insert_no_refusal; rewrite Hc; repeat constructor.
    + destruct Hun as (a' & n & row & _ & Hn & Hok & _). rewrite Hc in Hn.
      change [insert_call req reply_text]
        with ([insert_call req reply_text] ++ [])%list in Hn.
      apply the_insert in Hn; [|exact Hread|constructor|reflexivity].
      destruct Hn as [-> Hrow]. unfold insert_call in Hrow, Hfault.
      injection Hrow as ->. rewrite Hfault in Hok. discriminate.
    + destruct Href as (n & row & e & Hn & He). rewrite Hc in Hn.
      apply the_insert in Hn; [|exact Hread| |reflexivity].
      * destruct Hn as [-> Hrow]. unfold insert_call in Hrow, Hfault.
        injection Hrow as ->. rewrite Hfault in He. discriminate.
      * apply Forall_app. split; [apply lead_asked_no_insert | apply lead_log_no_insert].
    + destruct Href as (n & row & e & Hn & He). rewrite Hc in Hn.
      apply the_insert in Hn; [|exact Hread| |reflexivity].
      * destruct Hn as [-> Hrow]. unfold insert_call in Hrow, Hfault.
        injection Hrow as ->. rewrite Hfault in He. discriminate.
      * apply lead_asked_no_insert.
  - destruct Hout as [Hb Hc | Hb Hs Hc | a Hb Hs Ha Hspam Hc | a Hb Hs Ha Hspam Hhate Hc
         | a reply_text newg e Hb Hs Ha Hspam Hhate Hne Hread Hshape Hc Hfault
         | a reply_text newg l Hb Hs Ha Hspam Hhate Hne Hread Hshape Hfault Hl Htag Hc
         | a reply_text newg l Hb Hs Ha Hspam Hhate Hne Hread Hshape Hfault Hl Hlead Htag
             Hc Hse Har].
    1-4: exfalso; destruct Hun as (a' & n & row & _ & Hn & _); rewrite Hc in Hn;
         assert (Hall : Forall (fun c => is_insert c = false) (calls w'))
           by (rewrite Hc; repeat constructor);
         rewrite Hc, Forall_lookup in Hall; specialize (Hall _ _ Hn); discriminate.
    + exfalso. destruct Hun as (a' & n & row & _ & Hn & Hok & _). rewrite Hc in Hn.
      change [insert_call req reply_text]
        with ([insert_call req reply_text] ++ [])%list in Hn.
      apply the_insert in Hn; [|exact Hread|constructor|reflexivity].
      destruct Hn as [-> Hrow]. unfold insert_call in Hrow, Hfault.
      injection Hrow as ->. rewrite Hfault in Hok. discriminate.
    + exfalso. destruct Hun as (a' & n & row & Ha' & Hn & _ & Hlead & Hno).
      rewrite Hc in Hn.
      apply the_insert in Hn; [|exact Hread| |reflexivity].
      * destruct Hn as [-> _]. rewrite <- Hl in Hlead, Hno.
        rewrite Ha in Ha'. injection Ha' as <-.
        rewrite (Htag Hlead) in Hno. discriminate.
      * apply Forall_app. split; [apply lead_asked_no_insert | apply lead_log_no_insert].
    + exists reply_text, (length (before_insert req a newg)).
      split; [exact Hne|]. split; assumption.
Qed.

(** The insert is accepted in the last two outcomes only. *)
Lemma accepted_insert_outcome cs ars req w' :
  outcome cs ars req w' ->
  (insert_accepted_in w' <-> replied_response w' \/ untaggable_lead cs ars req w').
Proof.
  intros Hout. split.
  - intros (n & row & Hn & Hok).
    destruct Hout as [Hb Hc | Hb Hs Hc | a Hb Hs Ha Hspam Hc | a Hb Hs Ha Hspam Hhate Hc
         | a reply_text newg e Hb Hs Ha Hspam Hhate Hne Hread Hshape Hc Hfault
         | a reply_text newg l Hb Hs Ha Hspam Hhate Hne Hread Hshape Hfault Hl Htag Hc Hse
         | a reply_text newg l Hb Hs Ha Hspam Hhate Hne Hread Hshape Hfault Hl Hlead Htag
             Hc].
    1-4: exfalso;
         assert (Hall : Forall (fun c => is_insert c = false) (calls w'))
           by (rewrite Hc; repeat constructor);
         rewrite Forall_lookup in Hall; specialize (Hall _ _ Hn); discriminate.
    + exfalso. rewrite Hc in Hn.
      change [insert_call req reply_text]
        with ([insert_call req reply_text] ++ [])%list in Hn.
      apply the_insert in Hn; [|exact Hread|constructor|reflexivity].
      destruct Hn as [-> Hrow]. unfold insert_call in Hrow, Hfault.
      injection Hrow as ->. rewrite Hfault in Hok. discriminate.
    + left. eapply replied_body_replied, Hse.
    + right. subst l. eapply untaggable_is_in; eassumption.
  - intros [Hr | (a & n & row & _ & Hn & Hok & _)]; [|exists n, row; split; assumption].
    destruct Hout as [_ _ Hse | _ _ _ Hse | a _ _ _ _ _ Hse | a _ _ _ _ _ _ Hse
         | a reply_text newg e _ _ _ _ _ _ _ _ _ _ Hse
         | a reply_text newg l _ _ _ _ _ _ _ _ Hfault _ _ Hc
         | a reply_text newg l _ _ _ _ _ _ _ _ _ _ _ _ _ Hse].
    1-5,7: exfalso; revert Hr; eapply not_replied_of_sent; [exact Hse | discriminate].
    exists (length (before_insert req a newg)),
      (reply_row (data (settings_answer req)) (field req "comment_id")
         (field req "user_id") reply_text).
    split; [|exact Hfault]. rewrite Hc. apply list_lookup_middle. reflexivity.
Qed.

(** X5: an AutoReply row is stored exactly when the ledger accepts the
    insert, and then exactly one: it is appended to the table with
    [reply_status = "pending"], [created_by = "ai"] and a non-empty
    [reply_text]. An invocation whose insert is accepted answers
    "replied", reporting that row's [id] and text and, as tone and
    language, the settings' own [default_tone] and [default_language];
    or, when the lead tag cannot be built afterwards, it answers 500
    and the row stays. In every other invocation the table is left as
    it was. *)
Theorem one_row_per_reply cs ars req :
  exists w',
    invoke cs ars req = (Normal tt, w') /\
    (replied_response w' ->
     exists id text s l t,
       text <> "" /\
       sent w' =
         [(200, replied_body id (JStr text)
                  (get_opt (data (settings_answer req)) "default_tone")
                  (get_opt (data (settings_answer req)) "default_language") s l t)] /\
       auto_replies w' =
         (ars ++ [JObj [("id", id);
                        ("user_id", field req "user_id");
                        ("comment_id", field req "comment_id");
                        ("reply_text", JStr text);
                        ("tone_used", get_opt (data (settings_answer req)) "default_tone");
                        ("language_used",
                         get_opt (data (settings_answer req)) "default_language");
                        ("reply_status", JStr "pending");
                        ("created_by", JStr "ai")]])%list) /\
    (untaggable_lead cs ars req w' ->
     exists id text,
       text <> "" /\
       sent w' = [(500, failed_body)] /\
       auto_replies w' =
         (ars ++ [JObj [("id", id);
                        ("user_id", field req "user_id");
                        ("comment_id", field req "comment_id");
                        ("reply_text", JStr text);
                        ("tone_used", get_opt (data (settings_answer req)) "default_tone");
                        ("language_used",
                         get_opt (data (settings_answer req)) "default_language");
                        ("reply_status", JStr "pending");
                        ("created_by", JStr "ai")]])%list) /\
    (~ replied_response w' -> ~ untaggable_lead cs ars req w' -> auto_replies w' = ars) /\
    (insert_accepted_in w' <-> replied_response w' \/ untaggable_lead cs ars req w').
Proof.
  destruct (invoke_outcome cs ars req) as (w' & Hrun & Hout).
  exists w'. split; [exact Hrun|].
  pose proof (accepted_insert_outcome _ _ _ _ Hout) as Hacc.
  cut ((replied_response w' ->
     exists id text s l t,
       text <> "" /\
       sent w' =
         [(200, replied_body id (JStr text)
                  (get_opt (data (settings_answer req)) "default_tone")
                  (get_opt (data (settings_answer req)) "default_language") s l t)] /\
       auto_replies w' =
         (ars ++ [JObj [("id", id);
                        ("user_id", field req "user_id");
                        ("comment_id", field req "comment_id");
                        ("reply_text", JStr text);
                        ("tone_used", get_opt (data (settings_answer req)) "default_tone");
                        ("language_used",
                         get_opt (data (settings_answer req)) "default_language");
                        ("reply_status", JStr "pending");
                        ("created_by", JStr "ai")]])%list) /\
    (untaggable_lead cs ars req w' ->
     exists id text,
       text <> "" /\
       sent w' = [(500, failed_body)] /\
       auto_replies w' =
         (ars ++ [JObj [("id", id);
                        ("user_id", field req "user_id");
                        ("comment_id", field req "comment_id");
                        ("reply_text", JStr text);
                        ("tone_used", get_opt (data (settings_answer req)) "default_tone");
                        ("language_used",
                         get_opt (data (settings_answer req)) "default_language");
                        ("reply_status", JStr "pending");
                        ("created_by", JStr "ai")]])%list) /\
    (~ replied_response w' -> ~ untaggable_lead cs ars req w' -> auto_replies w' = ars)).
  { intros (H1 & H2 & H3). repeat split; try assumption; apply Hacc. }
  clear Hacc.
  assert (Hun : untaggable_lead cs ars req w' ->
     exists id text,
       text <> "" /\
       sent w' = [(500, failed_body)] /\
       auto_replies w' =
         (ars ++ [JObj [("id", id);
                        ("user_id", field req "user_id");
                        ("comment_id", field req "comment_id");
                        ("reply_text", JStr text);
                        ("tone_used", get_opt (data (settings_answer req)) "default_tone");
                        ("language_used",
                         get_opt (data (settings_answer req)) "default_language");
                        ("reply_status", JStr "pending");
                        ("created_by", JStr "ai")]])%list).
  { intros H. destruct (untaggable_stores _ _ _ _ Hout H) as (text & n & Hne & Hse & Har).
    exists (new_id E n), text. split; [exact Hne|]. split; [exact Hse | exact Har]. }
  destruct Hout as [_ _ Hse Har | _ _ _ Hse Har | a _ _ _ _ _ Hse Har
                   | a _ _ _ _ _ _ Hse Har
                   | a reply_text newg e _ _ _ _ _ _ _ _ _ _ Hse Har
                   | a reply_text newg l _ _ _ _ _ Hne _ _ _ _ _ _ Hse Har
                   | a reply_text newg l _ _ Ha _ _ Hne Hread _ Hfault Hl Hlead Htag
                       Hc Hse Har].
  1-5: split; [intros Hr; exfalso; revert Hr;
               eapply not_replied_of_sent; [exact Hse | discriminate]
              | split; [exact Hun | intros _ _; exact Har]].
  - split; [|split; [exact Hun|]].
    + intros _. do 5 eexists. split; [exact Hne|]. split; [exact Hse | exact Har].
    + intros Hnot. exfalso. apply Hnot. eapply replied_body_replied, Hse.
  - split; [|split; [exact Hun|]].
    + intros Hr; exfalso; revert Hr.
      eapply not_replied_of_sent; [exact Hse | discriminate].
    + intros _ Hnot. exfalso. apply Hnot. subst l. eapply untaggable_is_in; eassumption.
Qed.

Lemma no_like_write_among_reads (new : list call) :
  forallb (fun c => negb (is_write c)) new = true ->
  List.filter is_like_write new = [].
Proof.
  induction new as [|c new IH]; [reflexivity|].
  cbn [forallb]. intros H. apply andb_true_iff in H. destruct H as [Hc Hnew].
  destruct c; try discriminate; cbn [List.filter is_like_write]; apply IH, Hnew.
Qed.

Lemma like_writes_of_like_log req a :
  List.filter is_like_write (like_log req a) = like_log req a.
Proof. unfold like_log. destruct (like_fires _ _ _); reflexivity. Qed.

Lemma no_like_write_lead req a l : List.filter is_like_write (lead_log req a l) = [].
Proof. unfold lead_log. destruct (truthy _); reflexivity. Qed.

Lemma no_like_write_opening req a : List.filter is_like_write (opening_log req a) = [].
Proof. unfold opening_log, sentiment_asked. destruct (convertible _); reflexivity. Qed.

Lemma no_like_write_asked text : List.filter is_like_write (lead_asked text) = [].
Proof. unfold lead_asked. destruct (convertible _); reflexivity. Qed.

(** X6: a Comment is marked liked by at most one request, and exactly
    when step 3 is reached (request body, settings found, no gate fired)
    with a sentiment of "positive", a truthy [auto_like_positive] and the
    platform "instagram"; the request then writes [{is_liked: true}] to
    the Comment of the payload. An ignored or escalated comment is never
    marked liked. *)
Theorem liked_only_when_positive_on_instagram cs ars req :
  exists w' a,
    invoke cs ars req = (Normal tt, w') /\
    classification cs ars req = Normal a /\
    List.filter is_like_write (calls w') =
      if like_expected req a
      then [UpdateEq "comments" [("is_liked", JBool true)] "id" (field req "comment_id")]
      else [].
Proof.
  destruct (invoke_outcome cs ars req) as (w' & Hrun & Hout).
  exists w'.
  destruct Hout as [Hb Hc | Hb Hs Hc | a Hb Hs Ha Hspam Hc | a Hb Hs Ha Hspam Hhate Hc
                   | a reply_text newg e Hb Hs Ha Hspam Hhate Hne Hread Hshape Hc
                   | a reply_text newg l Hb Hs Ha Hspam Hhate Hne Hread Hshape Hfault Hl
                       Htag Hc
                   | a reply_text newg l Hb Hs Ha Hspam Hhate Hne Hread Hshape Hfault Hl
                       Hlead Htag Hc].
  - destruct (classification_total cs ars req) as [a Ha]. exists a.
    split; [exact Hrun|]. split; [exact Ha|].
    unfold like_expected. rewrite Hc, Hb. reflexivity.
  - destruct (classification_total cs ars req) as [a Ha]. exists a.
    split; [exact Hrun|]. split; [exact Ha|].
    unfold like_expected. rewrite Hc, Hb, Hs. reflexivity.
  - exists a. split; [exact Hrun|]. split; [exact Ha|].
    unfold like_expected. rewrite Hc, Hb, Hs, Hspam. reflexivity.
  - exists a. split; [exact Hrun|]. split; [exact Ha|].
    unfold like_expected. rewrite Hc, Hb, Hs, Hspam, Hhate. reflexivity.
  - exists a. split; [exact Hrun|]. split; [exact Ha|].
    unfold like_expected. rewrite Hb, Hs, Hspam, Hhate. cbn [negb andb].
    unfold before_insert in Hc.
    rewrite Hc, !List.filter_app, like_writes_of_like_log, no_like_write_opening,
      (no_like_write_among_reads _ Hread).
    unfold like_log, liked_patch. destruct (like_fires _ _ _); reflexivity.
  - exists a. split; [exact Hrun|]. split; [exact Ha|].
    unfold like_expected. rewrite Hb, Hs, Hspam, Hhate. cbn [negb andb].
    unfold before_insert in Hc.
    rewrite Hc, !List.filter_app, like_writes_of_like_log, no_like_write_opening,
      (no_like_write_among_reads _ Hread), no_like_write_lead, no_like_write_asked.
    unfold like_log, liked_patch. destruct (like_fires _ _ _); reflexivity.
  - exists a. split; [exact Hrun|]. split; [exact Ha|].
    unfold like_expected. rewrite Hb, Hs, Hspam, Hhate. cbn [negb andb].
    unfold before_insert in Hc.
    rewrite Hc, !List.filter_app, like_writes_of_like_log, no_like_write_opening,
      (no_like_write_among_reads _ Hread), no_like_write_asked.
    unfold like_log, liked_patch. destruct (like_fires _ _ _); reflexivity.
Qed.

Lemma no_status_write_among_reads (new : list call) :
  forallb (fun c => negb (is_write c)) new = true -> status_writes new = [].
Proof.
  induction new as [|c new IH]; [reflexivity|].
  cbn [forallb]. intros H. apply andb_true_iff in H. destruct H as [Hc Hnew].
  unfold status_writes in *. cbn [flat_map].
  destruct c; try discriminate; cbn [status_written app]; apply IH, Hnew.
Qed.

Lemma status_writes_app l1 l2 :
  status_writes (l1 ++ l2) = (status_writes l1 ++ status_writes l2)%list.
Proof. apply flat_map_app. Qed.

Lemma no_status_write_like req a : status_writes (like_log req a) = [].
Proof. unfold like_log. destruct (like_fires _ _ _); reflexivity. Qed.

Lemma status_writes_lead req a l :
  status_writes (lead_log req a l) = if truthy (is_lead l) then [JStr "replied"] else [].
Proof. unfold lead_log. destruct (truthy _); reflexivity. Qed.

Lemma no_status_write_opening req a : status_writes (opening_log req a) = [].
Proof. unfold opening_log, sentiment_asked. destruct (convertible _); reflexivity. Qed.

Lemma no_status_write_asked text : status_writes (lead_asked text) = [].
Proof. unfold lead_asked. destruct (convertible _); reflexivity. Qed.

(** X7: what an invocation writes to [auto_reply_status] follows its
    answer. Answering "ignored" it has written "ignored", once;
    answering "escalated", "escalated", once; answering "replied" it has
    written "replied" when [is_sales_lead] is truthy and nothing at all
    when it is not, so the status of a replied comment that is not a lead
    is left as it was; answering with an error it has written nothing. *)
Theorem status_written_follows_answer cs ars req :
  exists w',
    invoke cs ars req = (Normal tt, w') /\
    (sent w' = [(200, ignored_body)] -> status_writes (calls w') = [JStr "ignored"]) /\
    (sent w' = [(200, escalated_body)] -> status_writes (calls w') = [JStr "escalated"]) /\
    (forall id text tone language s l t,
       sent w' = [(200, replied_body id text tone language s l t)] ->
       status_writes (calls w') = if truthy l then [JStr "replied"] else []) /\
    (error_response w' = true -> status_writes (calls w') = []).
Proof.
  destruct (invoke_outcome cs ars req) as (w' & Hrun & Hout).
  exists w'. split; [exact Hrun|].
  destruct Hout as [Hb Hc Hse | Hb Hs Hc Hse | a Hb Hs Ha Hspam Hc Hse
                   | a Hb Hs Ha Hspam Hhate Hc Hse
                   | a reply_text newg e Hb Hs Ha Hspam Hhate Hne Hread Hshape Hc Hfault Hse
                   | a reply_text newg l Hb Hs Ha Hspam Hhate Hne Hread Hshape Hfault Hl
                       Htag Hc Hse
                   | a reply_text newg l Hb Hs Ha Hspam Hhate Hne Hread Hshape Hfault Hl
                       Hlead Htag Hc Hse].
  - rewrite Hc, Hse. repeat split; try discriminate; reflexivity.
  - rewrite Hc, Hse. repeat split; try discriminate; reflexivity.
  - rewrite Hc, Hse. unfold error_response. rewrite Hse.
    repeat split; try discriminate; reflexivity.
  - rewrite Hc, Hse. unfold error_response. rewrite Hse.
    repeat split; try discriminate; reflexivity.
  - assert (Hw : status_writes (calls w') = []).
    { unfold before_insert in Hc.
      rewrite Hc, !status_writes_app, no_status_write_like, no_status_write_opening,
        (no_status_write_among_reads _ Hread). reflexivity. }
    rewrite Hw, Hse. repeat split; try discriminate; reflexivity.
  - assert (Hw : status_writes (calls w') =
                 if truthy (is_lead l) then [JStr "replied"] else []).
    { unfold before_insert in Hc.
      rewrite Hc, !status_writes_app, no_status_write_like, no_status_write_opening,
        (no_status_write_among_reads _ Hread), status_writes_lead,
        no_status_write_asked. reflexivity. }
    rewrite Hw, Hse. unfold error_response. rewrite Hse.
    split; [discriminate|]. split; [discriminate|]. split; [|discriminate].
    intros id text tone language s l0 t Heq. injection Heq as _ _ _ _ _ <- _.
    reflexivity.
  - assert (Hw : status_writes (calls w') = []).
    { unfold before_insert in Hc.
      rewrite Hc, !status_writes_app, no_status_write_like, no_status_write_opening,
        (no_status_write_among_reads _ Hread), no_status_write_asked. reflexivity. }
    rewrite Hw, Hse. repeat split; try discriminate; reflexivity.
Qed.

Lemma touches_only_refl k0 m : touches_only k0 m m.
Proof.
  split; [reflexivity|]. split; [trivial|].
  intros row Hrow. exists row. split; [exact Hrow | reflexivity].
Qed.

Lemma touches_only_updated k0 m patch id w :
  touches_only k0 m (comments w) ->
  render rt id = k0 ->
  incl (map fst patch) written_columns ->
  touches_only k0 m (comments (updated patch id w)).
Proof.
  intros (Hother & Hnone & Hsome) <- Hcols. rewrite updated_comments.
  destruct (write_fault E _ _); [repeat split; assumption|].
  split; [|split].
  - intros k Hk. rewrite lookup_alter_ne by congruence. apply Hother, Hk.
  - intros Hm. rewrite lookup_alter_eq, (Hnone Hm). reflexivity.
  - intros row Hrow. destruct (Hsome row Hrow) as (row' & Hrow' & Hkeep).
    exists (apply_patch patch row'). split.
    + rewrite lookup_alter_eq, Hrow'. reflexivity.
    + intros f Hf. rewrite apply_patch_other; [apply Hkeep, Hf|].
      intros Hin. apply Hf, Hcols, Hin.
Qed.

Lemma touches_only_persisted cs ars req a w2 :
  analyzeSentiment (field req "comment_text") (after_settings cs ars req)
    = (Normal a, w2) ->
  touches_only (comment_key req) cs (comments (persisted req a w2)).
Proof.
  intros Ha. apply analyzeSentiment_step in Ha. destruct Ha as (Hcs & _).
  unfold persisted. apply touches_only_updated; [|reflexivity|].
  - rewrite Hcs. apply touches_only_refl.
  - intros f [<-|[<-|[]]]; cbn; tauto.
Qed.

Lemma touches_only_liked cs ars req a w2 :
  analyzeSentiment (field req "comment_text") (after_settings cs ars req)
    = (Normal a, w2) ->
  touches_only (comment_key req) cs (comments (liked req a w2)).
Proof.
  intros Ha. pose proof (touches_only_persisted _ _ _ _ _ Ha) as Hp.
  unfold liked. destruct (like_fires _ _ _); [|exact Hp].
  apply touches_only_updated; [exact Hp | reflexivity|].
  intros f [<-|[]]; cbn; tauto.
Qed.

(** X8: an invocation changes no Comment other than the one stored under
    the payload's [comment_id]; it creates and deletes no Comment (a
    [comment_id] that names no stored Comment changes nothing); and of
    the Comment it does touch it leaves every column other than
    [sentiment], [sentiment_score], [auto_reply_status] and [is_liked]
    as it was. *)
Theorem only_the_comment_of_the_payload_changes cs ars req :
  exists w',
    invoke cs ars req = (Normal tt, w') /\
    touches_only (comment_key req) cs (comments w').
Proof.
  destruct (invoke_path cs ars req) as (w' & Hrun & Hpath).
  exists w'. split; [exact Hrun|]. clear Hrun.
  destruct Hpath as [Hb | Hb Hs | a w2 Hb Hs Ha Hspam | a w2 Hb Hs Ha Hspam Hhate
                    | a w2 reply_text wg newg e Hb Hs Ha Hspam Hhate Hg Hne Hstep Hread
                        Hshape Hfault
                    | a w2 reply_text wg newg l wl Hb Hs Ha Hspam Hhate Hg Hne Hstep Hread
                        Hshape Hfault Hl Hd Hlstep Htag
                    | a w2 reply_text wg newg l wl Hb Hs Ha Hspam Hhate Hg Hne Hstep Hread
                        Hshape Hfault Hl Hd Hlstep Htag];
    cbn [comments push_sent set_status push_console push_call after_settings start].
  - apply touches_only_refl.
  - apply touches_only_refl.
  - apply touches_only_updated;
      [eapply touches_only_persisted, Ha | reflexivity|].
    intros f [<-|[]]; cbn; tauto.
  - apply touches_only_updated;
      [eapply touches_only_persisted, Ha | reflexivity|].
    intros f [<-|[]]; cbn; tauto.
  - destruct Hstep as (Hcs & _). rewrite Hcs.
    eapply touches_only_liked, Ha.
  - destruct Hstep as (Hcs & _). destruct Hlstep as (Hcl & _).
    assert (Hwl : touches_only (comment_key req) cs (comments wl)).
    { rewrite Hcl. unfold stored.
      cbn [comments push_call push_reply]. rewrite Hcs.
      eapply touches_only_liked, Ha. }
    unfold lead_written. destruct (truthy (is_lead l)); [|exact Hwl].
    apply touches_only_updated; [exact Hwl | reflexivity|].
    intros f [<-|[<-|[]]]; cbn; tauto.
  - destruct Hstep as (Hcs & _). destruct Hlstep as (Hcl & _).
    rewrite Hcl. unfold stored.
    cbn [comments push_call push_reply]. rewrite Hcs.
    eapply touches_only_liked, Ha.
Qed.

Lemma strict_eq_str_true v s : strict_eq_str v s = true <-> v = JStr s.
Proof.
  destruct v; cbn; try (split; [discriminate | intros; discriminate]).
  rewrite String.eqb_eq. split; [intros ->; reflexivity | intros [= ->]; reflexivity].
Qed.

(** X9: the answer tells which gate fired. An invocation answers
    "ignored" exactly when it has a request body, finds the settings,
    the classifier's sentiment is the string "spam" and [ignore_spam] is
    truthy; it answers "escalated" exactly when, under the same two
    conditions, the sentiment is "hate" and [ignore_hate_comments] is
    truthy. So a comment is escalated only if it was classified as
    hate, and is neither ignored nor escalated when the flag of its
    class is off. *)
Theorem gate_answers_characterised cs ars req :
  exists w' a,
    invoke cs ars req = (Normal tt, w') /\
    classification cs ars req = Normal a /\
    (sent w' = [(200, ignored_body)] <->
       nullish (body req) = false /\ settings_found req = true /\
       sentiment a = JStr "spam" /\
       truthy (get_opt (data (settings_answer req)) "ignore_spam") = true) /\
    (sent w' = [(200, escalated_body)] <->
       nullish (body req) = false /\ settings_found req = true /\
       sentiment a = JStr "hate" /\
       truthy (get_opt (data (settings_answer req)) "ignore_hate_comments") = true).
Proof.
  assert (Hgs : forall a, spam_gate (data (settings_answer req)) a = true <->
                  sentiment a = JStr "spam" /\
                  truthy (get_opt (data (settings_answer req)) "ignore_spam") = true).
  { intros a. unfold spam_gate. rewrite andb_true_iff, strict_eq_str_true. reflexivity. }
  assert (Hgh : forall a, hate_gate (data (settings_answer req)) a = true <->
                  sentiment a = JStr "hate" /\
                  truthy (get_opt (data (settings_answer req)) "ignore_hate_comments") = true).
  { intros a. unfold hate_gate. rewrite andb_true_iff, strict_eq_str_true. reflexivity. }
  destruct (invoke_outcome cs ars req) as (w' & Hrun & Hout).
  exists w'.
  destruct Hout as [Hb Hc Hse | Hb Hs Hc Hse | a Hb Hs Ha Hspam Hc Hse
                   | a Hb Hs Ha Hspam Hhate Hc Hse
                   | a reply_text newg e Hb Hs Ha Hspam Hhate Hne Hread Hshape Hc Hfault Hse
                   | a reply_text newg l Hb Hs Ha Hspam Hhate Hne Hread Hshape Hfault Hl
                       Htag Hc Hse
                   | a reply_text newg l Hb Hs Ha Hspam Hhate Hne Hread Hshape Hfault Hl
                       Hlead Htag Hc Hse].
  - destruct (classification_total cs ars req) as [a Ha]. exists a.
    split; [exact Hrun|]. split; [exact Ha|]. rewrite Hse.
    split; (split; [discriminate|]); intros (Hb' & _); congruence.
  - destruct (classification_total cs ars req) as [a Ha]. exists a.
    split; [exact Hrun|]. split; [exact Ha|]. rewrite Hse.
    split; (split; [discriminate|]); intros (_ & Hs' & _); congruence.
  - exists a. split; [exact Hrun|]. split; [exact Ha|]. rewrite Hse.
    apply Hgs in Hspam. destruct Hspam as (Hsp & Hflag). split.
    + split; [intros _; repeat split; assumption | reflexivity].
    + split; [discriminate|]. intros (_ & _ & Hh & _). congruence.
  - exists a. split; [exact Hrun|]. split; [exact Ha|]. rewrite Hse.
    apply Hgh in Hhate. destruct Hhate as (Hh & Hflag). split.
    + split; [discriminate|]. intros (_ & _ & Hsp & _). congruence.
    + split; [intros _; repeat split; assumption | reflexivity].
  - exists a. split; [exact Hrun|]. split; [exact Ha|]. rewrite Hse.
    split; (split; [discriminate|]); intros (_ & _ & Hx); exfalso.
    + apply Hgs in Hx. congruence.
    + apply Hgh in Hx. congruence.
  - exists a. split; [exact Hrun|]. split; [exact Ha|]. rewrite Hse.
    split; (split; [discriminate|]); intros (_ & _ & Hx); exfalso.
    + apply Hgs in Hx. congruence.
    + apply Hgh in Hx. congruence.
  - exists a. split; [exact Hrun|]. split; [exact Ha|]. rewrite Hse.
    split; (split; [discriminate|]); intros (_ & _ & Hx); exfalso.
    + apply Hgs in Hx. congruence.
    + apply Hgh in Hx. congruence.
Qed.

(** ** The settings handlers *)

Lemma unreadable_false req :
  unreadable req = false <-> nullish (req_user req) = false /\ nullish (req_body req) = false.
Proof. unfold unreadable. apply orb_false_iff. Qed.

Lemma invoke_settings_unreadable cs ars req :
  unreadable req = true ->
  invoke_settings cs ars req =
    (Normal tt,
     push_sent settings_failed_body
       (set_status 500 (push_console "Update settings error:" TypeError (start cs ars)))).
Proof.
  unfold unreadable, invoke_settings, updateAutoReplySettingsHandler. intros H.
  destruct (nullish (req_user req)) eqn:Hu.
  - unfold try_catch, bind, lift. rewrite (get_nullish _ _ Hu). reflexivity.
  - cbn [orb] in H. unfold try_catch, bind, lift.
    rewrite (get_not_nullish _ _ Hu), (get_nullish _ _ H). reflexivity.
Qed.

Lemma invoke_settings_readable cs ars req :
  unreadable req = false ->
  invoke_settings cs ars req =
    (Normal tt,
     let r := update_single_answer 0 (settings_update_call req) in
     let w1 := push_call (settings_update_call req) (start cs ars) in
     if truthy (error r)
     then push_sent settings_failed_body
            (set_status 500 (push_console "Update settings error:" (Thrown (error r)) w1))
     else push_sent (JObj [("success", JBool true); ("settings", data r)]) w1).
Proof.
  intros H. apply unreadable_false in H. destruct H as (Hu & Hb).
  unfold invoke_settings, updateAutoReplySettingsHandler.
  unfold try_catch, bind, lift.
  rewrite (get_not_nullish _ _ Hu), !(get_not_nullish _ _ Hb). cbv beta iota.
  unfold update_select_single. cbn [calls start length].
  change (UpdateEq _ _ _ _) with (settings_update_call req). cbv zeta.
  destruct (truthy (error _)); reflexivity.
Qed.

Lemma invoke_brand_voice_unreadable cs ars req :
  unreadable req = true ->
  invoke_brand_voice cs ars req =
    (Normal tt,
     push_sent brand_voice_failed_body
       (set_status 500 (push_console "Update brand voice error:" TypeError (start cs ars)))).
Proof.
  unfold unreadable, invoke_brand_voice, updateBrandVoiceHandler. intros H.
  destruct (nullish (req_user req)) eqn:Hu.
  - unfold try_catch, bind, lift. rewrite (get_nullish _ _ Hu). reflexivity.
  - cbn [orb] in H. unfold try_catch, bind, lift.
    rewrite (get_not_nullish _ _ Hu), (get_nullish _ _ H). reflexivity.
Qed.

Lemma invoke_brand_voice_readable cs ars req :
  unreadable req = false ->
  invoke_brand_voice cs ars req =
    (Normal tt,
     let r := update_single_answer 0 (brand_voice_call req) in
     let w1 := push_call (brand_voice_call req) (start cs ars) in
     if truthy (error r)
     then push_sent brand_voice_failed_body
            (set_status 500 (push_console "Update brand voice error:" (Thrown (error r)) w1))
     else push_sent (JObj [("success", JBool true); ("brand_voice", data r)])
            (push_call (voice_details_call req) w1)).
Proof.
  intros H. apply unreadable_false in H. destruct H as (Hu & Hb).
  unfold invoke_brand_voice, updateBrandVoiceHandler.
  unfold try_catch, bind, lift.
  rewrite (get_not_nullish _ _ Hu), !(get_not_nullish _ _ Hb). cbv beta iota.
  unfold update_select_single. cbn [calls start length].
  change (UpdateEq "brand_voice" _ _ _) with (brand_voice_call req). cbv zeta.
  destruct (truthy (error _)); reflexivity.
Qed.

(** X10: [updateAutoReplySettingsHandler] answers every request once and
    never throws. It answers success, with the row the ledger returned,
    exactly when it could read [req.user] and [req.body] and the ledger's
    answer carries no error; in every other case it answers 500 with the
    fixed body [{error: "Failed to update settings"}] and logs the cause.
    It sends one request, the update of the row of [req.user.user_id],
    none when [req.user] or [req.body] is missing, and leaves Comments
    and AutoReplies alone. *)
Theorem settings_update_reports_the_ledger cs ars req :
  exists w',
    invoke_settings cs ars req = (Normal tt, w') /\
    comments w' = cs /\ auto_replies w' = ars /\
    calls w' = (if unreadable req then [] else [settings_update_call req]) /\
    (unreadable req = false /\
     truthy (error (update_single_answer 0 (settings_update_call req))) = false /\
     sent w' = [(200, JObj [("success", JBool true);
                            ("settings",
                             data (update_single_answer 0 (settings_update_call req)))])] /\
     console w' = []
     \/
     (unreadable req = true \/
      truthy (error (update_single_answer 0 (settings_update_call req))) = true) /\
     sent w' = [(500, settings_failed_body)] /\
     exists e, console w' = [("Update settings error:", e)]).
Proof.
  destruct (unreadable req) eqn:Hr.
  - rewrite (invoke_settings_unreadable _ _ _ Hr). eexists. split; [reflexivity|].
    repeat split. right. split; [left; reflexivity|]. split; [reflexivity|].
    eexists. reflexivity.
  - rewrite (invoke_settings_readable _ _ _ Hr). cbv zeta.
    eexists. split; [reflexivity|].
    destruct (truthy (error _)) eqn:He; repeat split.
    + right. split; [right; reflexivity|]. split; [reflexivity|]. eexists. reflexivity.
    + left. repeat split.
Qed.

Lemma pick_same b b' keys :
  Forall (fun k => get_opt b k = get_opt b' k) keys -> pick b keys = pick b' keys.
Proof.
  unfold pick. induction 1 as [|k keys Hk _ IH]; [reflexivity|].
  cbn [map]. rewrite Hk, IH. reflexivity.
Qed.

Lemma same_reads_unreadable keys req req' :
  same_reads keys req req' -> unreadable req = unreadable req'.
Proof. intros (Hu & _ & Hb & _). unfold unreadable. rewrite Hu, Hb. reflexivity. Qed.

(** X11: what [updateAutoReplySettingsHandler] does depends on the
    request only through [req.user.user_id] and the five settings fields
    of [req.body]. Anything else a client puts into the body (a
    [user_id], an [id], further columns) has no effect: the row that is
    updated is the authenticated user's and only the five fields and
    [updated_at] are written. *)
Theorem settings_update_reads_only_its_fields cs ars req req' :
  same_reads settings_fields req req' ->
  invoke_settings cs ars req = invoke_settings cs ars req'.
Proof.
  intros H. pose proof (same_reads_unreadable _ _ _ H) as Hr.
  assert (Hcall : settings_update_call req = settings_update_call req').
  { destruct H as (_ & Hid & _ & Hf). unfold settings_update_call.
    rewrite Hid, (pick_same _ _ _ Hf). reflexivity. }
  destruct (unreadable req) eqn:Hreq; symmetry in Hr.
  - rewrite (invoke_settings_unreadable _ _ _ Hreq), (invoke_settings_unreadable _ _ _ Hr).
    reflexivity.
  - rewrite (invoke_settings_readable _ _ _ Hreq), (invoke_settings_readable _ _ _ Hr), Hcall.
    reflexivity.
Qed.

(** X12: [updateBrandVoiceHandler] writes in two steps and reports the
    first only. It answers once and never throws. When [req.user] or
    [req.body] is missing it sends nothing; when the [brand_voice] update
    is answered with an error it sends nothing more; both times it
    answers 500 with [{error: "Failed to update brand voice"}] and logs
    the cause. Otherwise it sends the update of the four voice details
    to [auto_reply_settings] as its second and last request and answers
    success with the brand voice row. *)
Theorem brand_voice_update_in_two_steps cs ars req :
  exists w',
    invoke_brand_voice cs ars req = (Normal tt, w') /\
    comments w' = cs /\ auto_replies w' = ars /\
    (unreadable req = false /\
     truthy (error (update_single_answer 0 (brand_voice_call req))) = false /\
     calls w' = [brand_voice_call req; voice_details_call req] /\
     sent w' = [(200, JObj [("success", JBool true);
                            ("brand_voice",
                             data (update_single_answer 0 (brand_voice_call req)))])] /\
     console w' = []
     \/
     (unreadable req = true /\ calls w' = [] \/
      unreadable req = false /\
      truthy (error (update_single_answer 0 (brand_voice_call req))) = true /\
      calls w' = [brand_voice_call req]) /\
     sent w' = [(500, brand_voice_failed_body)] /\
     exists e, console w' = [("Update brand voice error:", e)]).
Proof.
  destruct (unreadable req) eqn:Hr.
  - rewrite (invoke_brand_voice_unreadable _ _ _ Hr). eexists. split; [reflexivity|].
    repeat split. right. split; [left; split; reflexivity|]. split; [reflexivity|].
    eexists. reflexivity.
  - rewrite (invoke_brand_voice_readable _ _ _ Hr). cbv zeta.
    eexists. split; [reflexivity|].
    destruct (truthy (error _)) eqn:He; repeat split.
    + right. split; [right; repeat split|]. split; [reflexivity|]. eexists. reflexivity.
    + left. repeat split.
Qed.

(** X13: [updateBrandVoiceHandler] depends on the request only through
    [req.user.user_id] and the seven fields it destructures from
    [req.body]. *)
Theorem brand_voice_update_reads_only_its_fields cs ars req req' :
  same_reads (brand_voice_fields ++ voice_detail_fields) req req' ->
  invoke_brand_voice cs ars req = invoke_brand_voice cs ars req'.
Proof.
  intros H. pose proof (same_reads_unreadable _ _ _ H) as Hr.
  assert (Hcalls : brand_voice_call req = brand_voice_call req' /\
                   voice_details_call req = voice_details_call req').
  { destruct H as (_ & Hid & _ & Hf). apply Forall_app in Hf. destruct Hf as (Hb & Hv).
    unfold brand_voice_call, voice_details_call.
    rewrite Hid, (pick_same _ _ _ Hb), (pick_same _ _ _ Hv). split; reflexivity. }
  destruct Hcalls as (Hc1 & Hc2).
  destruct (unreadable req) eqn:Hreq; symmetry in Hr.
  - rewrite (invoke_brand_voice_unreadable _ _ _ Hreq),
      (invoke_brand_voice_unreadable _ _ _ Hr).
    reflexivity.
  - rewrite (invoke_brand_voice_readable _ _ _ Hreq),
      (invoke_brand_voice_readable _ _ _ Hr), Hc1, Hc2.
    reflexivity.
Qed.

Lemma no_column_among_reads (new : list call) :
  forallb (fun c => negb (is_write c)) new = true -> writes new = [].
Proof.
  induction new as [|c new IH]; [reflexivity|].
  cbn [forallb]. intros H. apply andb_true_iff in H. destruct H as [Hc Hnew].
  unfold writes in *. cbn [flat_map].
  destruct c; try discriminate; cbn [columns_written app]; apply IH, Hnew.
Qed.

Lemma writes_app l1 l2 : writes (l1 ++ l2) = (writes l1 ++ writes l2)%list.
Proof. apply flat_map_app. Qed.

Lemma reply_handler_tables cs ars req :
  Forall (fun tc => fst tc = "comments" \/ fst tc = "auto_replies")
         (writes (calls (snd (invoke cs ars req)))).
Proof.
  destruct (invoke_outcome cs ars req) as (w' & Hrun & Hout). rewrite Hrun. cbn [snd].
  assert (Hlike : forall a, Forall (fun tc => fst tc = "comments" \/ fst tc = "auto_replies")
                              (writes (like_log req a))).
  { intros a. unfold like_log. destruct (like_fires _ _ _); cbn;
      repeat (apply List.Forall_cons; [cbn; auto|]); apply List.Forall_nil. }
  assert (Hlead : forall a l, Forall (fun tc => fst tc = "comments" \/ fst tc = "auto_replies")
                                (writes (lead_log req a l))).
  { intros a l. unfold lead_log. destruct (truthy _); cbn;
      repeat (apply List.Forall_cons; [cbn; auto|]); apply List.Forall_nil. }
  assert (Hopen : forall a, Forall (fun tc => fst tc = "comments" \/ fst tc = "auto_replies")
                              (writes (opening_log req a))).
  { intros a. unfold opening_log, sentiment_asked. destruct (convertible _); cbn;
      repeat (apply List.Forall_cons; [cbn; auto|]); apply List.Forall_nil. }
  assert (Hasked : writes (lead_asked (field req "comment_text")) = []).
  { unfold lead_asked. destruct (convertible _); reflexivity. }
  destruct Hout as [Hb Hc | Hb Hs Hc | a Hb Hs Ha Hspam Hc | a Hb Hs Ha Hspam Hhate Hc
                   | a reply_text newg e Hb Hs Ha Hspam Hhate Hne Hread Hshape Hc
                   | a reply_text newg l Hb Hs Ha Hspam Hhate Hne Hread Hshape Hfault Hl
                       Htag Hc
                   | a reply_text newg l Hb Hs Ha Hspam Hhate Hne Hread Hshape Hfault Hl
                       Hlead' Htag Hc];
    rewrite Hc; unfold before_insert;
    rewrite ?writes_app, ?(no_column_among_reads _ Hread), ?Hasked;
    repeat (apply Forall_app; split);
    try apply Hlike; try apply Hlead; try apply Hopen; cbn;
    repeat (apply List.Forall_cons; [cbn; auto|]); apply List.Forall_nil.
Qed.

(** X14: the three handlers of the module write to disjoint parts of the
    ledger. [generateReplyHandler] writes to [comments] and
    [auto_replies] only; [updateAutoReplySettingsHandler] and
    [updateBrandVoiceHandler] write to [auto_reply_settings] and
    [brand_voice] only, and no column is written by both. The column
    [blacklisted_words], which [generateReply] reads from the settings,
    is written by none of them. *)
Theorem handlers_write_disjoint_columns cs ars req req1 req2 :
  Forall (fun tc => fst tc = "comments" \/ fst tc = "auto_replies")
         (writes (calls (snd (invoke cs ars req)))) /\
  Forall (fun tc => fst tc = "auto_reply_settings" /\
                    ~ In tc (writes (calls (snd (invoke_brand_voice cs ars req2)))) /\
                    snd tc <> "blacklisted_words")
         (writes (calls (snd (invoke_settings cs ars req1)))) /\
  Forall (fun tc => (fst tc = "auto_reply_settings" \/ fst tc = "brand_voice") /\
                    snd tc <> "blacklisted_words")
         (writes (calls (snd (invoke_brand_voice cs ars req2)))).
Proof.
  split; [apply reply_handler_tables|].
  assert (Hbv : incl (writes (calls (snd (invoke_brand_voice cs ars req2))))
                  [("brand_voice", "brand_name"); ("brand_voice", "brand_values");
                   ("brand_voice", "personality_traits");
                   ("auto_reply_settings", "catchphrases");
                   ("auto_reply_settings", "signature_emojis");
                   ("auto_reply_settings", "intro_line");
                   ("auto_reply_settings", "outro_line")]).
  { destruct (unreadable req2) eqn:Hr.
    - rewrite (invoke_brand_voice_unreadable _ _ _ Hr). intros tc [].
    - rewrite (invoke_brand_voice_readable _ _ _ Hr). cbv zeta.
      destruct (truthy (error _)); intros tc Hin; cbn in Hin; cbn [In]; tauto. }
  split.
  - assert (Hdis : forall tc,
               In tc [("auto_reply_settings", "default_tone");
                      ("auto_reply_settings", "default_language");
                      ("auto_reply_settings", "auto_like_positive");
                      ("auto_reply_settings", "ignore_spam");
                      ("auto_reply_settings", "ignore_hate_comments");
                      ("auto_reply_settings", "updated_at")] ->
               fst tc = "auto_reply_settings" /\
               ~ In tc (writes (calls (snd (invoke_brand_voice cs ars req2)))) /\
               snd tc <> "blacklisted_words").
    { intros tc Hin. split; [|split].
      - cbn in Hin. intuition (subst; reflexivity).
      - intros Hin2. apply Hbv in Hin2. cbn in Hin, Hin2.
        intuition (subst; discriminate).
      - cbn in Hin. intuition (subst; discriminate). }
    apply List.Forall_forall. intros tc Hin. apply Hdis.
    destruct (unreadable req1) eqn:Hr.
    + rewrite (invoke_settings_unreadable _ _ _ Hr) in Hin. cbn in Hin. destruct Hin.
    + rewrite (invoke_settings_readable _ _ _ Hr) in Hin. cbv zeta in Hin.
      destruct (truthy (error _)); exact Hin.
  - apply List.Forall_forall. intros tc Hin. apply Hbv in Hin. cbn in Hin.
    intuition (subst; cbn; auto; discriminate).
Qed.

(** X15: the requests of an invocation that reaches the generation
    (request body, settings found, no gate fired), in order: the
    settings lookup, the classifier call unless the text cannot be
    converted, the write of the classification, the like when step 3
    fires, the lookup of the brand voice and a second lookup of the
    settings by [generateReply] under the payload's [user_id], the
    generator call unless the messages could not be built (the reply is
    then the fixed text), the insert of the AutoReply, and, unless the
    ledger refused the insert, the lead detector call (again unless the
    text cannot be converted) followed by the lead write when the
    comment is a lead and its tag can be built. The generator is asked
    with the handler's defaults for tone and language. *)
Theorem requests_of_a_reply_in_order cs ars req :
  exists w' a,
    invoke cs ars req = (Normal tt, w') /\
    classification cs ars req = Normal a /\
    (nullish (body req) = false -> settings_found req = true ->
     spam_gate (data (settings_answer req)) a = false ->
     hate_gate (data (settings_answer req)) a = false ->
     exists gen text tail,
       calls w' =
         ((settings_call req :: sentiment_asked (field req "comment_text")) ++
          [UpdateEq "comments" (classification_patch a) "id" (field req "comment_id")] ++
          like_log req a ++ reply_lookups (handler_reply_params req a) ++ gen ++
          [insert_call req text] ++ tail)%list /\
       (gen = [] /\ text = fallback_catch \/
        exists sp, gen = [ChatCreate (reply_request (handler_reply_params req a) sp)]) /\
       let n := length (before_insert req a
                          (reply_lookups (handler_reply_params req a) ++ gen)) in
       let l := detected (S n) (field req "comment_text") in
       (tail = [] /\ (exists e, write_fault E n (insert_call req text) = Some e) \/
        write_fault E n (insert_call req text) = None /\
        tail = (lead_asked (field req "comment_text") ++
                if truthy (is_lead l) && taggable (sentiment a) (lead_temperature l)
                then [UpdateEq "comments" (lead_patch (sentiment a) (lead_temperature l))
                        "id" (field req "comment_id")]
                else [])%list)).
Proof.
  destruct (invoke_outcome cs ars req) as (w' & Hrun & Hout).
  exists w'.
  assert (Hshaped : forall a text newg,
            generated_log (handler_reply_params req a) text newg ->
            exists gen,
              newg = (reply_lookups (handler_reply_params req a) ++ gen)%list /\
              (gen = [] /\ text = fallback_catch \/
               exists sp, gen = [ChatCreate (reply_request (handler_reply_params req a) sp)])).
  { intros a text newg [(-> & ->) | (sp & ->)].
    - exists []. split; [rewrite app_nil_r; reflexivity | left; split; reflexivity].
    - eexists. split; [reflexivity | right; exists sp; reflexivity]. }
  destruct Hout as [Hb Hc Hse | Hb Hs Hc Hse | a Hb Hs Ha Hspam Hc Hse
                   | a Hb Hs Ha Hspam Hhate Hc Hse
                   | a reply_text newg e Hb Hs Ha Hspam Hhate Hne Hread Hshape Hc Hfault Hse
                   | a reply_text newg l Hb Hs Ha Hspam Hhate Hne Hread Hshape Hfault Hl
                       Htag Hc Hse
                   | a reply_text newg l Hb Hs Ha Hspam Hhate Hne Hread Hshape Hfault Hl
                       Hlead Htag Hc Hse].
  1-2: destruct (classification_total cs ars req) as [a Ha]; exists a;
       (split; [exact Hrun|]); (split; [exact Ha|]); congruence.
  1-2: exists a; (split; [exact Hrun|]); (split; [exact Ha|]); congruence.
  - exists a. split; [exact Hrun|]. split; [exact Ha|]. intros _ _ _ _.
    destruct (Hshaped _ _ _ Hshape) as (gen & -> & Hgen).
    exists gen, reply_text, []. split; [|split; [exact Hgen|]].
    + rewrite Hc. unfold before_insert, opening_log. rewrite <- !app_assoc. reflexivity.
    + cbv zeta. left. split; [reflexivity|]. exists e. exact Hfault.
  - exists a. split; [exact Hrun|]. split; [exact Ha|]. intros _ _ _ _.
    destruct (Hshaped _ _ _ Hshape) as (gen & -> & Hgen).
    exists gen, reply_text. eexists. split; [|split; [exact Hgen|]].
    + rewrite Hc. unfold before_insert, opening_log. rewrite <- !app_assoc. reflexivity.
    + cbv zeta. right. split; [exact Hfault|]. rewrite <- Hl. unfold lead_log.
      destruct (truthy (is_lead l)) eqn:Hlead; [|reflexivity].
      rewrite (Htag eq_refl). reflexivity.
  - exists a. split; [exact Hrun|]. split; [exact Ha|]. intros _ _ _ _.
    destruct (Hshaped _ _ _ Hshape) as (gen & -> & Hgen).
    exists gen, reply_text. eexists. split; [|split; [exact Hgen|]].
    + rewrite Hc. unfold before_insert, opening_log. rewrite <- !app_assoc. reflexivity.
    + cbv zeta. right. split; [exact Hfault|]. rewrite <- Hl, Hlead, Htag.
      rewrite app_nil_r. reflexivity.
Qed.

(** X16: what one invocation costs. It issues at most ten requests, of
    which at most three are calls to the model; none when the settings
    are not found, and one, the classifier's, when the comment is
    ignored or escalated. *)
Theorem at_most_three_model_calls cs ars req :
  exists w',
    invoke cs ars req = (Normal tt, w') /\
    (length (calls w') <= 10)%nat /\
    (length (List.filter is_chat (calls w')) <= 3)%nat /\
    (sent w' = [(404, not_found_body)] -> List.filter is_chat (calls w') = []) /\
    (sent w' = [(200, ignored_body)] \/ sent w' = [(200, escalated_body)] ->
     List.filter is_chat (calls w') =
       [ChatCreate (sentiment_request (field req "comment_text"))]).
Proof.
  destruct (invoke_outcome cs ars req) as (w' & Hrun & Hout).
  exists w'. split; [exact Hrun|].
  destruct Hout as [Hb Hc Hse | Hb Hs Hc Hse | a Hb Hs Ha Hspam Hc Hse
                   | a Hb Hs Ha Hspam Hhate Hc Hse
                   | a reply_text newg e Hb Hs Ha Hspam Hhate Hne Hread Hshape Hc Hfault Hse
                   | a reply_text newg l Hb Hs Ha Hspam Hhate Hne Hread Hshape Hfault Hl
                       Htag Hc Hse
                   | a reply_text newg l Hb Hs Ha Hspam Hhate Hne Hread Hshape Hfault Hl
                       Hlead Htag Hc Hse].
  - rewrite Hc, Hse. cbn. repeat split; try lia; try discriminate.
    intros [Hx|Hx]; discriminate Hx.
  - rewrite Hc, Hse. cbn. repeat split; try lia.
    intros [Hx|Hx]; discriminate Hx.
  - rewrite Hc, Hse. cbn. repeat split; try lia; try discriminate.
  - rewrite Hc, Hse. cbn. repeat split; try lia; try discriminate.
  - rewrite Hc, Hse.
    unfold before_insert, opening_log, sentiment_asked, like_log, reply_lookups.
    split; [|split; [|split; [discriminate | intros [Hx|Hx]; discriminate Hx]]];
      destruct (convertible _); destruct (like_fires _ _ _);
      destruct Hshape as [(-> & _) | (sp & ->)]; cbn; lia.
  - rewrite Hc, Hse.
    unfold before_insert, opening_log, sentiment_asked, lead_asked, like_log, lead_log,
      reply_lookups.
    split; [|split; [|split; [discriminate | intros [Hx|Hx]; discriminate Hx]]];
      destruct (convertible _); destruct (like_fires _ _ _);
      destruct Hshape as [(-> & _) | (sp & ->)];
      destruct (truthy (is_lead l)); cbn; lia.
  - rewrite Hc, Hse.
    unfold before_insert, opening_log, sentiment_asked, lead_asked, like_log,
      reply_lookups.
    split; [|split; [|split; [discriminate | intros [Hx|Hx]; discriminate Hx]]];
      destruct (convertible _); destruct (like_fires _ _ _);
      destruct Hshape as [(-> & _) | (sp & ->)]; cbn; lia.
Qed.

End Reply.

(* ===================================================================== *)
(** * Scenarios: the theorems at work, and where the spec's wording fails *)
(* ===================================================================== *)

(** Scenario B of the spec: a comment classified as spam, [ignore_spam]
    set. *)
Lemma spam_gate_ignores_witness :
  classification demo_runtime spam_env one_comment [] full_request
    = Normal {| sentiment := JStr "spam"; score := JNum 0.9 |} /\
  exists w',
    invoke demo_runtime spam_env one_comment [] full_request = (Normal tt, w') /\
    sent w' = [(200, ignored_body)] /\
    auto_replies w' = [] /\
    exists row', comments w' !! "c1" = Some row' /\
                 row' !! "auto_reply_status" = Some (JStr "ignored").
Proof.
  split; [vm_compute; reflexivity|].
  destruct (spam_gate_ignores demo_runtime spam_env one_comment [] full_request
              {| sentiment := JStr "spam"; score := JNum 0.9 |})
    as (w' & Hrun & Hsent & Har & _ & Hrow);
    [reflexivity | reflexivity | vm_compute; reflexivity | reflexivity | reflexivity |].
  exists w'. split; [exact Hrun|]. split; [exact Hsent|]. split; [exact Har|].
  apply (Hrow eq_refl {[ "auto_reply_status" := JStr "pending" ]}).
  vm_compute. reflexivity.
Defined.

(** Scenario C of the spec: a comment classified as hate,
    [ignore_hate_comments] set. *)
Lemma hate_gate_escalates_witness :
  exists w',
    invoke demo_runtime hate_env one_comment [] full_request = (Normal tt, w') /\
    sent w' = [(200, escalated_body)] /\
    auto_replies w' = [] /\
    (length (List.filter is_gate_write (calls w')) <= 1)%nat /\
    exists row', comments w' !! "c1" = Some row' /\
                 row' !! "auto_reply_status" = Some (JStr "escalated").
Proof.
  destruct (hate_gate_escalates demo_runtime hate_env one_comment [] full_request)
    as (w' & Hrun & Hle & H).
  destruct (H {| sentiment := JStr "hate"; score := JNum 0.9 |})
    as (_ & Hsent & Har & _ & Hrow);
    [reflexivity | reflexivity | vm_compute; reflexivity | reflexivity | reflexivity |].
  exists w'. split; [exact Hrun|]. split; [exact Hsent|]. split; [exact Har|].
  split; [exact Hle|].
  apply (Hrow eq_refl {[ "auto_reply_status" := JStr "pending" ]}).
  vm_compute. reflexivity.
Defined.

(** The settings are found, every model call fails and is absorbed, and
    the ledger refuses the insert: the invocation fails although the
    settings lookup did not. *)
Lemma insert_is_a_second_hard_stop :
  ~ only_settings_fail_hard demo_runtime insert_refused_env one_comment [] full_request.
Proof.
  unfold only_settings_fail_hard. intros H.
  assert (Hfound : settings_found insert_refused_env full_request = false).
  { apply H. vm_compute. reflexivity. }
  vm_compute in Hfound. discriminate Hfound.
Qed.

(** Scenario D of the spec: no settings row. *)
Lemma settings_absent_not_found_witness :
  exists w',
    invoke demo_runtime no_settings_env one_comment [] full_request = (Normal tt, w') /\
    sent w' = [(404, not_found_body)] /\
    calls w' = [SelectSingle "auto_reply_settings" "user_id" (JStr "u1")] /\
    comments w' = one_comment /\
    auto_replies w' = [].
Proof.
  destruct (settings_absent_not_found demo_runtime no_settings_env one_comment []
              full_request) as (w' & Hrun & H & _).
  exists w'. split; [exact Hrun|].
  apply H; [reflexivity | left; reflexivity].
Defined.

(** The classifier cannot be reached, and neither can the generator:
    the ledger refuses the insert, and the invocation ends with status
    500, in none of the terminal states. *)
Lemma classifier_failure_then_hard_failure :
  ~ failure_still_terminal demo_runtime insert_refused_env one_comment [] full_request.
Proof.
  unfold failure_still_terminal. intros H.
  destruct H as (b & Hsent & _); [apply fails_rejected|].
  vm_compute in Hsent. discriminate Hsent.
Qed.

(** The classifier cannot be reached. *)
Lemma classification_failure_absorbed_witness :
  fst (analyzeSentiment demo_runtime offline_env (JStr "I love this!!") (start one_comment []))
    = Normal {| sentiment := JStr "neutral"; score := JNum 0.5 |} /\
  exists w',
    invoke demo_runtime offline_env one_comment [] full_request = (Normal tt, w') /\
    replied_response w'.
Proof.
  destruct (classification_failure_absorbed demo_runtime offline_env)
    as (_ & Hleaf & _ & _ & Hpipe).
  split.
  - apply Hleaf. apply fails_rejected.
  - destruct (Hpipe one_comment [] full_request) as (w' & Hrun & _ & _ & _ & [Hok | [Hse _]]);
      [reflexivity | reflexivity | apply fails_rejected | |].
    + exists w'. split; assumption.
    + exfalso.
      assert (Hw : w' = snd (invoke demo_runtime offline_env one_comment []
                               full_request)) by (rewrite Hrun; reflexivity).
      rewrite Hw in Hse. vm_compute in Hse. discriminate Hse.
Defined.

(** Scenario B of the spec: the comment is ignored as spam, and its
    stored row carries the classification. *)
Lemma classification_persisted_first_witness :
  exists w' rest row',
    invoke demo_runtime spam_env one_comment [] full_request = (Normal tt, w') /\
    calls w' =
      (classified_log demo_runtime spam_env full_request
         {| sentiment := JStr "spam"; score := JNum 0.9 |} ++ rest)%list /\
    sent w' = [(200, ignored_body)] /\
    comments w' !! "c1" = Some row' /\
    row' !! "sentiment" = Some (JStr "spam") /\
    row' !! "sentiment_score" = Some (JNum 0.9).
Proof.
  destruct (classification_persisted_first demo_runtime spam_env one_comment []
              full_request {| sentiment := JStr "spam"; score := JNum 0.9 |})
    as (w' & rest & Hrun & _ & Hthird & Hrow);
    [reflexivity | reflexivity | vm_compute; reflexivity |].
  assert (Hsent : sent w' = [(200, ignored_body)]).
  { assert (Hw : w' = snd (invoke demo_runtime spam_env one_comment [] full_request))
      by (rewrite Hrun; reflexivity).
    rewrite Hw. vm_compute. reflexivity. }
  destruct (Hrow eq_refl {[ "auto_reply_status" := JStr "pending" ]}) as (_ & Hgate);
    [vm_compute; reflexivity|].
  destruct (Hgate (or_introl Hsent)) as (row' & Hrow' & Hsentiment & Hscore).
  exists w', rest, row'.
  split; [exact Hrun|]. split; [exact (Hthird eq_refl)|]. split; [exact Hsent|].
  split; [exact Hrow'|]. split; [exact Hsentiment | exact Hscore].
Defined.

(** Every Comment update is refused, and the invocation reports
    success. *)
Lemma refused_update_goes_unnoticed :
  ~ persist_failure_aborts demo_runtime update_refused_env one_comment [] full_request.
Proof.
  unfold persist_failure_aborts. intros H.
  assert (Herr : error_response
                   (snd (invoke demo_runtime update_refused_env one_comment []
                           full_request)) = true).
  { apply H. left.
    exists 2%nat,
      [("sentiment", JStr "neutral"); ("sentiment_score", JNum 0.5)],
      (JStr "c1"), timeout_error.
    split; vm_compute; reflexivity. }
  vm_compute in Herr. discriminate Herr.
Qed.

(** The insert is refused. *)
Lemma insert_failure_aborts_witness :
  exists w',
    invoke demo_runtime insert_refused_env one_comment [] full_request = (Normal tt, w') /\
    sent w' = [(500, failed_body)] /\
    auto_replies w' = [].
Proof.
  destruct (insert_failure_aborts demo_runtime insert_refused_env one_comment []
              full_request) as (w' & Hrun & Hrefused & _);
    [reflexivity | reflexivity |].
  exists w'. split; [exact Hrun|].
  assert (Hw : w' = snd (invoke demo_runtime insert_refused_env one_comment []
                           full_request)) by (rewrite Hrun; reflexivity).
  destruct Hrefused as (Hsent & _ & Har).
  - rewrite Hw.
    exists 6%nat,
      (reply_row (data settings_row) (JStr "c1") (JStr "u1") fallback_catch),
      timeout_error.
    split; vm_compute; reflexivity.
  - split; assumption.
Defined.



(** C8: the two failure paths of [generateReply] answer with different
    texts. A rejected request is answered by the [catch] block with
    "Thanks for your comment! 🙌"; a [null] content by the [||] on the
    line before with "Thanks for the comment! 🙌". *)
Theorem generateReply_fallbacks_differ :
  fst (generateReply demo_runtime offline_env demo_params (start one_comment []))
    = Normal "Thanks for your comment! 🙌" /\
  fst (generateReply demo_runtime silent_env demo_params (start one_comment []))
    = Normal "Thanks for the comment! 🙌" /\
  fallback_empty <> fallback_catch.
Proof.
  split; [vm_compute; reflexivity|]. split; [vm_compute; reflexivity|]. discriminate.
Qed.

(** A payload without [comment_text], for a user whose settings exist:
    requests are issued and the answer is not a client error. *)
Lemma missing_field_is_processed :
  ~ rejects_before_any_call demo_runtime lead_env one_comment [] request_without_text.
Proof.
  unfold rejects_before_any_call. intros H.
  destruct H as [Hcalls _].
  - exists "comment_text". split; [right; right; left; reflexivity | reflexivity].
  - vm_compute in Hcalls. discriminate Hcalls.
Qed.

(** The same payload, through the theorem. *)
Lemma payload_not_validated_witness :
  exists w' rest,
    invoke demo_runtime lead_env one_comment [] request_without_text = (Normal tt, w') /\
    calls w' = SelectSingle "auto_reply_settings" "user_id" (JStr "u1") :: rest /\
    success_response w'.
Proof.
  destruct (payload_not_validated demo_runtime lead_env one_comment []
              request_without_text) as (w' & rest & Hrun & Hc & _ & Hfound);
    [reflexivity|].
  exists w', rest. split; [exact Hrun|]. split; [exact Hc|].
  destruct (Hfound eq_refl) as [Hok | [Hse _]]; [exact Hok|].
  exfalso.
  assert (Hw : w' = snd (invoke demo_runtime lead_env one_comment []
                           request_without_text)) by (rewrite Hrun; reflexivity).
  rewrite Hw in Hse. vm_compute in Hse. discriminate Hse.
Defined.

(** The classifier answers with a score of [0] and an empty sentiment. *)
Lemma falsy_fields_defaulted_witness :
  fst (analyzeSentiment demo_runtime zero_score_env (JStr "ok") (start one_comment []))
    = Normal {| sentiment := JStr "neutral"; score := JNum 0.5 |}.
Proof.
  destruct (falsy_fields_defaulted demo_runtime zero_score_env (JStr "ok")
              (start one_comment [])) as [H _].
  destruct (H {| choices := [ {| message := {| content := Some zero_json |} |} ] |}
              (Some zero_json)
              [("sentiment", JStr ""); ("score", JNum 0)])
    as (a & Hrun & _ & _ & Hscore & Hsentiment);
    [reflexivity | reflexivity | reflexivity | vm_compute; reflexivity |].
  rewrite Hrun. destruct a as [s sc]. cbn [sentiment score] in *.
  rewrite (Hscore eq_refl), (Hsentiment eq_refl). reflexivity.
Defined.

(* ===================================================================== *)
(** * Further properties: across environments, and scenarios *)
(* ===================================================================== *)

(** X17: what [updateBrandVoiceHandler] does is the same in every
    environment: it depends on the ledger only through the answer to the
    [brand_voice] update. The result of the second update, the voice
    details written to [auto_reply_settings], is never looked at, so a
    request whose voice details the ledger refuses is answered like one
    whose voice details were stored. *)
Theorem voice_details_result_is_discarded
        (E E' : env) (update_single_answer : nat -> call -> pg_result)
        (cs : gmap string (gmap string jsval)) (ars : list jsval) (req : account_request) :
  invoke_brand_voice E update_single_answer cs ars req =
  invoke_brand_voice E' update_single_answer cs ars req.
Proof.
  destruct (unreadable req) eqn:Hr.
  - rewrite !(invoke_brand_voice_unreadable _ _ _ _ _ Hr). reflexivity.
  - rewrite !(invoke_brand_voice_readable _ _ _ _ _ Hr). reflexivity.
Qed.

(** A body that also carries a [user_id], a [blacklisted_words] list and
    its keys in another order is handled like the plain one. *)
Lemma settings_update_reads_only_its_fields_witness :
  invoke_settings (returns_row (data settings_row)) some_instant one_comment []
    settings_update =
  invoke_settings (returns_row (data settings_row)) some_instant one_comment []
    settings_update_with_extras.
Proof.
  apply settings_update_reads_only_its_fields.
  unfold same_reads. repeat split. repeat constructor.
Defined.

Lemma brand_voice_update_reads_only_its_fields_witness :
  invoke_brand_voice lead_env (returns_row (JObj [("brand_name", JStr "Sfiya")]))
    one_comment [] voice_update =
  invoke_brand_voice lead_env (returns_row (JObj [("brand_name", JStr "Sfiya")]))
    one_comment [] voice_update_with_extras.
Proof.
  apply brand_voice_update_reads_only_its_fields.
  unfold same_reads. repeat split. repeat constructor.
Defined.

(** The lead detector cannot be reached; and a text that cannot be
    converted, for which the detector is not asked. *)
Lemma detectSalesLead_absorbs_failures_witness :
  (exists w' e,
     detectSalesLead demo_runtime offline_env (JStr "I love this!!") (start one_comment [])
       = (Normal cold_default, w') /\
     console w' = [("Lead detection error:", e)]) /\
  (exists w' e,
     detectSalesLead demo_runtime lead_env odd_text (start one_comment [])
       = (Normal cold_default, w') /\
     calls w' = [] /\
     console w' = [("Lead detection error:", e)]).
Proof.
  split.
  - destruct (detectSalesLead_absorbs_failures demo_runtime offline_env
                (JStr "I love this!!") (start one_comment []))
      as (l & w' & Hrun & _ & _ & _ & Hfail & _).
    destruct Hfail as (-> & e & He); [right; apply fails_rejected|].
    exists w', e. split; [exact Hrun | exact He].
  - destruct (detectSalesLead_absorbs_failures demo_runtime lead_env odd_text
                (start one_comment []))
      as (l & w' & Hrun & _ & _ & Hcalls & Hfail & _).
    destruct Hfail as (-> & e & He); [left; reflexivity|].
    exists w', e. split; [exact Hrun|]. split; [exact Hcalls | exact He].
Defined.

(** Catchphrases saved as one string: the generator would answer
    "Thank you!", and is not asked. *)
Lemma ill_typed_settings_skip_the_model_witness :
  exists w',
    generateReply demo_runtime string_catchphrases_env demo_params (start one_comment [])
      = (Normal "Thanks for your comment! 🙌", w') /\
    calls w' = [SelectSingle "brand_voice" "user_id" (JStr "u1");
                SelectSingle "auto_reply_settings" "user_id" (JStr "u1")].
Proof.
  destruct (ill_typed_settings_skip_the_model demo_runtime string_catchphrases_env
              demo_params (start one_comment []))
    as (text & w' & Hrun & _ & Hill & _).
  destruct Hill as (-> & Hcalls).
  { left. exists "catchphrases". split; [left; reflexivity|]. split; reflexivity. }
  exists w'. split; [exact Hrun | exact Hcalls].
Defined.

(** Scenario A of the spec: one row, pending, is stored. *)
Lemma one_row_per_reply_witness :
  exists row,
    auto_replies (snd (invoke demo_runtime lead_env one_comment [] full_request)) = [row] /\
    get_opt row "reply_status" = JStr "pending".
Proof.
  destruct (one_row_per_reply demo_runtime lead_env one_comment [] full_request)
    as (w' & Hrun & Hrep & _).
  assert (Hw : w' = snd (invoke demo_runtime lead_env one_comment [] full_request))
    by (rewrite Hrun; reflexivity).
  rewrite <- Hw.
  destruct Hrep as (id & text & s & l & t & _ & _ & Hars).
  { rewrite Hw. eexists. split; [vm_compute; reflexivity|]. split; reflexivity. }
  rewrite Hars. eexists. split; reflexivity.
Defined.

(** Scenario B of the spec: the one status written is "ignored". *)
Lemma status_written_follows_answer_witness :
  status_writes (calls (snd (invoke demo_runtime spam_env one_comment [] full_request)))
    = [JStr "ignored"].
Proof.
  destruct (status_written_follows_answer demo_runtime spam_env one_comment [] full_request)
    as (w' & Hrun & Hignored & _).
  assert (Hw : w' = snd (invoke demo_runtime spam_env one_comment [] full_request))
    by (rewrite Hrun; reflexivity).
  rewrite <- Hw. apply Hignored. rewrite Hw. vm_compute. reflexivity.
Defined.

(** Scenario A of the spec: its requests, in the order of the handler. *)
Lemma requests_of_a_reply_in_order_witness :
  exists gen text tail,
    calls (snd (invoke demo_runtime lead_env one_comment [] full_request)) =
      ([SelectSingle "auto_reply_settings" "user_id" (JStr "u1");
        ChatCreate (sentiment_request demo_runtime lead_env (JStr "I love this!!"));
        UpdateEq "comments" [("sentiment", JStr "positive"); ("sentiment_score", JNum 0.9)]
          "id" (JStr "c1");
        UpdateEq "comments" [("is_liked", JBool true)] "id" (JStr "c1");
        SelectSingle "brand_voice" "user_id" (JStr "u1");
        SelectSingle "auto_reply_settings" "user_id" (JStr "u1")] ++
       gen ++ [insert_call lead_env full_request text] ++ tail)%list.
Proof.
  destruct (requests_of_a_reply_in_order demo_runtime lead_env one_comment [] full_request)
    as (w' & a & Hrun & Ha & Hreply).
  assert (Ha' : classification demo_runtime lead_env one_comment [] full_request =
                Normal {| sentiment := JStr "positive"; score := JNum 0.9 |})
    by (vm_compute; reflexivity).
  rewrite Ha' in Ha. injection Ha as <-.
  destruct Hreply as (gen & text & tail & Hcalls & _);
    [reflexivity | reflexivity | reflexivity | reflexivity |].
  exists gen, text, tail. rewrite Hrun. exact Hcalls.
Defined.
